(** * handcrafted_image_representations: search drivers, feature extraction,
      classification candidates and outlier candidates

    A shallow embedding of the Python sources

      - classic_image_classification/utils/data_split.py
      - handcrafted_image_representations/machine_learning/feature_extractor.py
      - classic_image_classification/machine_learning/classifier.py
      - handcrafted_image_representations/machine_learning/outlier_detector.py
      - handcrafted_image_representations/machine_learning/optimizing_image_classifier.py

    Conventions.  Python exceptions are values of [exn]; a call that may raise
    returns [result A = exn + A].  Python floats that are only compared,
    multiplied or truncated are rationals ([Q]); the distance computations of
    [OutlierByDistance], which take square roots, are real numbers ([R]).
    Dictionaries are [gmap]s, objects mutated in place live in an explicit
    store and are named by their index. *)

From Stdlib Require Import ZArith QArith Qround Reals Lra Lia.
From stdpp Require Import base option list strings gmap fin_maps.

Set Default Proof Using "Type".

(** ** Python values, exceptions and results *)

Inductive exn : Type :=
  | TypeError
  | ValueError
  | KeyError (key : string)
  | AttributeError
  | AssertionError (msg : string)
  | FileNotFoundError (path : string)
  | ZeroDivisionError
  | Exception (msg : string)
  | CvError.

Definition result (A : Type) : Type := exn + A.

Definition ok {A} (a : A) : result A := inr a.
Definition raise {A} (e : exn) : result A := inl e.

Definition bind {A B} (r : result A) (k : A -> result B) : result B :=
  match r with
  | inl e => inl e
  | inr a => k a
  end.

Notation "'do' x <- r ; k" := (bind r (fun x => k))
  (at level 10, x name, r at level 100, k at level 200).
Notation "'do' ' p <- r ; k" := (bind r (fun x => let 'p := x in k))
  (at level 10, p pattern, r at level 100, k at level 200).

Definition raises {A} (r : result A) : Prop := exists e, r = inl e.

(** The values a configuration entry can hold. *)
#[warnings="-register-all"]
Inductive pyval : Type :=
  | PyNone
  | PyInt (n : Z)
  | PyFloat (q : Q)
  | PyStr (s : string)
  | PyList (l : list pyval)
  | PyDict (d : list (string * pyval)).

(** The number of constructors of a value. *)
Fixpoint pysize (v : pyval) : nat :=
  match v with
  | PyList l => S (list_sum (map pysize l))
  | PyDict d => S (list_sum (map (fun kv => pysize (snd kv)) d))
  | _ => 1
  end.

(** ** Python operators used by the sources *)

Module Py.

(** Floats are compared as rationals. *)
Definition float_ge (a b : Q) : bool := Qle_bool b a.
Definition float_gt (a b : Q) : bool := negb (Qle_bool a b).
Definition float_lt (a b : Q) : bool := negb (Qle_bool b a).

(** [int(q)] truncates towards zero. *)
Definition int_of_float (q : Q) : Z := Z.quot (Qnum q) (Z.pos (Qden q)).

(** [needle in s] for two strings: [needle] occurs in [s]. *)
Fixpoint substring_in (needle s : string) : bool :=
  String.prefix needle s ||
  match s with
  | EmptyString => false
  | String _ s' => substring_in needle s'
  end.

(** [needle == v] for a string [needle]. *)
Definition str_eq (needle : string) (v : pyval) : bool :=
  match v with
  | PyStr s => String.eqb needle s
  | _ => false
  end.

(** [needle in v]: substring test on a string, membership on a list, key
    membership on a dict, [TypeError] on a value that is not iterable. *)
Definition contains (needle : string) (v : pyval) : result bool :=
  match v with
  | PyStr s => ok (substring_in needle s)
  | PyList l => ok (existsb (str_eq needle) l)
  | PyDict d => ok (existsb (fun kv => String.eqb needle (fst kv)) d)
  | PyNone | PyInt _ | PyFloat _ => raise TypeError
  end.

(** [for item in v]. *)
Definition iter (v : pyval) : result (list pyval) :=
  match v with
  | PyList l => ok l
  | PyStr s => ok (map (fun c => PyStr (String c EmptyString)) (String.list_ascii_of_string s))
  | PyDict d => ok (map (fun kv => PyStr (fst kv)) d)
  | PyNone | PyInt _ | PyFloat _ => raise TypeError
  end.

(** Type objects, and what an expression denotes as far as the identity
    test [is] is concerned: a type object, or an object created by the
    expression itself. *)
Inductive pytype : Type := NoneType | int | float | str | list_ | dict.

#[global] Instance pytype_eq_dec : EqDecision pytype.
Proof. solve_decision. Defined.

Definition type (v : pyval) : pytype :=
  match v with
  | PyNone => NoneType
  | PyInt _ => int
  | PyFloat _ => float
  | PyStr _ => str
  | PyList _ => list_
  | PyDict _ => dict
  end.

Inductive operand : Type :=
  | TypeObject (t : pytype)
  | NewObject (v : pyval).

(** [a is b]: a type object is identical to itself only; an object that an
    operand has just created is identical to nothing else. *)
Definition is_ (a b : operand) : bool :=
  match a, b with
  | TypeObject t, TypeObject t' => bool_decide (t = t')
  | _, _ => false
  end.

(** The expression [list()]: a new empty list. *)
Definition list_call : operand := NewObject (PyList []).

(** [assert cond, msg]. *)
Definition assert (cond : bool) (msg : string) : result unit :=
  if cond then ok tt else raise (AssertionError msg).

(** [os.path.join(a, b)] for a relative [b]. *)
Definition ends_with_slash (a : string) : bool :=
  match rev (String.list_ascii_of_string a) with
  | c :: _ => Ascii.eqb c (Ascii.ascii_of_nat 47)
  | [] => false
  end.

Definition join_prefix (a : string) : string :=
  if String.eqb a "" then ""
  else if ends_with_slash a then a
  else a ++ "/".

Definition os_path_join (a b : string) : string := join_prefix a ++ b.

End Py.

(** ** utils/data_split.py *)

Module DataSplit.

Section Split.
Context {Tag : Type}.

(** [split_random]: the draws of [np.random.randint(100)] are read from
    [draws], one per tag, in order. *)
Fixpoint split_random_loop (draws : nat -> Z) (i : nat) (list_of_tags : list Tag)
    (ratio : Q) (train_tags test_tags : list Tag) : list Tag * list Tag :=
  match list_of_tags with
  | [] => (train_tags, test_tags)
  | tag :: rest =>
      if Py.float_gt (inject_Z (draws i) / 100) ratio
      then split_random_loop draws (S i) rest ratio (train_tags ++ [tag]) test_tags
      else split_random_loop draws (S i) rest ratio train_tags (test_tags ++ [tag])
  end.

Definition split_random (draws : nat -> Z) (list_of_tags : list Tag) (ratio : Q)
    : list Tag * list Tag :=
  split_random_loop draws 0 list_of_tags ratio [] [].

(** [split_fixed]: [for i, tag in enumerate(list_of_tags)], with the test
    [i / 100 >= ratio]. *)
Fixpoint split_fixed_loop (i : nat) (list_of_tags : list Tag)
    (ratio : Q) (train_tags test_tags : list Tag) : list Tag * list Tag :=
  match list_of_tags with
  | [] => (train_tags, test_tags)
  | tag :: rest =>
      if Py.float_ge (inject_Z (Z.of_nat i) / 100) ratio
      then split_fixed_loop (S i) rest ratio (train_tags ++ [tag]) test_tags
      else split_fixed_loop (S i) rest ratio train_tags (test_tags ++ [tag])
  end.

Definition split_fixed (list_of_tags : list Tag) (ratio : Q) : list Tag * list Tag :=
  split_fixed_loop 0 list_of_tags ratio [] [].

Definition split_tags (draws : nat -> Z) (list_of_tags : list Tag) (ratio : Q)
    (mode : string) : result (list Tag * list Tag) :=
  if String.eqb mode "random" then ok (split_random draws list_of_tags ratio)
  else if String.eqb mode "fixed" then ok (split_fixed list_of_tags ratio)
  else raise (Exception ("Unknown mode - " ++ mode ++ " -")).
End Split.

(** The default [ratio=0.2]. *)
Definition default_ratio : Q := 2 # 10.

End DataSplit.

(** ** machine_learning/feature_extractor.py *)

Module FeatureExtractor.

(** [validate_feature_extraction_settings].  [and] evaluates its right
    operand only when the left one holds. *)
Definition validate_feature_extraction_settings
    (sampling_method : string) (features_to_use : pyval) : result (string * pyval) :=
  do kaze_feature <-
    (if negb (String.eqb sampling_method "kaze" || String.eqb sampling_method "akaze")
     then Py.contains "kaze" features_to_use
     else ok false);
  if kaze_feature then ok ("kaze", features_to_use)
  else
    do sift_only <-
      (if String.eqb sampling_method "sift"
       then do b <- Py.contains "sift" features_to_use; ok (negb b)
       else ok false);
    if sift_only then ok ("kaze", features_to_use)
    else ok (sampling_method, features_to_use).

(** A configured image dimension: unset, a pixel count or a fraction. *)
Inductive dim : Type :=
  | DNone
  | DInt (n : Z)
  | DFloat (q : Q).

Definition is_None (d : dim) : bool :=
  match d with DNone => true | _ => false end.

Record t : Type := {
  features_to_use : pyval;
  normalize : bool;
  sampling_method : string;
  sampling_steps : Z;
  sampling_window : Z;
  resize_option : string;
  img_height : dim;
  img_width : dim
}.

(** [FeatureExtractor.__init__].  The test is
    [type(features_to_use) is not list()]. *)
Definition __init__ (features_to_use : pyval) (normalize : bool)
    (sampling_method : string) (sampling_steps sampling_window : Z)
    (image_height image_width : dim) (resize_option : string) : result t :=
  do '(sampling_method, features_to_use) <-
    validate_feature_extraction_settings sampling_method features_to_use;
  let features_to_use :=
    if negb (Py.is_ (Py.TypeObject (Py.type features_to_use)) Py.list_call)
    then PyList [features_to_use]
    else features_to_use in
  ok {| features_to_use := features_to_use;
        normalize := normalize;
        sampling_method := sampling_method;
        sampling_steps := sampling_steps;
        sampling_window := sampling_window;
        resize_option := resize_option;
        img_height := image_height;
        img_width := image_width |}.

(** The constructor with its default arguments. *)
Definition new (features_to_use : pyval) (sampling_method : string)
    (image_height image_width : dim) : result t :=
  __init__ features_to_use true sampling_method 20 20 image_height image_width "standard".

(** A matrix is the list of its rows. *)
Definition Matrix : Type := list (list Q).

(** [np.concatenate(x, axis=1)]: the arrays must have the same number of rows. *)
Definition hstack2 (a b : Matrix) : result Matrix :=
  if Nat.eqb (length a) (length b) then ok (zip_with app a b) else raise ValueError.

Fixpoint hstack_from (acc : Matrix) (xs : list Matrix) : result Matrix :=
  match xs with
  | [] => ok acc
  | m :: rest => do acc' <- hstack2 acc m; hstack_from acc' rest
  end.

Definition np_concatenate_axis1 (x : list Matrix) : result Matrix :=
  match x with
  | [] => raise ValueError
  | m :: rest => hstack_from m rest
  end.

Section Extraction.
(** The pixel data, and OpenCV's cubic interpolation of it to a new size. *)
Context {Pixels : Type} (interpolate : Pixels -> Z -> Z -> Pixels).

Record Image : Type := {
  shape : Z * Z;          (* (height, width) *)
  pixels : Pixels
}.

(** [cv2.resize(image, (width, height), interpolation=cv2.INTER_CUBIC)]
    rejects an empty source and an empty target size. *)
Definition cv2_resize (image : Image) (width height : Z) : result Image :=
  if (0 <? fst (shape image))%Z && (0 <? snd (shape image))%Z
     && (0 <? width)%Z && (0 <? height)%Z
  then ok {| shape := (height, width); pixels := interpolate (pixels image) width height |}
  else raise CvError.

(** [d < 1]. *)
Definition lt_1 (d : dim) : result bool :=
  match d with
  | DNone => raise TypeError
  | DInt n => ok (n <? 1)%Z
  | DFloat q => ok (Py.float_lt q 1)
  end.

(** [int(o * d)] for an integer [o]. *)
Definition int_scaled (o : Z) (d : dim) : result Z :=
  match d with
  | DNone => raise TypeError
  | DInt n => ok (o * n)%Z
  | DFloat q => ok (Py.int_of_float (inject_Z o * q)%Q)
  end.

(** [d / o] for an integer [o]. *)
Definition div_by (d : dim) (o : Z) : result Q :=
  match d with
  | DNone => raise TypeError
  | DInt n => if (o =? 0)%Z then raise ZeroDivisionError else ok (inject_Z n / inject_Z o)%Q
  | DFloat q => if (o =? 0)%Z then raise ZeroDivisionError else ok (q / inject_Z o)%Q
  end.

(** [int(d)]. *)
Definition int_of_dim (d : dim) : result Z :=
  match d with
  | DNone => raise TypeError
  | DInt n => ok n
  | DFloat q => ok (Py.int_of_float q)
  end.

(** [FeatureExtractor.resize]. *)
Definition resize (image : Image) (height width : dim) : result Image :=
  if is_None height && is_None width then ok image
  else
    let '(o_height, o_width) := shape image in
    do small <- (do h_small <- lt_1 height; if h_small then ok true else lt_1 width);
    if small then
      do height <- int_scaled o_height height;
      do width <- int_scaled o_width width;
      cv2_resize image width height
    else
      do height <-
        (if is_None height
         then do r <- div_by width o_width;
              ok (DInt (Py.int_of_float (inject_Z o_height * r)%Q))
         else ok height);
      do width <-
        (if is_None width
         then do r <- div_by height o_height;
              ok (DInt (Py.int_of_float (inject_Z o_width * r)%Q))
         else ok width);
      do w <- int_of_dim width;
      do h <- int_of_dim height;
      cv2_resize image w h.

(** The key point sampler and the descriptors are external.
    [compute feature image kp_set] is [DescriptorSet(feature).compute(image, kp_set)]:
    a matrix, or [None]. *)
Record KeyPointSet : Type := {
  kp_method : string;
  kp_steps : Z;
  kp_window : Z
}.

Context (compute : pyval -> Image -> KeyPointSet -> result (option Matrix)).

Fixpoint extract_x_loop (features : list pyval) (image : Image) (kp_set : KeyPointSet)
    (x : list Matrix) : result (list Matrix) :=
  match features with
  | [] => ok x
  | feature :: rest =>
      do dc_x <- compute feature image kp_set;
      match dc_x with
      | None => extract_x_loop rest image kp_set x
      | Some m => extract_x_loop rest image kp_set (x ++ [m])
      end
  end.

(** [FeatureExtractor.extract_x]. *)
Definition extract_x (self : t) (image : Image) : result (option Matrix) :=
  let kp_set := {| kp_method := sampling_method self;
                   kp_steps := sampling_steps self;
                   kp_window := sampling_window self |} in
  do image <- resize image (img_height self) (img_width self);
  do features <- Py.iter (features_to_use self);
  do x <- extract_x_loop features image kp_set [];
  match x with
  | [] => ok None
  | [m] => ok (Some m)
  | _ => do m <- np_concatenate_axis1 x; ok (Some m)
  end.

(** A tag of the dataset: its image and its label. *)
Record Tag : Type := {
  load_data : result Image;
  load_y : Z
}.

Fixpoint extract_loop (self : t) (tags : list Tag)
    (x : list (option Matrix)) (y : list Z) : result (list (option Matrix) * list Z) :=
  match tags with
  | [] => ok (x, y)
  | tag :: rest =>
      do tag_data <- load_data tag;
      do x_tag <- extract_x self tag_data;
      let y_tag := load_y tag in
      extract_loop self rest (x ++ [x_tag]) (y ++ [y_tag])
  end.

(** [x is not None] for the list object [x]: a list is never [None]. *)
Definition list_is_not_None {A} (x : list A) : bool := true.

(** [FeatureExtractor.extract_trainings_data]. *)
Definition extract_trainings_data (self : t) (tags : list Tag)
    : result (list (option Matrix) * list Z) :=
  do '(x, y) <- extract_loop self tags [] [];
  do checked <- Py.assert (list_is_not_None x) "No Feature was activated";
  ok (x, y).
End Extraction.

End FeatureExtractor.

(** ** machine_learning/classifier.py *)

(** numpy reductions over a whole array: [np.argmax(prob)] and [np.max(prob)]
    with no axis work on the flattened array and raise [ValueError] on an
    empty one; [np.argmax] returns the first position of the maximum. *)
Module Np.

Fixpoint argmax_from (best : Q) (best_i i : nat) (l : list Q) : nat :=
  match l with
  | [] => best_i
  | q :: rest =>
      if Py.float_gt q best then argmax_from q i (S i) rest
      else argmax_from best best_i (S i) rest
  end.

Definition argmax (prob : list (list Q)) : result nat :=
  match concat prob with
  | [] => raise ValueError
  | q :: rest => ok (argmax_from q 0 1 rest)
  end.

Fixpoint max_from (best : Q) (l : list Q) : Q :=
  match l with
  | [] => best
  | q :: rest => if Py.float_gt q best then max_from q rest else max_from best rest
  end.

Definition max (prob : list (list Q)) : result Q :=
  match concat prob with
  | [] => raise ValueError
  | q :: rest => ok (max_from q rest)
  end.

End Np.

Module Classifier.

Section Classifier.
(** The type of an input batch. *)
Context {X : Type}.

(** The underlying statistical model is external.  It may or may not have a
    [predict_proba] attribute; its methods may raise. *)
Record Estimator : Type := {
  predict_proba : option (X -> result (list (list Q)));
  estimator_predict : X -> result (list Z)
}.

Record t : Type := {
  opt : pyval;
  class_mapping : option (list (string * Z));
  class_mapping_inv : option (list (Z * string));
  classifier : option Estimator;
  best_params : option pyval;
  best_score : option Q
}.

(** [Classifier.__init__]. *)
Definition __init__ (opt : pyval) (class_mapping : option (list (string * Z))) : t :=
  {| opt := opt;
     class_mapping := class_mapping;
     class_mapping_inv := None;
     classifier := None;
     best_params := None;
     best_score := None |}.

(** Attribute access on [self.classifier], which may be [None]. *)
Definition get_predict_proba (clf : option Estimator) : result (X -> result (list (list Q))) :=
  match clf with
  | None => raise AttributeError
  | Some m =>
      match predict_proba m with
      | None => raise AttributeError
      | Some f => ok f
      end
  end.

Definition get_predict (clf : option Estimator) : result (X -> result (list Z)) :=
  match clf with
  | None => raise AttributeError
  | Some m => ok (estimator_predict m)
  end.

(** What [predict] returns: the labels, or the pair of the labels and a
    confidence. *)
Inductive prediction : Type :=
  | Labels (y : list Z)
  | LabelsConfidence (y : list Z) (confidence : Q).

Definition labels_of (p : prediction) : list Z :=
  match p with
  | Labels y => y
  | LabelsConfidence y _ => y
  end.

(** The body of the [try] block of [predict]. *)
Definition try_predict_proba (self : t) (x : X) : result prediction :=
  do f <- get_predict_proba (classifier self);
  do prob <- f x;
  do i <- Np.argmax prob;
  do p <- Np.max prob;
  ok (LabelsConfidence [Z.of_nat i] p).

(** The handler of the bare [except:]. *)
Definition full_confidence (self : t) (x : X) : result prediction :=
  do g <- get_predict (classifier self);
  do y <- g x;
  ok (LabelsConfidence y 1).

(** [Classifier.predict]. *)
Definition predict (self : t) (x : X) (get_confidence : bool) : result prediction :=
  if get_confidence then
    match try_predict_proba self x with
    | inr r => ok r
    | inl _ => full_confidence self x
    end
  else
    do g <- get_predict (classifier self);
    do y <- g x;
    ok (Labels y).

(** The full-confidence fallback is taken when the [try] block raises. *)
Definition fallback_taken (self : t) (x : X) : Prop :=
  raises (try_predict_proba self x).

(** *** Persistence *)

(** What a file of the model folder holds. *)
Inductive file : Type :=
  | JsonMapping (class_mapping : option (list (string * Z)))
  | JsonOpt (opt : pyval)
  | Joblib (model : Estimator).

(** Modelled from the spec: [utils.check_n_make_dir], which is not among the
    sources; with [clean=True] it clears any directory that exists at the
    target path before anything is written. *)
Definition check_n_make_dir (fs : gmap string file) (path : string) (clean : bool)
    : gmap string file :=
  if clean
  then filter (fun kv => String.prefix (Py.join_prefix path) (fst kv) = false) fs
  else fs.

(** Modelled from the spec: [utils.save_dict] and [utils.load_dict], which
    are not among the sources; they write a dictionary to a JSON file and read
    it back. *)
Definition save_mapping (d : option (list (string * Z))) (path : string)
    (fs : gmap string file) : gmap string file :=
  <[path := JsonMapping d]> fs.

Definition save_opt (d : pyval) (path : string) (fs : gmap string file)
    : gmap string file :=
  <[path := JsonOpt d]> fs.

Definition load_mapping (fs : gmap string file) (path : string)
    : result (option (list (string * Z))) :=
  match fs !! path with
  | Some (JsonMapping d) => ok d
  | Some _ => raise ValueError
  | None => raise (FileNotFoundError path)
  end.

Definition load_opt (fs : gmap string file) (path : string) : result pyval :=
  match fs !! path with
  | Some (JsonOpt d) => ok d
  | Some _ => raise ValueError
  | None => raise (FileNotFoundError path)
  end.

(** [joblib.dump] and [joblib.load]: the model state is an opaque blob. *)
Definition joblib_dump (m : Estimator) (path : string) (fs : gmap string file)
    : gmap string file :=
  <[path := Joblib m]> fs.

Definition joblib_load (fs : gmap string file) (path : string) : result Estimator :=
  match fs !! path with
  | Some (Joblib m) => ok m
  | Some _ => raise ValueError
  | None => raise (FileNotFoundError path)
  end.

(** [d[k] = v] on a dictionary kept in insertion order. *)
Fixpoint dict_set (k : Z) (v : string) (d : list (Z * string)) : list (Z * string) :=
  match d with
  | [] => [(k, v)]
  | (k', v') :: rest =>
      if (k =? k')%Z then (k', v) :: rest else (k', v') :: dict_set k v rest
  end.

(** [{v: k for k, v in class_mapping.items()}]. *)
Definition invert (class_mapping : list (string * Z)) : list (Z * string) :=
  fold_left (fun inv kv => dict_set (snd kv) (fst kv) inv) class_mapping [].

(** [Classifier.save]. *)
Definition save (self : t) (fs : gmap string file) (model_path : string)
    : gmap string file :=
  let path_to_class_mapping := Py.os_path_join model_path "class_mapping.json" in
  let path_to_pipeline_opt := Py.os_path_join model_path "pipeline_opt.json" in
  let path_to_classifier := Py.os_path_join model_path "classifier.pkl" in
  let fs := check_n_make_dir fs model_path true in
  let fs := save_mapping (class_mapping self) path_to_class_mapping fs in
  let fs := save_opt (opt self) path_to_pipeline_opt fs in
  match classifier self with
  | Some m => joblib_dump m path_to_classifier fs
  | None => fs
  end.

(** [Classifier.load]. *)
Definition load (self : t) (fs : gmap string file) (model_path : string) : result t :=
  let path_to_class_mapping := Py.os_path_join model_path "class_mapping.json" in
  let path_to_pipeline_opt := Py.os_path_join model_path "pipeline_opt.json" in
  let path_to_classifier := Py.os_path_join model_path "classifier.pkl" in
  do cm <- load_mapping fs path_to_class_mapping;
  do o <- load_opt fs path_to_pipeline_opt;
  do m <- joblib_load fs path_to_classifier;
  ok {| opt := o;
        class_mapping := cm;
        class_mapping_inv :=
          match cm with
          | Some d => Some (invert d)
          | None => class_mapping_inv self
          end;
        classifier := Some m;
        best_params := best_params self;
        best_score := best_score self |}.
End Classifier.

Arguments Estimator : clear implicits.
Arguments t : clear implicits.
Arguments file : clear implicits.

End Classifier.

(** ** machine_learning/outlier_detector.py: OutlierByDistance *)

Module OutlierByDistance.

Local Open Scope R_scope.

(** A matrix is the list of its rows; numpy arrays are rectangular. *)
Definition Matrix : Type := list (list R).

Definition rectangular (ncols : nat) (x : Matrix) : Prop :=
  Forall (fun row => length row = ncols) x.

Definition sum (l : list R) : R := fold_right Rplus 0 l.

Definition mean (l : list R) : R := sum l / INR (length l).

Definition column (j : nat) (x : Matrix) : list R := map (fun row => nth j row 0) x.

Definition ncols (x : Matrix) : nat := length (hd [] x).

(** [np.mean(x, axis=0)]. *)
Definition np_mean_axis0 (x : Matrix) : list R :=
  map (fun j => mean (column j x)) (seq 0 (ncols x)).

(** [np.std(x, axis=0)]: the population standard deviation of each column. *)
Definition std (l : list R) : R :=
  sqrt (mean (map (fun v => Rsqr (v - mean l)) l)).

Definition np_std_axis0 (x : Matrix) : list R :=
  map (fun j => std (column j x)) (seq 0 (ncols x)).

(** [x_std[x_std == 0.0] = 1e-9]. *)
Definition epsilon : R := / 1000000000.

Definition floor_zero (x_std : list R) : list R :=
  map (fun s => if Req_dec_T s 0 then epsilon else s) x_std.

(** [np.max] and [np.min] of a vector; both raise on an empty one. *)
Definition np_max (l : list R) : result R :=
  match l with
  | [] => raise ValueError
  | d :: rest => ok (fold_left Rmax rest d)
  end.

Definition np_min (l : list R) : result R :=
  match l with
  | [] => raise ValueError
  | d :: rest => ok (fold_left Rmin rest d)
  end.

Record t : Type := {
  x_mean : option (list R);
  x_std : option (list R);
  max_distance : option R;
  min_distance : option R
}.

Definition __init__ : t :=
  {| x_mean := None; x_std := None; max_distance := None; min_distance := None |}.

(** The distance of one row: [sqrt(sum(square((row - x_mean) / x_std)))]. *)
Fixpoint standardized (row x_mean x_std : list R) : list R :=
  match row, x_mean, x_std with
  | v :: row', m :: mean', s :: std' => Rsqr ((v - m) / s) :: standardized row' mean' std'
  | _, _, _ => []
  end.

Definition row_distance (x_mean x_std : list R) (row : list R) : R :=
  sqrt (sum (standardized row x_mean x_std)).

(** [compute_distance].  Arithmetic with an unset attribute is a
    [TypeError]; rows that do not have the length of the mean do not
    broadcast. *)
Definition compute_distance (self : t) (x : Matrix) : result (list R) :=
  match x_mean self, x_std self with
  | Some m, Some s =>
      if forallb (fun row => Nat.eqb (length row) (length m)
                             && Nat.eqb (length row) (length s)) x
      then ok (map (row_distance m s) x)
      else raise ValueError
  | _, _ => raise TypeError
  end.

(** [fit]. *)
Definition fit (self : t) (x : Matrix) : result t :=
  let self :=
    {| x_mean := Some (np_mean_axis0 x);
       x_std := Some (floor_zero (np_std_axis0 x));
       max_distance := max_distance self;
       min_distance := min_distance self |} in
  do dist <- compute_distance self x;
  do mx <- np_max dist;
  do mn <- np_min dist;
  ok {| x_mean := x_mean self;
        x_std := x_std self;
        max_distance := Some mx;
        min_distance := Some mn |}.

(** [score_sample]. *)
Definition score_sample (self : t) (x : Matrix) : result (list R) :=
  do distance <- compute_distance self x;
  ok (map (fun d => -1 * d) distance).

(** [predict]: an array of zeros, then the two masked assignments. *)
Definition predict (self : t) (x : Matrix) : result (list R) :=
  do distance <- compute_distance self x;
  let prediction := map (fun _ => 0) distance in
  do mx <- (match max_distance self with Some m => ok m | None => raise TypeError end);
  let prediction :=
    zip_with (fun d p => if Rlt_dec mx d then -1 else p) distance prediction in
  let prediction :=
    zip_with (fun d p => if Rle_dec d mx then 1 else p) distance prediction in
  ok prediction.

End OutlierByDistance.

(** ** The search drivers *)

(** What both drivers share: the configuration dictionary and the objects
    they fit.  Aggregators, classifiers and outlier models are external; a
    method that mutates its object returns the object's new state, and the
    drivers keep the objects of a list in a store, naming each by its
    position. *)
Module Search.

(** [d[k]] on a configuration value. *)
Definition getitem (v : pyval) (k : string) : result pyval :=
  match v with
  | PyDict d =>
      match find (fun kv => String.eqb k (fst kv)) d with
      | Some kv => ok (snd kv)
      | None => raise (KeyError k)
      end
  | _ => raise TypeError
  end.

(** [opt[k]] on the configuration dictionary. *)
Definition lookup_key (opt : gmap string pyval) (k : string) : result pyval :=
  match opt !! k with
  | Some v => ok v
  | None => raise (KeyError k)
  end.

(** [current_opt = copy.deepcopy(opt)] followed by
    [for k in override: current_opt[k] = override[k]]. *)
Definition overridden (override opt : gmap string pyval) : gmap string pyval :=
  override ∪ opt.

(** [for k in override: if k not in opt: continue; opt[k] = override[k]]. *)
Definition overridden_existing (override opt : gmap string pyval) : gmap string pyval :=
  filter (fun kv => is_Some (opt !! fst kv)) override ∪ opt.

(** Modelled from the spec: the Aggregation Stage, which is not among the
    sources.  [fit_transform] learns the aggregator's state from the training
    features and returns their representation; [transform] applies the
    learned state and never mutates it.  Both results are taken after the
    [np.concatenate(..., axis=0)] of the drivers. *)
Class Aggregation (Aggregator Features Data : Type) : Type := {
  aggregator_opt : Aggregator -> gmap string pyval;
  fit_transform : Aggregator -> Features -> Aggregator * Data;
  transform : Aggregator -> Features -> Data
}.

End Search.

(** ** machine_learning/optimizing_image_classifier.py *)

Module OptimizingImageClassifier.
Import Search.

Section Driver.
Context {Aggregator Features Data Clf ClassMapping : Type}.
Context `{!Aggregation Aggregator Features Data}.

(** Modelled from the spec: the Classification Candidate of this package,
    which is not among the sources.  [fit] trains the object's model,
    [evaluate] returns the macro-averaged F1 on held-out data. *)
Context (classifier_opt : Clf -> gmap string pyval).
Context (classifier_fit : Clf -> Data -> list Z -> Clf).
Context (classifier_evaluate : Clf -> Data -> list Z -> Q).

(** The keyword arguments that [fit] reads from [current_opt] to build the
    [ImageClassifier]. *)
Record Settings : Type := {
  image_size_height : pyval;
  image_size_width : pyval;
  aggregator : pyval;
  complexity : pyval;
  feature : pyval;
  sampling_method : pyval;
  sampling_step : pyval;
  sampling_window : pyval;
  clf_type : pyval
}.

Definition settings_of (current_opt : gmap string pyval) : result Settings :=
  do size_h <- lookup_key current_opt "image_size";
  do height <- getitem size_h "height";
  do size_w <- lookup_key current_opt "image_size";
  do width <- getitem size_w "width";
  do aggregator <- lookup_key current_opt "aggregator";
  do complexity <- lookup_key current_opt "complexity";
  do feature <- lookup_key current_opt "feature";
  do sampling_method <- lookup_key current_opt "sampling_method";
  do sampling_step <- lookup_key current_opt "sampling_step";
  do sampling_window <- lookup_key current_opt "sampling_window";
  do clf_type <- lookup_key current_opt "clf_type";
  ok {| image_size_height := height;
        image_size_width := width;
        aggregator := aggregator;
        complexity := complexity;
        feature := feature;
        sampling_method := sampling_method;
        sampling_step := sampling_step;
        sampling_window := sampling_window;
        clf_type := clf_type |}.

(** The [ImageClassifier] that [fit] assembles; its aggregator and its
    classifier are the objects of the two lists, named by position. *)
Record ImageClassifier : Type := {
  ic_class_mapping : ClassMapping;
  ic_settings : Settings;
  ic_feature_extractor : FeatureExtractor.t;
  ic_aggregator : nat;
  ic_classifier : nat
}.

(** Modelled from the spec: [ImageClassifier.save], which is not among the
    sources, writes the full resolved pipeline to the model folder: the
    resolved configuration, the aggregator state, the model state and the
    class mapping, as they are at the time of the call. *)
Record Checkpoint : Type := {
  saved_class_mapping : ClassMapping;
  saved_settings : Settings;
  saved_feature_extractor : FeatureExtractor.t;
  saved_aggregator : Aggregator;
  saved_classifier : Clf
}.

(** The state of a run: the two object stores, the locals [best_f1_score]
    and [best_candidate], [self.final_classifier] and the model folder. *)
Record state : Type := {
  aggregator_list : list Aggregator;
  classifier_list : list Clf;
  best_f1_score : Q;
  best_candidate : option (nat * nat);
  final_classifier : option ImageClassifier;
  model_folder : option Checkpoint
}.

(** What a run reads and never changes. *)
Record inputs : Type := {
  opt : gmap string pyval;
  class_mapping : ClassMapping;
  feature_extractor : FeatureExtractor.t;
  x_train : Features;
  y_train : list Z;
  x_test : Features;
  y_test : list Z
}.

(** The body of [if f_1_score >= best_f1_score:] for the aggregator at
    position [a] and the classifier at position [c].  A key that
    [current_opt] lacks ends the run with [KeyError], after the two locals
    were assigned and before anything is saved. *)
Definition track_best (inp : inputs) (a c : nat) (agg : Aggregator) (cls : Clf)
    (f_1_score : Q) (st : state) : state * option exn :=
  if Py.float_ge f_1_score (best_f1_score st) then
    let current_opt :=
      overridden (classifier_opt cls) (overridden (aggregator_opt agg) (opt inp)) in
    match settings_of current_opt with
    | inl e =>
        ({| aggregator_list := aggregator_list st;
            classifier_list := classifier_list st;
            best_f1_score := f_1_score;
            best_candidate := Some (a, c);
            final_classifier := final_classifier st;
            model_folder := model_folder st |}, Some e)
    | inr settings =>
        ({| aggregator_list := aggregator_list st;
            classifier_list := classifier_list st;
            best_f1_score := f_1_score;
            best_candidate := Some (a, c);
            final_classifier :=
              Some {| ic_class_mapping := class_mapping inp;
                      ic_settings := settings;
                      ic_feature_extractor := feature_extractor inp;
                      ic_aggregator := a;
                      ic_classifier := c |};
            model_folder :=
              Some {| saved_class_mapping := class_mapping inp;
                      saved_settings := settings;
                      saved_feature_extractor := feature_extractor inp;
                      saved_aggregator := agg;
                      saved_classifier := cls |} |}, None)
    end
  else (st, None).

(** One candidate: [cls.fit], [cls.evaluate], then the comparison.  The
    classifier object is fitted in place. *)
Definition evaluate_candidate (inp : inputs) (a : nat) (agg : Aggregator)
    (x_transformed_train x_transformed_test : Data) (c : nat) (cls : Clf) (st : state)
    : state * option exn :=
  let cls := classifier_fit cls x_transformed_train (y_train inp) in
  let st := {| aggregator_list := aggregator_list st;
               classifier_list := <[c := cls]> (classifier_list st);
               best_f1_score := best_f1_score st;
               best_candidate := best_candidate st;
               final_classifier := final_classifier st;
               model_folder := model_folder st |} in
  let f_1_score := classifier_evaluate cls x_transformed_test (y_test inp) in
  track_best inp a c agg cls f_1_score st.

(** [for cls in self.classifier_list], from position [c] on. *)
Fixpoint classifier_loop (inp : inputs) (a : nat) (agg : Aggregator)
    (x_transformed_train x_transformed_test : Data) (c : nat) (todo : list Clf) (st : state)
    : state * option exn :=
  match todo with
  | [] => (st, None)
  | cls :: rest =>
      match evaluate_candidate inp a agg x_transformed_train x_transformed_test c cls st with
      | (st, None) =>
          classifier_loop inp a agg x_transformed_train x_transformed_test (S c) rest st
      | (st, Some e) => (st, Some e)
      end
  end.

(** The body of [for aggregator in self.aggregator_list]: the aggregator is
    fitted in place, then every classifier is tried on its output.  The
    classifiers are the objects as the previous aggregator left them. *)
Definition aggregator_step (inp : inputs) (a : nat) (agg : Aggregator) (st : state)
    : state * option exn :=
  let '(agg, x_transformed_train) := fit_transform agg (x_train inp) in
  let x_transformed_test := transform agg (x_test inp) in
  let st := {| aggregator_list := <[a := agg]> (aggregator_list st);
               classifier_list := classifier_list st;
               best_f1_score := best_f1_score st;
               best_candidate := best_candidate st;
               final_classifier := final_classifier st;
               model_folder := model_folder st |} in
  classifier_loop inp a agg x_transformed_train x_transformed_test 0 (classifier_list st) st.

Fixpoint aggregator_loop (inp : inputs) (a : nat) (todo : list Aggregator) (st : state)
    : state * option exn :=
  match todo with
  | [] => (st, None)
  | agg :: rest =>
      match aggregator_step inp a agg st with
      | (st, None) => aggregator_loop inp (S a) rest st
      | (st, Some e) => (st, Some e)
      end
  end.

(** The state at the start of the loops, after [self.new()] has built the
    two lists; [model_folder] is what the folder held before the run. *)
Definition initial (aggregators : list Aggregator) (classifiers : list Clf)
    (folder : option Checkpoint) : state :=
  {| aggregator_list := aggregators;
     classifier_list := classifiers;
     best_f1_score := 0;
     best_candidate := None;
     final_classifier := None;
     model_folder := folder |}.

(** [OptimizingImageClassifier.fit], from the loops on: the final state, and
    the updated [self.opt] with the returned score, or the exception.  With
    no candidate recorded, [best_candidate[0]] is a [TypeError]. *)
Definition fit (inp : inputs) (aggregators : list Aggregator) (classifiers : list Clf)
    (folder : option Checkpoint) : state * result (gmap string pyval * Q) :=
  match aggregator_loop inp 0 aggregators (initial aggregators classifiers folder) with
  | (st, Some e) => (st, raise e)
  | (st, None) =>
      match best_candidate st with
      | None => (st, raise TypeError)
      | Some (a, c) =>
          match aggregator_list st !! a, classifier_list st !! c with
          | Some agg, Some cls =>
              (st, ok (overridden_existing (classifier_opt cls)
                         (overridden_existing (aggregator_opt agg) (opt inp)),
                       best_f1_score st))
          | _, _ => (st, raise TypeError)   (* the positions recorded are in range *)
          end
      end
  end.

(** The pipeline of a candidate: the aggregator fitted on the training
    features, and the classifier fitted on their representation. *)
Definition fitted_aggregator (inp : inputs) (agg0 : Aggregator) : Aggregator :=
  fst (fit_transform agg0 (x_train inp)).

Definition fitted_classifier (inp : inputs) (agg0 : Aggregator) (cls0 : Clf) : Clf :=
  classifier_fit cls0 (snd (fit_transform agg0 (x_train inp))) (y_train inp).

(** The score of a pipeline on the held-out data. *)
Definition held_out_score (inp : inputs) (agg : Aggregator) (cls : Clf) : Q :=
  classifier_evaluate cls (transform agg (x_test inp)) (y_test inp).

(** The model folder holds the pipeline of the recorded candidate, fitted
    on the training split, and the recorded score is the held-out score of
    what the folder holds. *)
Definition checkpoint_is_best (inp : inputs) (aggregators : list Aggregator)
    (st : state) : Prop :=
  (0 <= best_f1_score st)%Q
  /\ match best_candidate st with
     | None => True
     | Some (a, c) =>
         exists (agg0 : Aggregator) (cls0 : Clf) (settings : Settings),
           aggregators !! a = Some agg0
           /\ settings_of
                (overridden (classifier_opt (fitted_classifier inp agg0 cls0))
                   (overridden (aggregator_opt (fitted_aggregator inp agg0)) (opt inp)))
              = ok settings
           /\ model_folder st
              = Some {| saved_class_mapping := class_mapping inp;
                        saved_settings := settings;
                        saved_feature_extractor := feature_extractor inp;
                        saved_aggregator := fitted_aggregator inp agg0;
                        saved_classifier := fitted_classifier inp agg0 cls0 |}
           /\ held_out_score inp (fitted_aggregator inp agg0) (fitted_classifier inp agg0 cls0)
              = best_f1_score st
     end.
End Driver.

End OptimizingImageClassifier.

(** ** machine_learning/outlier_detector.py: OutlierDetectorAggregatorSearch *)

Module OutlierDetectorAggregatorSearch.
Import Search.

Section Driver.
Context {Aggregator Features Data Remover Scores ClassMapping : Type}.
Context `{!Aggregation Aggregator Features Data}.

(** The outlier model ([OutlierByDistance] or [OutlierByGaussianProcess])
    through the two operations the driver calls, and
    [sklearn.metrics.roc_auc_score]. *)
Context (remover_fit : Remover -> Data -> list Z -> Remover).
Context (remover_score_sample : Remover -> Data -> Scores).
Context (roc_auc_score : list Z -> Scores -> Q).

(** What [self.save(model_folder, current_opt)] writes: the options, the
    class mapping, and the states of [self.final_aggregator] and
    [self.final_remover] at the time of the call. *)
Record Checkpoint : Type := {
  saved_opt : gmap string pyval;
  saved_class_mapping : ClassMapping;
  saved_aggregator : Aggregator;
  saved_remover : Remover
}.

(** The state of a run.  There is one remover object, [self.remover];
    [self.final_remover] is either unset or that same object. *)
Record state : Type := {
  aggregator_list : list Aggregator;
  remover : Remover;
  best_score : Q;
  best_candidate : option nat;
  final_aggregator : option nat;
  final_remover : bool;
  model_folder : option Checkpoint
}.

Record inputs : Type := {
  opt : gmap string pyval;
  class_mapping : ClassMapping;
  x : Features;
  y : list Z;
  x_test : Features;
  y_test : list Z
}.

(** [y_test[y_test != -1] = 1]. *)
Definition nominal_or_outlier (y_test : list Z) : list Z :=
  map (fun label => if (label =? -1)%Z then (-1)%Z else 1%Z) y_test.

(** The body of [if score > best_score:]. *)
Definition track_best (inp : inputs) (a : nat) (agg : Aggregator) (score : Q) (st : state)
    : state :=
  if Py.float_gt score (best_score st) then
    let current_opt := overridden (aggregator_opt agg) (opt inp) in
    {| aggregator_list := aggregator_list st;
       remover := remover st;
       best_score := score;
       best_candidate := Some a;
       final_aggregator := Some a;
       final_remover := true;
       model_folder :=
         Some {| saved_opt := current_opt;
                 saved_class_mapping := class_mapping inp;
                 saved_aggregator := agg;
                 saved_remover := remover st |} |}
  else st.

(** The AUROC of the candidate at position [a], with the objects it leaves
    behind: the aggregator and the remover are fitted in place. *)
Definition evaluate_candidate (inp : inputs) (a : nat) (agg : Aggregator) (st : state)
    : Aggregator * state * Q :=
  let '(agg, x_transformed) := fit_transform agg (x inp) in
  let x_transformed_test := transform agg (x_test inp) in
  let rem := remover_fit (remover st) x_transformed (y inp) in
  let y_rm := remover_score_sample rem x_transformed_test in
  let score := roc_auc_score (nominal_or_outlier (y_test inp)) y_rm in
  (agg,
   {| aggregator_list := <[a := agg]> (aggregator_list st);
      remover := rem;
      best_score := best_score st;
      best_candidate := best_candidate st;
      final_aggregator := final_aggregator st;
      final_remover := final_remover st;
      model_folder := model_folder st |},
   score).

(** The body of [for aggregator in self.aggregator_list]. *)
Definition fit_step (inp : inputs) (a : nat) (agg : Aggregator) (st : state) : state :=
  let '(agg, st, score) := evaluate_candidate inp a agg st in
  track_best inp a agg score st.

Fixpoint fit_loop (inp : inputs) (a : nat) (todo : list Aggregator) (st : state) : state :=
  match todo with
  | [] => st
  | agg :: rest => fit_loop inp (S a) rest (fit_step inp a agg st)
  end.

Definition initial (aggregators : list Aggregator) (rem : Remover)
    (folder : option Checkpoint) : state :=
  {| aggregator_list := aggregators;
     remover := rem;
     best_score := 0;
     best_candidate := None;
     final_aggregator := None;
     final_remover := false;
     model_folder := folder |}.

(** [self.opt[k]] for every [k] of the best aggregator's options, as the
    report after the loop reads it. *)
Fixpoint report_keys (keys : list string) (opt : gmap string pyval) : result unit :=
  match keys with
  | [] => ok tt
  | k :: rest => do v <- lookup_key opt k; report_keys rest opt
  end.

(** [OutlierDetectorAggregatorSearch.fit], from the loop on.  With no
    candidate recorded, [best_candidate.opt] is an [AttributeError]. *)
Definition fit (inp : inputs) (aggregators : list Aggregator) (rem : Remover)
    (folder : option Checkpoint) : state * result (gmap string pyval * Q) :=
  let st := fit_loop inp 0 aggregators (initial aggregators rem folder) in
  match best_candidate st with
  | None => (st, raise AttributeError)
  | Some a =>
      match aggregator_list st !! a with
      | Some agg =>
          (st,
           do reported <- report_keys (map fst (map_to_list (aggregator_opt agg))) (opt inp);
           ok (overridden (aggregator_opt agg) (opt inp), best_score st))
      | None => (st, raise AttributeError)   (* the position recorded is in range *)
      end
  end.
End Driver.

End OutlierDetectorAggregatorSearch.

(** Sample data for the feature extractor. *)

Module FeatureExtractorSamples.
Import FeatureExtractor.

(** A batch of two tags on which the only descriptor finds nothing. *)
Definition blank_image : @Image unit :=
  {| shape := (64%Z, 64%Z); pixels := tt |}.

Definition no_descriptor (feature : pyval) (image : @Image unit) (kp : KeyPointSet)
    : result (option Matrix) := ok None.

Definition hog_extractor : FeatureExtractor.t :=
  {| features_to_use := PyList [PyStr "gray-hog"];
     normalize := true;
     sampling_method := "dense";
     sampling_steps := 20;
     sampling_window := 20;
     resize_option := "standard";
     img_height := DNone;
     img_width := DNone |}.

Definition blank_batch : list (@Tag unit) :=
  [ {| load_data := ok blank_image; load_y := 0%Z |};
    {| load_data := ok blank_image; load_y := 1%Z |} ].

End FeatureExtractorSamples.

(** Sample data for the classifier: batches are matrices, one row per
    sample. *)

Module ClassifierSamples.
Import Classifier.

Definition Batch : Type := list (list Q).

(** A two-class model on one feature [f] in [0, 1]: the class probabilities
    of a row are [1 - f] and [f], the predicted label is 1 when [f] exceeds
    one half.  Its labels are the class indices 0 and 1. *)
Definition feature_of (row : list Q) : Q := hd 0%Q row.

Definition threshold_estimator : Estimator Batch :=
  {| predict_proba :=
       Some (fun x => ok (map (fun row => [Qred (1 - feature_of row); feature_of row]) x));
     estimator_predict :=
       fun x => ok (map (fun row => if Py.float_gt (feature_of row) (1 # 2)
                                    then 1%Z else 0%Z) x) |}.

(** A model that has a [predict_proba] method which fails when it is called
    (a shape mismatch, say), while its [predict] works. *)
Definition failing_proba_estimator : Estimator Batch :=
  {| predict_proba := Some (fun _ => raise ValueError);
     estimator_predict := fun x => ok (map (fun _ => 0%Z) x) |}.

(** A model without [predict_proba]. *)
Definition plain_estimator : Estimator Batch :=
  {| predict_proba := None;
     estimator_predict := fun x => ok (map (fun _ => 0%Z) x) |}.

Definition fitted (m : Estimator Batch) : Classifier.t Batch :=
  {| opt := PyDict [("type", PyStr "lr")];
     class_mapping := Some [("cat", 0%Z); ("dog", 1%Z)];
     class_mapping_inv := None;
     classifier := Some m;
     best_params := None;
     best_score := None |}.

Definition one_sample : Batch := [[9 # 10]].
Definition two_samples : Batch := [[4 # 10]; [9 # 10]].

End ClassifierSamples.

(** Sample data for the distance-based detector: a training matrix with
    mean [0, 0] and standard deviation [1, 1]. *)

Module OutlierSamples.

Local Open Scope R_scope.

Definition unit_training : OutlierByDistance.Matrix := [[1; 1]; [-1; -1]].

Definition far_sample : OutlierByDistance.Matrix := [[10; 10]].

Definition near_sample : OutlierByDistance.Matrix := [[1 / 10; - (1 / 10)]].

End OutlierSamples.

(** Sample data for the search drivers: bag-of-words aggregators whose
    representation is stood for by the vocabulary size, and models that
    remember the representation they were fitted on. *)

Module SearchSamples.
Import Search.

Record BagOfWords : Type := {
  bow_opt : gmap string pyval;
  vocabulary : option Z
}.

Definition bag_of_words (complexity : Z) : BagOfWords :=
  {| bow_opt := {[ "aggregator" := PyStr "bag_of_words"; "complexity" := PyInt complexity ]};
     vocabulary := None |}.

Definition complexity_of (a : BagOfWords) : Z :=
  match bow_opt a !! "complexity" with
  | Some (PyInt n) => n
  | _ => 0%Z
  end.

#[global] Instance bag_of_words_aggregation : Aggregation BagOfWords unit Z :=
  {| aggregator_opt := bow_opt;
     fit_transform a _ :=
       ({| bow_opt := bow_opt a; vocabulary := Some (complexity_of a) |}, complexity_of a);
     transform a _ := default 0%Z (vocabulary a) |}.

Record Model : Type := {
  model_opt : gmap string pyval;
  trained_on : option Z
}.

Definition model (clf_type : string) : Model :=
  {| model_opt := {[ "clf_type" := PyStr clf_type ]}; trained_on := None |}.

Definition model_fit (m : Model) (data : Z) (labels : list Z) : Model :=
  {| model_opt := model_opt m; trained_on := Some data |}.

(** The macro-F1 of each pipeline. *)
Definition f1_table (clf_type : string) (data : Z) : Q :=
  if String.eqb clf_type "rf" then
    (if (data =? 64)%Z then 7 # 10 else if (data =? 128)%Z then 8 # 10 else 5 # 10)
  else
    (if (data =? 64)%Z then 8 # 10 else if (data =? 128)%Z then 6 # 10 else 4 # 10).

Definition model_evaluate (m : Model) (data : Z) (labels : list Z) : Q :=
  match model_opt m !! "clf_type", trained_on m with
  | Some (PyStr t), Some d => if (d =? data)%Z then f1_table t data else 0
  | _, _ => 0
  end.

Definition sample_opt : gmap string pyval :=
  list_to_map
    [ ("data_split_mode", PyStr "fixed");
      ("image_size", PyDict [("height", PyInt 128); ("width", PyInt 128)]);
      ("feature", PyStr "gray-hog");
      ("sampling_method", PyStr "dense");
      ("sampling_step", PyInt 20);
      ("sampling_window", PyInt 20);
      ("aggregator", PyList [PyStr "bag_of_words"]);
      ("complexity", PyList [PyInt 64; PyInt 128]);
      ("clf_type", PyList [PyStr "rf"; PyStr "svm"]) ].

Definition sample_inputs : @OptimizingImageClassifier.inputs unit (list (string * Z)) :=
  {| OptimizingImageClassifier.opt := sample_opt;
     OptimizingImageClassifier.class_mapping := [("cat", 0%Z); ("dog", 1%Z)];
     OptimizingImageClassifier.feature_extractor := FeatureExtractorSamples.hog_extractor;
     OptimizingImageClassifier.x_train := tt;
     OptimizingImageClassifier.y_train := [0%Z; 1%Z; 1%Z];
     OptimizingImageClassifier.x_test := tt;
     OptimizingImageClassifier.y_test := [1%Z; 0%Z] |}.

(** Two runs of the supervised search.  In the first the pipelines
    (64, svm) and (128, rf) tie at 0.8; in the second (64, svm) stays the
    best while the svm object is fitted again under the second aggregator. *)
Definition tie_run :=
  OptimizingImageClassifier.fit model_opt model_fit model_evaluate sample_inputs
    [bag_of_words 64; bag_of_words 128] [model "rf"; model "svm"] None.

Definition refit_run :=
  OptimizingImageClassifier.fit model_opt model_fit model_evaluate sample_inputs
    [bag_of_words 64; bag_of_words 256] [model "rf"; model "svm"] None.

(** The outlier search: a remover that remembers what it was fitted on, and
    the AUROC of each vocabulary size. *)
Definition sample_remover_fit (r : option Z) (data : Z) (labels : list Z) : option Z :=
  Some data.

Definition sample_score_sample (r : option Z) (data : Z) : option Z * Z := (r, data).

Definition sample_auroc (y_true : list Z) (scores : option Z * Z) : Q :=
  match scores with
  | (Some d, data) =>
      if (d =? data)%Z
      then (if (data =? 64)%Z then 8 # 10 else 9 # 10)
      else 0
  | _ => 0
  end.

Definition outlier_inputs : @OutlierDetectorAggregatorSearch.inputs unit (list (string * Z)) :=
  {| OutlierDetectorAggregatorSearch.opt := sample_opt;
     OutlierDetectorAggregatorSearch.class_mapping := [("cat", 0%Z); ("dog", 1%Z)];
     OutlierDetectorAggregatorSearch.x := tt;
     OutlierDetectorAggregatorSearch.y := [0%Z; 1%Z; 1%Z];
     OutlierDetectorAggregatorSearch.x_test := tt;
     OutlierDetectorAggregatorSearch.y_test := [1%Z; (-1)%Z] |}.

(** The vocabulary sizes 128 and 256 tie at 0.9. *)
Definition outlier_tie_run :=
  OutlierDetectorAggregatorSearch.fit sample_remover_fit sample_score_sample sample_auroc
    outlier_inputs [bag_of_words 64; bag_of_words 128; bag_of_words 256] None None.

End SearchSamples.

(** * Further parts of the sources *)

(** ** classifier.py: building and fitting the model *)

Module ClassifierModel.

(** The estimator objects that [_init_classifier] constructs, each with the
    arguments that the method passes to its constructor (the constant
    arguments, such as [class_weight="balanced"] and [n_jobs=-1], are
    left out). *)
#[warnings="-register-all"]
Inductive estimator : Type :=
  | RandomForestClassifier (n_estimators : pyval)
  | AdaBoostClassifier (base_estimator : option estimator) (n_estimators : pyval)
  | LogisticRegression (max_iter : pyval)
  | SGDClassifier (max_iter : pyval)
  | GaussianNB
  | SVC
  | MLPClassifier (hidden_layer_sizes : pyval) (max_iter : pyval)
  | DecisionTreeClassifier (balanced : bool)
  | KNeighborsClassifier (n_neighbors : pyval)
  | ExtraTreesClassifier (n_estimators : pyval)
  | XGBClassifier (n_estimators : pyval) (num_parallel_tree : pyval)
  | BalancedRandomForestClassifier (n_estimators : pyval)
  | BalancedBaggingClassifier (base_estimator : option estimator) (n_estimators : pyval)
  | RUSBoostClassifier (base_estimator : option estimator) (n_estimators : pyval).

(** [opt[k] if k in opt else default] on the entries of a dictionary. *)
Definition get_or (entries : list (string * pyval)) (k : string) (default : pyval) : pyval :=
  match find (fun kv => String.eqb k (fst kv)) entries with
  | Some kv => snd kv
  | None => default
  end.

(** [v in names] and [v == name] for a value [v] and strings. *)
Definition one_of (v : pyval) (names : list string) : bool :=
  existsb (fun name => Py.str_eq name v) names.

(** The second half of [Classifier._init_classifier]: the defaults and the
    chain of tests on [opt["type"]], with the base estimator already built.
    The tuple [(100,)] is written as a list. *)
Definition dispatch (entries : list (string * pyval)) (b_est : option estimator)
    : result estimator :=
  let n_estimators := get_or entries "n_estimators" (PyInt 200) in
  let max_iter := get_or entries "max_iter" (PyInt 100000) in
  let num_parallel_tree := get_or entries "num_parallel_tree" (PyInt 5) in
  let layer_structure := get_or entries "layer_structure" (PyList [PyInt 100]) in
  do type <- Search.getitem (PyDict entries) "type";
  if one_of type ["random_forrest"; "rf"] then ok (RandomForestClassifier n_estimators)
  else if one_of type ["ada_boost"] then ok (AdaBoostClassifier b_est n_estimators)
  else if one_of type ["logistic_regression"; "lr"] then ok (LogisticRegression max_iter)
  else if one_of type ["sgd"] then ok (SGDClassifier max_iter)
  else if one_of type ["gaussian_bayes"; "bayes"; "gaussian_nb"] then ok GaussianNB
  else if one_of type ["support_vector_machine"; "svm"] then ok SVC
  else if one_of type ["multilayer_perceptron"; "mlp"]
       then ok (MLPClassifier layer_structure max_iter)
  else if one_of type ["decision_tree"; "dt"; "tree"] then ok (DecisionTreeClassifier false)
  else if one_of type ["b_decision_tree"; "b_dt"; "b_tree"]
       then ok (DecisionTreeClassifier true)
  else if one_of type ["neighbours"; "knn"]
       then do k <- Search.getitem (PyDict entries) "n_neighbours";
            ok (KNeighborsClassifier k)
  else if one_of type ["extra_tree"] then ok (ExtraTreesClassifier n_estimators)
  else if one_of type ["xgboost"] then ok (XGBClassifier n_estimators num_parallel_tree)
  else if one_of type ["b_random_forrest"; "b_rf"]
       then ok (BalancedRandomForestClassifier n_estimators)
  else if one_of type ["b_bagging"] then ok (BalancedBaggingClassifier b_est n_estimators)
  else if one_of type ["b_boosting"] then ok (RUSBoostClassifier b_est n_estimators)
  else raise ValueError.

(** [Classifier._init_classifier]: the base estimator, when the options
    name one, is built first, by the method itself.  On anything but a
    dictionary the membership tests or the subscript [opt["type"]] end in
    [TypeError]. *)
Fixpoint _init_classifier (opt : pyval) : result estimator :=
  match opt with
  | PyDict entries =>
      do b_est <-
        (fix base (rest : list (string * pyval)) : result (option estimator) :=
           match rest with
           | [] => ok None
           | (k, v) :: rest' =>
               if String.eqb "base_estimator" k
               then do e <- _init_classifier v; ok (Some e)
               else base rest'
           end) entries;
      dispatch entries b_est
  | _ => raise TypeError
  end.

(** The type names that [_init_classifier] recognises. *)
Definition known_types : list string :=
  [ "random_forrest"; "rf"; "ada_boost"; "logistic_regression"; "lr"; "sgd";
    "gaussian_bayes"; "bayes"; "gaussian_nb"; "support_vector_machine"; "svm";
    "multilayer_perceptron"; "mlp"; "decision_tree"; "dt"; "tree";
    "b_decision_tree"; "b_dt"; "b_tree"; "neighbours"; "knn"; "extra_tree";
    "xgboost"; "b_random_forrest"; "b_rf"; "b_bagging"; "b_boosting" ].

Section Training.
Context {X : Type}.

(** The library behind the estimator objects: [build] is the construction
    of the object that [_init_classifier] asks for, [estimator_fit] is the
    object's [fit] method, which trains it in place. *)
Context (build : estimator -> Classifier.Estimator X).
Context (estimator_fit : Classifier.Estimator X -> X -> list Z -> result (Classifier.Estimator X)).

(** [Classifier.new]. *)
Definition new (self : Classifier.t X) : result (Classifier.t X) :=
  do e <- _init_classifier (Classifier.opt self);
  ok {| Classifier.opt := Classifier.opt self;
        Classifier.class_mapping := Classifier.class_mapping self;
        Classifier.class_mapping_inv := Classifier.class_mapping_inv self;
        Classifier.classifier := Some (build e);
        Classifier.best_params := Classifier.best_params self;
        Classifier.best_score := Classifier.best_score self |}.

(** [self.classifier.fit(x_train, y_train)]. *)
Definition classifier_fit (self : Classifier.t X) (x_train : X) (y_train : list Z)
    : result (Classifier.t X) :=
  match Classifier.classifier self with
  | None => raise AttributeError
  | Some m =>
      do m' <- estimator_fit m x_train y_train;
      ok {| Classifier.opt := Classifier.opt self;
            Classifier.class_mapping := Classifier.class_mapping self;
            Classifier.class_mapping_inv := Classifier.class_mapping_inv self;
            Classifier.classifier := Some m';
            Classifier.best_params := Classifier.best_params self;
            Classifier.best_score := Classifier.best_score self |}
  end.

(** [Classifier.fit_single]. *)
Definition fit_single (self : Classifier.t X) (x_train : X) (y_train : list Z)
    : result (Classifier.t X) :=
  do self <- new self;
  classifier_fit self x_train y_train.

(** [Classifier.fit].  With a parameter grid it asks the estimator object,
    not the classifier, for [fit_inc_hyper_parameter]; no estimator object
    (and not [None]) has such an attribute. *)
Definition fit (self : Classifier.t X) (x_train : X) (y_train : list Z)
    : result (Classifier.t X) :=
  do has_grid <- Py.contains "param_grid" (Classifier.opt self);
  if has_grid then raise AttributeError
  else classifier_fit self x_train y_train.
End Training.

End ClassifierModel.

(** ** outlier_detector.py: persistence of OutlierByDistance *)

Module OutlierPersistence.
Import OutlierByDistance.

Local Open Scope R_scope.

(** [int(r)] for a float read as a real number: truncation towards zero. *)
Definition int_of_real (r : R) : Z :=
  if Rle_dec 0 r then Int_part r else (- Int_part (- r))%Z.

(** What the files of the detector hold: an array written by [np.save]
    (of [None] when the attribute was unset), or the two integers of
    [outlier_parameters.json]. *)
Inductive file : Type :=
  | Npy (a : option (list R))
  | Params (max_dist min_dist : Z).

Definition np_save (path : string) (a : option (list R)) (fs : gmap string file)
    : gmap string file :=
  <[path := Npy a]> fs.

(** [np.load] does not read back an array that holds [None]. *)
Definition np_load (fs : gmap string file) (path : string) : result (list R) :=
  match fs !! path with
  | Some (Npy (Some a)) => ok a
  | Some _ => raise ValueError
  | None => raise (FileNotFoundError path)
  end.

(** [int(self.max_distance)]. *)
Definition int_of_attribute (a : option R) : result Z :=
  match a with
  | Some r => ok (int_of_real r)
  | None => raise TypeError
  end.

(** [OutlierByDistance.save]: the two arrays are written before the
    distances are converted; the folder as the call leaves it, and the
    exception if there is one. *)
Definition save (self : OutlierByDistance.t) (fs : gmap string file) (path : string)
    : gmap string file * option exn :=
  let param_path := Py.os_path_join path "outlier_parameters.json" in
  let fs := np_save (Py.os_path_join path "outlier_param_x_mean.npy") (x_mean self) fs in
  let fs := np_save (Py.os_path_join path "outlier_param_x_std.npy") (x_std self) fs in
  match int_of_attribute (max_distance self) with
  | inl e => (fs, Some e)
  | inr max_dist =>
      match int_of_attribute (min_distance self) with
      | inl e => (fs, Some e)
      | inr min_dist => (<[param_path := Params max_dist min_dist]> fs, None)
      end
  end.

(** [OutlierByDistance.load]. *)
Definition load (self : OutlierByDistance.t) (fs : gmap string file) (path : string)
    : result OutlierByDistance.t :=
  let param_path := Py.os_path_join path "outlier_parameters.json" in
  do param <-
    match fs !! param_path with
    | Some (Params max_dist min_dist) => ok (max_dist, min_dist)
    | Some _ => raise ValueError
    | None => raise (FileNotFoundError param_path)
    end;
  do mean <- np_load fs (Py.os_path_join path "outlier_param_x_mean.npy");
  do std <- np_load fs (Py.os_path_join path "outlier_param_x_std.npy");
  ok {| x_mean := Some mean;
        x_std := Some std;
        max_distance := Some (IZR (fst param));
        min_distance := Some (IZR (snd param)) |}.

End OutlierPersistence.

(** ** The option grids of the search drivers *)

Module Grid.

(** The loop at the start of every [new()]:
    [for k in keys: if k not in opt: continue;
     if type(opt[k]) is not list: opt[k] = [opt[k]]]. *)
Definition wrap_searchable (keys : list string) (opt : gmap string pyval)
    : gmap string pyval :=
  foldl (fun opt k =>
           match opt !! k with
           | None => opt
           | Some v =>
               if negb (Py.is_ (Py.TypeObject (Py.type v)) (Py.TypeObject Py.list_))
               then <[k := PyList [v]]> opt
               else opt
           end) opt keys.

(** [{k: opt[k] for k in keys if k in opt}], with each value read as the
    list of its candidates (after [wrap_searchable] every value present is
    a list); [keys] is given in sorted order, the order in which
    [ParameterGrid] takes the options. *)
Definition searched (keys : list string) (opt : gmap string pyval)
    : list (string * list pyval) :=
  omap (fun k =>
          match opt !! k with
          | Some (PyList candidates) => Some (k, candidates)
          | _ => None
          end) keys.

(** [list(ParameterGrid(items))] of scikit-learn: every combination of one
    candidate per option, the last option varying fastest; no option at all
    gives the one empty combination. *)
Fixpoint parameter_grid (items : list (string * list pyval)) : list (gmap string pyval) :=
  match items with
  | [] => [∅]
  | (k, candidates) :: rest =>
      v ← candidates; (fun point => <[k := v]> point) <$> parameter_grid rest
  end.

(** The loop of [OutlierDetectorSearch.new] over the grid points:
    [for k in self.opt: if k not in opt: opt[k] = self.opt[k]]. *)
Definition completed (opt point : gmap string pyval) : gmap string pyval :=
  point ∪ opt.

(** The feature-tier options of [OutlierDetectorSearch], sorted. *)
Definition feature_opt : list string :=
  ["feature"; "image_size"; "sampling_method"; "sampling_step"; "sampling_window"].

(** [new()] of a search over the options [keys]: the normalisation, the
    grid, and the completion of every grid point. *)
Definition tier (keys : list string) (opt : gmap string pyval) : list (gmap string pyval) :=
  let opt := wrap_searchable keys opt in
  completed opt <$> parameter_grid (searched keys opt).

(** The configurations of the children that [OutlierDetectorSearch.new]
    creates. *)
Definition feature_tier (opt : gmap string pyval) : list (gmap string pyval) :=
  tier feature_opt opt.

End Grid.

(** ** outlier_detector.py: OutlierDetectorSearch *)

Module OutlierDetectorSearch.
Import Search.

Section Driver.
Context {Aggregator Features Data Remover Scores ClassMapping : Type}.
Context `{!Aggregation Aggregator Features Data}.
Context (remover_fit : Remover -> Data -> list Z -> Remover).
Context (remover_score_sample : Remover -> Data -> Scores).
Context (roc_auc_score : list Z -> Scores -> Q).

(** A child of the search: an aggregator-tier search with its own options,
    data, aggregators and remover. *)
Record child : Type := {
  child_inputs : @OutlierDetectorAggregatorSearch.inputs Features ClassMapping;
  child_aggregators : list Aggregator;
  child_remover : Remover
}.

(** What [model.fit(os.path.join(model_folder, "version_i"), ...)] leaves in
    its folder, and what it returns. *)
Definition child_fit (c : child)
    (folder : option (@OutlierDetectorAggregatorSearch.Checkpoint Aggregator Remover ClassMapping))
    : option (@OutlierDetectorAggregatorSearch.Checkpoint Aggregator Remover ClassMapping)
      * result Q :=
  let '(st, r) :=
    OutlierDetectorAggregatorSearch.fit remover_fit remover_score_sample roc_auc_score
      (child_inputs c) (child_aggregators c) (child_remover c) folder in
  (OutlierDetectorAggregatorSearch.model_folder st, do '(_, score) <- r; ok score).

(** The folders [version_0], [version_1], ... by their number, and the
    locals of [fit]. *)
Record state : Type := {
  versions : gmap nat (@OutlierDetectorAggregatorSearch.Checkpoint
                         Aggregator Remover ClassMapping);
  best_score : Q;
  best_candidate : option nat
}.

(** The folder [version_i] after the child at position [i] has run. *)
Definition written (i : nat)
    (folder : option (@OutlierDetectorAggregatorSearch.Checkpoint
                        Aggregator Remover ClassMapping))
    (versions : gmap nat (@OutlierDetectorAggregatorSearch.Checkpoint
                            Aggregator Remover ClassMapping))
    : gmap nat (@OutlierDetectorAggregatorSearch.Checkpoint Aggregator Remover ClassMapping) :=
  match folder with
  | Some checkpoint => <[i := checkpoint]> versions
  | None => versions
  end.

(** [for i, model in enumerate(self.model_list)], from position [i] on;
    an exception of a child ends the run. *)
Fixpoint fit_loop (i : nat) (todo : list child) (st : state) : state * option exn :=
  match todo with
  | [] => (st, None)
  | c :: rest =>
      let '(folder, r) := child_fit c (versions st !! i) in
      let st := {| versions := written i folder (versions st);
                   best_score := best_score st;
                   best_candidate := best_candidate st |} in
      match r with
      | inl e => (st, Some e)
      | inr score =>
          fit_loop (S i) rest
            (if Py.float_gt score (best_score st)
             then {| versions := versions st;
                     best_score := score;
                     best_candidate := Some i |}
             else st)
      end
  end.

(** [OutlierDetectorSearch.fit], from the loop on: the version folders, the
    root of the model folder, and the returned score or the exception.
    With no candidate recorded, [os.listdir] is called on the folder
    [version_None], which does not exist.  [versions0] and [root] give what
    the folders hold before the run. *)
Definition fit (children : list child)
    (versions0 : gmap nat (@OutlierDetectorAggregatorSearch.Checkpoint
                             Aggregator Remover ClassMapping))
    (root : option (@OutlierDetectorAggregatorSearch.Checkpoint
                      Aggregator Remover ClassMapping))
    : state
      * option (@OutlierDetectorAggregatorSearch.Checkpoint Aggregator Remover ClassMapping)
      * result Q :=
  match fit_loop 0 children
          {| versions := versions0; best_score := 0; best_candidate := None |} with
  | (st, Some e) => (st, root, raise e)
  | (st, None) =>
      match best_candidate st with
      | None => (st, root, raise (FileNotFoundError "version_None"))
      | Some i =>
          match versions st !! i with
          | Some checkpoint => (st, Some checkpoint, ok (best_score st))
          | None => (st, root, raise (FileNotFoundError "version"))   (* a recorded child has saved *)
          end
      end
  end.
End Driver.

End OutlierDetectorSearch.

(** ** machine_learning/feature_map.py *)

Module FeatureMap.

Definition Matrix : Type := list (list Q).

(** [np.concatenate(descriptors, axis=0)]: the arrays are stacked; they
    must agree in the length of their rows, and there must be one at least. *)
Definition np_concatenate_axis0 (descriptors : list Matrix) : result Matrix :=
  match descriptors with
  | [] => raise ValueError
  | _ =>
      match concat descriptors with
      | [] => ok []
      | row :: rows =>
          if forallb (fun r => Nat.eqb (length r) (length row)) rows
          then ok (row :: rows)
          else raise ValueError
      end
  end.

(** [for item in items: descriptors.append(body(item))]; an exception of
    the body ends the loop. *)
Fixpoint for_each {A B : Type} (body : A -> result B) (items : list A) : result (list B) :=
  match items with
  | [] => ok []
  | item :: rest =>
      do b <- body item;
      do bs <- for_each body rest;
      ok (b :: bs)
  end.

Section FeatureMap.
(** The feature map and its regions belong to [MatrixHandler], which is
    not among the sources, as [np.histogram] is not: they are taken as
    given, and each may raise. *)
Context {Map Roi : Type}.
Context (set_to_resolution : Map -> Z -> result Map).
Context (cut_roi : Map -> Z * Z -> Z -> result Roi).
Context (histogram : Roi -> Z -> result (list Q)).
Context (global_pooling : Roi -> string -> result Matrix).

(** [FeatureMap.to_descriptors_with_histogram]; [np.reshape(desc, (1, -1))]
    makes one row of each histogram. *)
Definition to_descriptors_with_histogram (feature_map : Map)
    (key_points : list (Z * Z * Z)) (resolution : Z) : result (option Matrix) :=
  do mat <- set_to_resolution feature_map resolution;
  do descriptors <-
    for_each (fun '(x, y, s) =>
                do roi <- cut_roi mat (x, y) s;
                do desc <- histogram roi resolution;
                ok [desc]) key_points;
  match descriptors with
  | [] => ok None
  | [desc] => ok (Some desc)
  | _ => do m <- np_concatenate_axis0 descriptors; ok (Some m)
  end.

(** [FeatureMap.to_descriptor_with_pooling]. *)
Definition to_descriptor_with_pooling (feature_map : Map)
    (key_points : list (Z * Z * Z)) (pooling_mode : string) : result Matrix :=
  do descriptors <-
    for_each (fun '(x, y, s) =>
                do roi <- cut_roi feature_map (x, y) s;
                global_pooling roi pooling_mode) key_points;
  np_concatenate_axis0 descriptors.
End FeatureMap.

End FeatureMap.

(** Notions used to state what the grids are. *)

Module GridSpec.

(** What the normalisation makes of a value: a list stays, any other value
    becomes the list that holds it. *)
Definition wrapped (v : pyval) : pyval :=
  match v with
  | PyList _ => v
  | _ => PyList [v]
  end.

(** The number of candidates of an option: the length of its list, 1 for a
    single value and for an option that is absent. *)
Definition candidates (opt : gmap string pyval) (k : string) : nat :=
  match opt !! k with
  | Some (PyList l) => length l
  | _ => 1
  end.

(** The product of the numbers of candidates of the options [keys]. *)
Definition combinations (opt : gmap string pyval) (keys : list string) : nat :=
  foldr (fun k n => (candidates opt k * n)%nat) 1%nat keys.

(** What a child's configuration may hold for a searched option: one of
    the candidates of a list, the value itself when it is no list, nothing
    when the option is absent. *)
Definition chosen (configured : option pyval) (v : option pyval) : Prop :=
  match configured with
  | None => v = None
  | Some (PyList l) => exists c : pyval, c ∈ l /\ v = Some c
  | Some single => v = Some single
  end.

End GridSpec.

(** ** outlier_detector.py: what a run of the aggregator-tier search shows *)

Module OutlierSearchRun.
Import Search OutlierDetectorAggregatorSearch.

Section Driver.
Context {Aggregator Features Data Remover Scores ClassMapping : Type}.
Context `{!Aggregation Aggregator Features Data}.
Context (remover_fit : Remover -> Data -> list Z -> Remover).
Context (remover_score_sample : Remover -> Data -> Scores).
Context (roc_auc_score : list Z -> Scores -> Q).

(** The AUROC values of the candidates, as the loop prints them
    ([RUN: ... - AUROC: ...]), from position [a] on. *)
Fixpoint run_scores (inp : @inputs Features ClassMapping) (a : nat) (todo : list Aggregator)
    (st : @state Aggregator Remover ClassMapping) : list Q :=
  match todo with
  | [] => []
  | agg :: rest =>
      let '(agg', st1, score) :=
        evaluate_candidate remover_fit remover_score_sample roc_auc_score inp a agg st in
      score :: run_scores inp (S a) rest (track_best inp a agg' score st1)
  end.

(** The AUROC on the test data of a saved detector: its aggregator
    transforms the test features, its remover scores them. *)
Definition checkpoint_score (inp : @inputs Features ClassMapping)
    (c : @Checkpoint Aggregator Remover ClassMapping) : Q :=
  roc_auc_score (nominal_or_outlier (y_test inp))
    (remover_score_sample (saved_remover c) (transform (saved_aggregator c) (x_test inp))).

(** The invariant of the loop of [fit]: [scores] are the AUROC values of
    the candidates evaluated so far, [folder] is what the model folder held
    before the run. *)
Definition run_invariant (inp : @inputs Features ClassMapping)
    (folder : option (@Checkpoint Aggregator Remover ClassMapping))
    (scores : list Q) (st : @state Aggregator Remover ClassMapping) : Prop :=
  (0 <= best_score st)%Q
  /\ (forall s : Q, s ∈ scores -> (s <= best_score st)%Q)
  /\ match best_candidate st with
     | None =>
         best_score st = 0%Q
         /\ model_folder st = folder
         /\ final_aggregator st = None
         /\ final_remover st = false
     | Some a =>
         scores !! a = Some (best_score st)
         /\ (0 < best_score st)%Q
         /\ (forall (i : nat) (s : Q), (i < a)%nat -> scores !! i = Some s ->
               (s < best_score st)%Q)
         /\ final_aggregator st = Some a
         /\ final_remover st = true
         /\ exists c : @Checkpoint Aggregator Remover ClassMapping,
              model_folder st = Some c
              /\ checkpoint_score inp c = best_score st
              /\ aggregator_list st !! a = Some (saved_aggregator c)
              /\ saved_opt c = overridden (aggregator_opt (saved_aggregator c)) (opt inp)
              /\ saved_class_mapping c = class_mapping inp
     end.
End Driver.

End OutlierSearchRun.

(** ** outlier_detector.py: what a run of the feature-tier search shows *)

Module OutlierTierRun.
Import Search OutlierDetectorSearch.

Section Driver.
Context {Aggregator Features Data Remover Scores ClassMapping : Type}.
Context `{!Aggregation Aggregator Features Data}.
Context (remover_score_sample : Remover -> Data -> Scores).
Context (roc_auc_score : list Z -> Scores -> Q).

(** The invariant of the loop of [OutlierDetectorSearch.fit] before the
    child at position [i]: a recorded child is an earlier one, its score is
    positive and is the AUROC of what its version folder holds. *)
Definition tier_invariant
    (children : list (@child Aggregator Features Remover ClassMapping))
    (i : nat) (st : @state Aggregator Remover ClassMapping) : Prop :=
  match best_candidate st with
  | None => i = 0%nat /\ best_score st = 0%Q
  | Some j =>
      (j < i)%nat
      /\ (0 < best_score st)%Q
      /\ exists (c : @child Aggregator Features Remover ClassMapping)
                (checkpoint : @OutlierDetectorAggregatorSearch.Checkpoint
                                Aggregator Remover ClassMapping),
           children !! j = Some c
           /\ versions st !! j = Some checkpoint
           /\ OutlierSearchRun.checkpoint_score remover_score_sample roc_auc_score
                (child_inputs c) checkpoint
              = best_score st
  end.
End Driver.

End OutlierTierRun.

(** Sample data for the feature-tier search: two children over the sample
    inputs, the first with one vocabulary size, the second with two. *)

Module TierSamples.
Import SearchSamples.

Definition child_of (sizes : list Z)
    : @OutlierDetectorSearch.child BagOfWords unit (option Z) (list (string * Z)) :=
  {| OutlierDetectorSearch.child_inputs := outlier_inputs;
     OutlierDetectorSearch.child_aggregators := bag_of_words <$> sizes;
     OutlierDetectorSearch.child_remover := None |}.

Definition tier_run :=
  OutlierDetectorSearch.fit sample_remover_fit sample_score_sample sample_auroc
    [child_of [64%Z]; child_of [64%Z; 128%Z]] ∅ None.

End TierSamples.
(** * Properties *)

Module DataSplitFacts.
Import DataSplit.

Section Facts.
Context {Tag : Type}.

Lemma fixed_test_before_20 (i : nat) :
  (i < 20)%nat -> Py.float_ge (inject_Z (Z.of_nat i) / 100) default_ratio = false.
Proof.
  intros Hi. apply not_true_is_false. unfold Py.float_ge. intros H.
  apply Qle_bool_iff in H. unfold default_ratio, Qle, Qdiv, Qmult, Qinv, inject_Z in H.
  simpl in H. lia.
Qed.

Lemma fixed_train_from_20 (i : nat) :
  (20 <= i)%nat -> Py.float_ge (inject_Z (Z.of_nat i) / 100) default_ratio = true.
Proof.
  intros Hi. unfold Py.float_ge. apply Qle_bool_iff.
  unfold default_ratio, Qle, Qdiv, Qmult, Qinv, inject_Z. simpl. lia.
Qed.

(** The loop of [split_fixed], started at position [i] with accumulators
    [train] and [test], at the default ratio. *)
Lemma split_fixed_loop_spec (l : list Tag) :
  forall (i : nat) (train test : list Tag),
    split_fixed_loop i l default_ratio train test
    = (train ++ drop (20 - i) l, test ++ take (20 - i) l).
Proof.
  induction l as [|tag rest IH]; intros i train test; simpl.
  - by rewrite drop_nil, take_nil, !app_nil_r.
  - destruct (le_lt_dec 20 i) as [Hge|Hlt].
    + rewrite (fixed_train_from_20 i Hge), IH.
      replace (20 - i)%nat with 0%nat by lia.
      replace (20 - S i)%nat with 0%nat by lia.
      simpl. by rewrite drop_0, <- app_assoc.
    + rewrite (fixed_test_before_20 i Hlt), IH.
      replace (20 - i)%nat with (S (20 - S i)) by lia.
      simpl. by rewrite <- app_assoc.
Qed.

Lemma split_fixed_spec (l : list Tag) :
  split_fixed l default_ratio = (drop 20 l, take 20 l).
Proof. unfold split_fixed. by rewrite split_fixed_loop_spec. Qed.
End Facts.

End DataSplitFacts.

(** C7.  A list of exactly 100 tags split in fixed mode at ratio 0.2, by
    [split_fixed] and by [split_tags] with mode "fixed": the tags at positions
    0-19 are the test set and the tags at positions 20-99 are the train set,
    both in their original order, whatever the random draws of the session. *)
Theorem split_fixed_100_tags {Tag : Type} (draws : nat -> Z) (l : list Tag) :
  length l = 100%nat ->
  DataSplit.split_fixed l DataSplit.default_ratio = (drop 20 l, take 20 l)
  /\ DataSplit.split_tags draws l DataSplit.default_ratio "fixed" = ok (drop 20 l, take 20 l)
  /\ length (take 20 l) = 20%nat
  /\ length (drop 20 l) = 80%nat
  /\ (forall i : nat, (i < 20)%nat -> take 20 l !! i = l !! i)
  /\ (forall i : nat, drop 20 l !! i = l !! (20 + i)%nat).
Proof.
  intros Hlen.
  pose proof (DataSplitFacts.split_fixed_spec l) as Hfixed.
  split; [exact Hfixed|].
  split; [unfold DataSplit.split_tags; simpl; by rewrite Hfixed|].
  split; [rewrite length_take; lia|].
  split; [rewrite length_drop; lia|].
  split.
  - intros i Hi. by apply lookup_take_lt.
  - intros i. by rewrite lookup_drop.
Qed.

Lemma split_fixed_100_tags_witness :
  length (seq 0 100) = 100%nat
  /\ DataSplit.split_fixed (seq 0 100) DataSplit.default_ratio = (seq 20 80, seq 0 20).
Proof.
  split; [reflexivity|].
  exact (proj1 (split_fixed_100_tags (fun _ => 0%Z) (seq 0 100) eq_refl)).
Defined.

(** ** feature_extractor.py *)

Module FeatureExtractorFacts.
Import FeatureExtractor.

(** The identity test of the constructor never fails: a type object is not
    the list that [list()] has just created. *)
Lemma type_is_not_list_call (v : pyval) :
  negb (Py.is_ (Py.TypeObject (Py.type v)) Py.list_call) = true.
Proof. reflexivity. Qed.

(** The test written with the type object [list], as the search drivers
    write it, does tell lists from other values. *)
Lemma type_is_not_list (v : pyval) :
  negb (Py.is_ (Py.TypeObject (Py.type v)) (Py.TypeObject Py.list_)) = true
  <-> forall l, v <> PyList l.
Proof.
  destruct v; simpl; split; try done; intros H; try (by intros ? ?).
  exfalso. by apply (H l).
Qed.

Lemma validate_keeps_features (sm : string) (v : pyval) (r : string * pyval) :
  validate_feature_extraction_settings sm v = ok r -> snd r = v.
Proof.
  unfold validate_feature_extraction_settings, bind, ok.
  repeat case_match; intros; by simplify_eq/=.
Qed.

Lemma validate_raises_TypeError (sm : string) (v : pyval) (e : exn) :
  validate_feature_extraction_settings sm v = raise e -> e = TypeError.
Proof.
  unfold validate_feature_extraction_settings, bind, ok, raise, Py.contains.
  repeat case_match; intros; unfold raise, ok in *; by simplify_eq/=.
Qed.

Lemma validate_str_returns (sm s : string) :
  exists sm', validate_feature_extraction_settings sm (PyStr s) = ok (sm', PyStr s).
Proof.
  unfold validate_feature_extraction_settings, bind, ok, Py.contains.
  repeat case_match; simplify_eq/=; eauto.
Qed.

Lemma validate_list_returns (sm : string) (l : list pyval) :
  exists sm', validate_feature_extraction_settings sm (PyList l) = ok (sm', PyList l).
Proof.
  unfold validate_feature_extraction_settings, bind, ok, Py.contains.
  repeat case_match; simplify_eq/=; eauto.
Qed.

Lemma list_not_self_wrapped (l : list pyval) : PyList [PyList l] <> PyList l.
Proof.
  intros H. assert (Hs : pysize (PyList [PyList l]) = pysize (PyList l)) by (by rewrite H).
  simpl in Hs. lia.
Qed.

End FeatureExtractorFacts.

(** C10.  Whatever is passed as [features_to_use], the constructor's test
    [type(features_to_use) is not list()] holds, so a constructor that returns
    has stored the one-element list holding the value passed (the only way
    not to return is the [TypeError] of the settings validation on a value
    that supports no membership test); for a feature name and for a list of
    feature names the constructor does return, and what it stores is the
    wrapped value, never the list passed. *)
Theorem init_wraps_features_to_use :
  (forall v : pyval,
      negb (Py.is_ (Py.TypeObject (Py.type v)) Py.list_call) = true)
  /\ (forall (v : pyval) norm sm steps win h w ro,
        match FeatureExtractor.__init__ v norm sm steps win h w ro with
        | inr fe => FeatureExtractor.features_to_use fe = PyList [v]
        | inl e => e = TypeError
        end)
  /\ (forall (s : string) norm sm steps win h w ro,
        exists fe, FeatureExtractor.__init__ (PyStr s) norm sm steps win h w ro = ok fe
                   /\ FeatureExtractor.features_to_use fe = PyList [PyStr s])
  /\ (forall (l : list pyval) norm sm steps win h w ro,
        exists fe, FeatureExtractor.__init__ (PyList l) norm sm steps win h w ro = ok fe
                   /\ FeatureExtractor.features_to_use fe = PyList [PyList l]
                   /\ FeatureExtractor.features_to_use fe <> PyList l).
Proof.
  split; [exact FeatureExtractorFacts.type_is_not_list_call|].
  split; [|split].
  - intros v norm sm steps win h w ro. unfold FeatureExtractor.__init__.
    destruct (FeatureExtractor.validate_feature_extraction_settings sm v) as [e|[sm' v']] eqn:Hv.
    + simpl. by apply (FeatureExtractorFacts.validate_raises_TypeError sm v).
    + apply FeatureExtractorFacts.validate_keeps_features in Hv. simpl in *. by subst.
  - intros s norm sm steps win h w ro. unfold FeatureExtractor.__init__.
    destruct (FeatureExtractorFacts.validate_str_returns sm s) as [sm' ->].
    simpl. eauto.
  - intros l norm sm steps win h w ro. unfold FeatureExtractor.__init__.
    destruct (FeatureExtractorFacts.validate_list_returns sm l) as [sm' ->].
    simpl. eexists. split; [reflexivity|]. split; [reflexivity|].
    simpl. apply FeatureExtractorFacts.list_not_self_wrapped.
Qed.

Module ResizeFacts.
Import FeatureExtractor.

Section Resize.
Context {Pixels : Type} (interpolate : Pixels -> Z -> Z -> Pixels).

Lemma resize_both_unset (image : Image) :
  resize interpolate image DNone DNone = ok image.
Proof. reflexivity. Qed.

(** Both dimensions absolute: the result has exactly these dimensions. *)
Lemma resize_absolute (image : Image) (h w : Z) :
  (1 <= h)%Z -> (1 <= w)%Z ->
  (0 < fst (shape image))%Z -> (0 < snd (shape image))%Z ->
  resize interpolate image (DInt h) (DInt w)
  = ok {| shape := (h, w); pixels := interpolate (pixels image) w h |}.
Proof.
  intros Hh Hw Hoh How. unfold FeatureExtractor.resize. simpl.
  destruct (shape image) as [o_height o_width] eqn:Hs. simpl in *.
  assert ((h <? 1)%Z = false) as -> by lia.
  assert ((w <? 1)%Z = false) as -> by lia.
  simpl. unfold FeatureExtractor.cv2_resize. rewrite Hs. simpl.
  assert ((0 <? o_height)%Z = true) as -> by lia.
  assert ((0 <? o_width)%Z = true) as -> by lia.
  assert ((0 <? w)%Z = true) as -> by lia.
  assert ((0 <? h)%Z = true) as -> by lia.
  reflexivity.
Qed.

(** Both dimensions fractions below 1: each original dimension is scaled
    by its fraction and truncated. *)
Lemma resize_fractions (image : Image) (qh qw : Q) :
  (qh < 1)%Q ->
  resize interpolate image (DFloat qh) (DFloat qw)
  = cv2_resize interpolate image
      (Py.int_of_float (inject_Z (snd (shape image)) * qw))
      (Py.int_of_float (inject_Z (fst (shape image)) * qh)).
Proof.
  intros Hh. unfold FeatureExtractor.resize. simpl.
  destruct (shape image) as [o_height o_width] eqn:Hs. simpl.
  unfold Py.float_lt.
  assert (Qle_bool 1 qh = false) as ->.
  { apply not_true_is_false. intros H. apply Qle_bool_iff in H.
    by apply (Qlt_not_le _ _ Hh). }
  reflexivity.
Qed.

(** Exactly one dimension unset: the comparison with 1, or the scaling,
    meets [None] before the lines that infer the missing dimension. *)
Lemma resize_height_unset (image : Image) (width : dim) :
  is_None width = false -> resize interpolate image DNone width = raise TypeError.
Proof.
  intros Hw. unfold FeatureExtractor.resize. rewrite Hw. simpl.
  by destruct (shape image).
Qed.

Lemma resize_width_unset (image : Image) (height : dim) :
  is_None height = false -> resize interpolate image height DNone = raise TypeError.
Proof.
  intros Hh. unfold FeatureExtractor.resize. rewrite Hh. simpl.
  destruct (shape image) as [o_height o_width].
  destruct height as [|n|q]; try done; simpl.
  - by destruct (n <? 1)%Z.
  - by destruct (Py.float_lt q 1).
Qed.
End Resize.

End ResizeFacts.

(** C5 (evaluation of the code).  With exactly one dimension unset, [resize]
    raises [TypeError] on every image: [None] reaches the comparison with 1
    (or the scaling) first, so the lines that infer the missing dimension
    from the aspect ratio are never run.  An image of 100 by 200 pixels
    asked for width 50, or for height 50, is resized to nothing. *)
Theorem resize_one_dimension_unset_raises :
  (forall (Pixels : Type) (interpolate : Pixels -> Z -> Z -> Pixels)
          (image : @FeatureExtractor.Image Pixels) (n : Z) (q : Q),
      FeatureExtractor.resize interpolate image FeatureExtractor.DNone (FeatureExtractor.DInt n)
        = raise TypeError
      /\ FeatureExtractor.resize interpolate image FeatureExtractor.DNone (FeatureExtractor.DFloat q)
        = raise TypeError
      /\ FeatureExtractor.resize interpolate image (FeatureExtractor.DInt n) FeatureExtractor.DNone
        = raise TypeError
      /\ FeatureExtractor.resize interpolate image (FeatureExtractor.DFloat q) FeatureExtractor.DNone
        = raise TypeError)
  /\ FeatureExtractor.resize (fun (_ : unit) _ _ => tt)
       {| FeatureExtractor.shape := (100%Z, 200%Z); FeatureExtractor.pixels := tt |}
       FeatureExtractor.DNone (FeatureExtractor.DInt 50) = raise TypeError
  /\ FeatureExtractor.resize (fun (_ : unit) _ _ => tt)
       {| FeatureExtractor.shape := (100%Z, 200%Z); FeatureExtractor.pixels := tt |}
       (FeatureExtractor.DInt 50) FeatureExtractor.DNone = raise TypeError.
Proof.
  split; [|split; reflexivity].
  intros Pixels interpolate image n q.
  repeat split;
    (apply ResizeFacts.resize_height_unset || apply ResizeFacts.resize_width_unset);
    reflexivity.
Qed.

Module ExtractionFacts.
Import FeatureExtractor.

Section Extraction.
Context {Pixels : Type} (interpolate : Pixels -> Z -> Z -> Pixels).
Context (compute : pyval -> @Image Pixels -> KeyPointSet -> result (option Matrix)).

(** Descriptors that all return [None] leave the accumulator as it is. *)
Lemma extract_x_loop_all_None (features : list pyval) (image : @Image Pixels)
    (kp_set : KeyPointSet) (x : list Matrix) :
  Forall (fun feature => compute feature image kp_set = ok None) features ->
  extract_x_loop compute features image kp_set x = ok x.
Proof.
  induction 1 as [|feature rest Hf _ IH]; simpl; [done|].
  by rewrite Hf.
Qed.

(** A tag for which every configured descriptor yields no features has the
    representation [None]. *)
Lemma extract_x_all_None (self : FeatureExtractor.t) (image image' : @Image Pixels)
    (features : list pyval) :
  resize interpolate image (img_height self) (img_width self) = ok image' ->
  Py.iter (features_to_use self) = ok features ->
  Forall (fun feature =>
            compute feature image'
              {| kp_method := sampling_method self;
                 kp_steps := sampling_steps self;
                 kp_window := sampling_window self |} = ok None) features ->
  extract_x interpolate compute self image = ok None.
Proof.
  intros Hr Hi Hall. unfold extract_x. rewrite Hr. simpl. rewrite Hi. simpl.
  by rewrite (extract_x_loop_all_None _ _ _ _ Hall).
Qed.

(** The assertion of [extract_trainings_data] tests a list against [None]:
    it holds whatever the loop has collected. *)
Lemma extract_trainings_data_is_loop (self : FeatureExtractor.t) (tags : list (@Tag Pixels)) :
  extract_trainings_data interpolate compute self tags
  = extract_loop interpolate compute self tags [] [].
Proof.
  unfold extract_trainings_data.
  by destruct (extract_loop interpolate compute self tags [] []) as [e|[x y]].
Qed.
End Extraction.

Example hog_extractor_is_constructed :
  FeatureExtractor.new (PyStr "gray-hog") "dense" DNone DNone
  = ok FeatureExtractorSamples.hog_extractor.
Proof. reflexivity. Qed.

End ExtractionFacts.

(** C2 (evaluation of the code).  A tag on which every descriptor yields no
    features contributes [None], and the assertion of
    [extract_trainings_data] never fails: on the batch of two tags whose
    descriptors all yield nothing the call returns [[None; None]] with the
    labels instead of raising [AssertionError], and on every batch it returns
    what its loop has collected. *)
Theorem extract_trainings_data_never_asserts :
  FeatureExtractor.extract_trainings_data (fun (_ : unit) _ _ => tt)
    FeatureExtractorSamples.no_descriptor FeatureExtractorSamples.hog_extractor FeatureExtractorSamples.blank_batch
  = ok ([None; None], [0%Z; 1%Z])
  /\ (forall (Pixels : Type) (interpolate : Pixels -> Z -> Z -> Pixels)
             (compute : pyval -> @FeatureExtractor.Image Pixels -> FeatureExtractor.KeyPointSet
                        -> result (option FeatureExtractor.Matrix))
             (self : FeatureExtractor.t) (tags : list (@FeatureExtractor.Tag Pixels)),
        FeatureExtractor.extract_trainings_data interpolate compute self tags
        = FeatureExtractor.extract_loop interpolate compute self tags [] []).
Proof.
  split; [reflexivity|].
  intros. apply ExtractionFacts.extract_trainings_data_is_loop.
Qed.

(** ** classifier.py *)

Module NpFacts.

Lemma float_gt_true (a b : Q) : Py.float_gt a b = true <-> (b < a)%Q.
Proof.
  unfold Py.float_gt. rewrite negb_true_iff. split.
  - intros H. apply Qnot_le_lt. intros Hle. apply Qle_bool_iff in Hle. congruence.
  - intros H. apply not_true_is_false. intros Hle. apply Qle_bool_iff in Hle.
    by apply (Qlt_not_le _ _ H).
Qed.

Lemma float_gt_false (a b : Q) : Py.float_gt a b = false <-> (a <= b)%Q.
Proof.
  unfold Py.float_gt. rewrite negb_false_iff. apply Qle_bool_iff.
Qed.

Lemma float_ge_true (a b : Q) : Py.float_ge a b = true <-> (b <= a)%Q.
Proof. unfold Py.float_ge. apply Qle_bool_iff. Qed.

Lemma float_ge_false (a b : Q) : Py.float_ge a b = false <-> (a < b)%Q.
Proof.
  unfold Py.float_ge. split.
  - intros H. apply Qnot_le_lt. intros Hle. apply Qle_bool_iff in Hle. congruence.
  - intros H. apply not_true_is_false. intros Hle. apply Qle_bool_iff in Hle.
    by apply (Qlt_not_le _ _ H).
Qed.

(** The scan of [argmax] and [max]: [pre] is the part of the array already
    seen, [best] its maximum and [best_i] the first position of [best]. *)
Definition first_max (l : list Q) (i : nat) (p : Q) : Prop :=
  l !! i = Some p
  /\ (forall q, q ∈ l -> (q <= p)%Q)
  /\ (forall j q, (j < i)%nat -> l !! j = Some q -> (q < p)%Q).

Lemma scan_first_max (l : list Q) :
  forall (pre : list Q) (best : Q) (best_i : nat),
    first_max pre best_i best ->
    first_max (pre ++ l) (Np.argmax_from best best_i (length pre) l) (Np.max_from best l).
Proof.
  induction l as [|q rest IH]; intros pre best best_i Hinv; simpl.
  - by rewrite app_nil_r.
  - destruct Hinv as (Hat & Hle & Hlt).
    replace (pre ++ q :: rest) with ((pre ++ [q]) ++ rest) by (by rewrite <- app_assoc).
    replace (S (length pre)) with (length (pre ++ [q])) by (rewrite length_app; simpl; lia).
    destruct (Py.float_gt q best) eqn:Hgt; apply IH.
    + apply float_gt_true in Hgt. split; [|split].
      * rewrite lookup_app_r by lia. by rewrite Nat.sub_diag.
      * intros q' [Hin|Hin]%elem_of_app.
        -- apply Qlt_le_weak. eapply Qle_lt_trans; [by apply Hle|done].
        -- apply list_elem_of_singleton in Hin. subst. apply Qle_refl.
      * intros j q' Hj Hq'. rewrite lookup_app_l in Hq' by done.
        eapply Qle_lt_trans; [|exact Hgt]. apply Hle.
        by apply (list_elem_of_lookup_2 _ j).
    + apply float_gt_false in Hgt. split; [|split].
      * rewrite lookup_app_l; [done|]. by apply lookup_lt_Some in Hat.
      * intros q' [Hin|Hin]%elem_of_app; [by apply Hle|].
        apply list_elem_of_singleton in Hin. by subst.
      * intros j q' Hj Hq'. apply (Hlt j q' Hj).
        rewrite lookup_app_l in Hq'; [done|].
        apply lookup_lt_Some in Hat. lia.
Qed.

Lemma argmax_max_first_max (prob : list (list Q)) :
  concat prob <> [] ->
  exists i p, Np.argmax prob = ok i /\ Np.max prob = ok p /\ first_max (concat prob) i p.
Proof.
  intros Hne. unfold Np.argmax, Np.max.
  destruct (concat prob) as [|q rest]; [done|].
  eexists _, _. split; [reflexivity|]. split; [reflexivity|].
  apply (scan_first_max rest [q] q 0%nat).
  split; [done|]. split.
  - intros q' Hin. apply list_elem_of_singleton in Hin. subst. apply Qle_refl.
  - intros j q' Hj. lia.
Qed.

End NpFacts.

Module ClassifierFacts.
Import Classifier.

Section Predict.
Context {X : Type}.

(** When the [try] block raises. *)
Lemma try_predict_proba_raises (self : Classifier.t X) (m : Estimator X) (x : X) :
  classifier self = Some m ->
  raises (try_predict_proba self x)
  <-> predict_proba m = None
      \/ exists f, predict_proba m = Some f
                   /\ (raises (f x) \/ exists prob, f x = ok prob /\ concat prob = []).
Proof.
  intros Hm. unfold try_predict_proba, get_predict_proba. rewrite Hm.
  destruct (predict_proba m) as [f|]; simpl.
  - split.
    + intros [e He]. right. exists f. split; [done|].
      destruct (f x) as [e'|prob] eqn:Hfx; simpl in *.
      * left. by exists e'.
      * right. exists prob. split; [done|].
        destruct (concat prob) as [|q rest] eqn:Hc; [done|].
        exfalso. unfold Np.argmax, Np.max in He. rewrite Hc in He. by simpl in He.
    + intros [?|(f' & Hf' & Hcase)]; [done|]. simplify_eq.
      destruct Hcase as [[e He]|(prob & Hp & Hc)].
      * rewrite He. by exists e.
      * rewrite Hp. simpl. unfold Np.argmax. rewrite Hc. by exists ValueError.
  - split; [by left|]. intros _. by exists AttributeError.
Qed.

Lemma predict_fallback (self : Classifier.t X) (x : X) :
  raises (try_predict_proba self x) ->
  predict self x true = full_confidence self x.
Proof. intros [e He]. unfold predict. by rewrite He. Qed.

Lemma predict_no_fallback (self : Classifier.t X) (x : X) (r : prediction) :
  try_predict_proba self x = ok r -> predict self x true = ok r.
Proof. intros He. unfold predict. by rewrite He. Qed.
End Predict.

(** Paths of the model folder. *)
Lemma append_cancel (a b c : string) : (a ++ b)%string = (a ++ c)%string -> b = c.
Proof. induction a as [|ch a IH]; simpl; intros H; [done|]. injection H as H. auto. Qed.

Lemma os_path_join_inj (d a b : string) :
  Py.os_path_join d a = Py.os_path_join d b -> a = b.
Proof. unfold Py.os_path_join. apply append_cancel. Qed.

End ClassifierFacts.

(** C3, as the code has it.  For a fitted classifier, the full-confidence
    fallback of [predict(x, get_confidence=True)] is taken exactly when the
    [try] block raises: the model exposes no [predict_proba], or its
    [predict_proba(x)] raises whatever exception, or the probability array is
    empty; the call then returns what the handler computes, the model's
    [predict(x)] with confidence 1.0. *)
Theorem fallback_iff_try_block_raises {X : Type}
    (self : Classifier.t X) (m : Classifier.Estimator X) (x : X) :
  Classifier.classifier self = Some m ->
  (Classifier.fallback_taken self x
   <-> Classifier.predict_proba m = None
       \/ exists f, Classifier.predict_proba m = Some f
                    /\ (raises (f x) \/ exists prob, f x = ok prob /\ concat prob = []))
  /\ (Classifier.fallback_taken self x ->
      Classifier.predict self x true
      = (do y <- Classifier.estimator_predict m x; ok (Classifier.LabelsConfidence y 1))).
Proof.
  intros Hm. split.
  - by apply ClassifierFacts.try_predict_proba_raises.
  - intros Hf. rewrite (ClassifierFacts.predict_fallback self x Hf).
    unfold Classifier.full_confidence, Classifier.get_predict. by rewrite Hm.
Qed.

Lemma fallback_iff_try_block_raises_witness :
  Classifier.classifier (ClassifierSamples.fitted ClassifierSamples.plain_estimator)
    = Some ClassifierSamples.plain_estimator
  /\ Classifier.predict (ClassifierSamples.fitted ClassifierSamples.plain_estimator)
       ClassifierSamples.two_samples true
     = ok (Classifier.LabelsConfidence [0%Z; 0%Z] 1).
Proof.
  split; [reflexivity|].
  destruct (fallback_iff_try_block_raises
              (ClassifierSamples.fitted ClassifierSamples.plain_estimator)
              ClassifierSamples.plain_estimator ClassifierSamples.two_samples eq_refl)
    as [Hiff Hres].
  rewrite Hres; [reflexivity|].
  apply Hiff. left. reflexivity.
Defined.

(** C3, counterexample.  A model that does expose [predict_proba], whose call
    fails with [ValueError]: the fallback is taken all the same and the call
    reports confidence 1.0, so the fallback is not tied to the missing
    capability. *)
Lemma fallback_on_failing_predict_proba :
  Classifier.predict (ClassifierSamples.fitted ClassifierSamples.failing_proba_estimator)
    ClassifierSamples.one_sample true
  = ok (Classifier.LabelsConfidence [0%Z] 1)
  /\ ~ (Classifier.fallback_taken
          (ClassifierSamples.fitted ClassifierSamples.failing_proba_estimator)
          ClassifierSamples.one_sample
        <-> Classifier.predict_proba ClassifierSamples.failing_proba_estimator = None).
Proof.
  split; [reflexivity|].
  intros [Hto _].
  assert (Hf : Classifier.fallback_taken
                 (ClassifierSamples.fitted ClassifierSamples.failing_proba_estimator)
                 ClassifierSamples.one_sample) by (by exists ValueError).
  specialize (Hto Hf). discriminate Hto.
Qed.




Module PersistenceFacts.
Import Classifier.

Section Persistence.
Context {X : Type}.

(** What [save] leaves at the three paths of the model folder. *)
Lemma save_class_mapping (self : Classifier.t X) (fs : gmap string (file X)) (path : string) :
  save self fs path !! Py.os_path_join path "class_mapping.json"
  = Some (JsonMapping (class_mapping self)).
Proof.
  unfold save, joblib_dump, save_opt, save_mapping.
  destruct (classifier self).
  - rewrite lookup_insert_ne by (intros H; by apply ClassifierFacts.os_path_join_inj in H).
    rewrite lookup_insert_ne by (intros H; by apply ClassifierFacts.os_path_join_inj in H).
    apply lookup_insert_eq.
  - rewrite lookup_insert_ne by (intros H; by apply ClassifierFacts.os_path_join_inj in H).
    apply lookup_insert_eq.
Qed.

Lemma save_pipeline_opt (self : Classifier.t X) (fs : gmap string (file X)) (path : string) :
  save self fs path !! Py.os_path_join path "pipeline_opt.json" = Some (JsonOpt (opt self)).
Proof.
  unfold save, joblib_dump, save_opt, save_mapping.
  destruct (classifier self).
  - rewrite lookup_insert_ne by (intros H; by apply ClassifierFacts.os_path_join_inj in H).
    apply lookup_insert_eq.
  - apply lookup_insert_eq.
Qed.

Lemma save_classifier (self : Classifier.t X) (m : Estimator X)
    (fs : gmap string (file X)) (path : string) :
  classifier self = Some m ->
  save self fs path !! Py.os_path_join path "classifier.pkl" = Some (Joblib m).
Proof.
  intros Hm. unfold save, joblib_dump. rewrite Hm. apply lookup_insert_eq.
Qed.

(** Files that were in the folder before the call are gone, unless [save]
    has written them again. *)
Lemma save_clears_folder (self : Classifier.t X) (fs : gmap string (file X))
    (path name : string) :
  name <> "class_mapping.json" -> name <> "pipeline_opt.json" -> name <> "classifier.pkl" ->
  save self fs path !! Py.os_path_join path name = None.
Proof.
  intros H1 H2 H3.
  assert (Hclean : check_n_make_dir fs path true !! Py.os_path_join path name = None).
  { unfold check_n_make_dir. apply map_lookup_filter_None. right.
    intros f _. simpl. unfold Py.os_path_join.
    destruct (String.prefix (Py.join_prefix path) (Py.join_prefix path ++ name)) eqn:Hp; [done|].
    exfalso. revert Hp. generalize (Py.join_prefix path). intros a.
    induction a as [|c a IH]; simpl.
    - by destruct name.
    - destruct (Ascii.ascii_dec c c); [done|congruence]. }
  unfold save, joblib_dump, save_opt, save_mapping.
  destruct (classifier self).
  - rewrite !lookup_insert_ne; [done|..];
      intros H; apply ClassifierFacts.os_path_join_inj in H; congruence.
  - rewrite !lookup_insert_ne; [done|..];
      intros H; apply ClassifierFacts.os_path_join_inj in H; congruence.
Qed.

Lemma load_after_save (self fresh : Classifier.t X) (m : Estimator X)
    (fs : gmap string (file X)) (path : string) :
  classifier self = Some m ->
  load fresh (save self fs path) path
  = ok {| opt := opt self;
          class_mapping := class_mapping self;
          class_mapping_inv :=
            match class_mapping self with
            | Some d => Some (invert d)
            | None => class_mapping_inv fresh
            end;
          classifier := Some m;
          best_params := best_params fresh;
          best_score := best_score fresh |}.
Proof.
  intros Hm. unfold load, load_mapping, load_opt, joblib_load.
  rewrite save_class_mapping, save_pipeline_opt, (save_classifier self m fs path Hm).
  reflexivity.
Qed.

(** [predict] reads nothing but the model. *)
Lemma predict_ext (c1 c2 : Classifier.t X) (x : X) (get_confidence : bool) :
  classifier c1 = classifier c2 ->
  predict c1 x get_confidence = predict c2 x get_confidence.
Proof.
  intros H. unfold predict, try_predict_proba, full_confidence. by rewrite H.
Qed.
End Persistence.

End PersistenceFacts.

(** C9.  A fitted candidate saved to a path and loaded from that path into a
    fresh classifier: the load succeeds, the loaded classifier has the class
    mapping, the resolved configuration and the model of the original, and it
    predicts on every input batch, with or without confidence, what the
    original predicts. *)
Theorem save_load_roundtrip {X : Type}
    (self : Classifier.t X) (m : Classifier.Estimator X)
    (fs : gmap string (Classifier.file X)) (path : string)
    (x : X) (get_confidence : bool) :
  Classifier.classifier self = Some m ->
  exists loaded : Classifier.t X,
    Classifier.load (Classifier.__init__ PyNone None) (Classifier.save self fs path) path
    = ok loaded
    /\ Classifier.class_mapping loaded = Classifier.class_mapping self
    /\ Classifier.opt loaded = Classifier.opt self
    /\ Classifier.classifier loaded = Classifier.classifier self
    /\ Classifier.predict loaded x get_confidence = Classifier.predict self x get_confidence.
Proof.
  intros Hm. eexists. split.
  - by apply PersistenceFacts.load_after_save.
  - simpl. repeat split; [by rewrite Hm|].
    apply PersistenceFacts.predict_ext. simpl. by rewrite Hm.
Qed.

Lemma save_load_roundtrip_witness :
  exists loaded : Classifier.t ClassifierSamples.Batch,
    Classifier.load (Classifier.__init__ PyNone None)
      (Classifier.save (ClassifierSamples.fitted ClassifierSamples.threshold_estimator)
         ∅ "models/best") "models/best"
    = ok loaded
    /\ Classifier.class_mapping loaded
       = Classifier.class_mapping (ClassifierSamples.fitted ClassifierSamples.threshold_estimator)
    /\ Classifier.opt loaded
       = Classifier.opt (ClassifierSamples.fitted ClassifierSamples.threshold_estimator)
    /\ Classifier.classifier loaded
       = Classifier.classifier (ClassifierSamples.fitted ClassifierSamples.threshold_estimator)
    /\ Classifier.predict loaded ClassifierSamples.two_samples false
       = Classifier.predict (ClassifierSamples.fitted ClassifierSamples.threshold_estimator)
           ClassifierSamples.two_samples false.
Proof.
  apply (save_load_roundtrip
           (ClassifierSamples.fitted ClassifierSamples.threshold_estimator)
           ClassifierSamples.threshold_estimator ∅ "models/best"
           ClassifierSamples.two_samples false).
  reflexivity.
Defined.

(** ** outlier_detector.py: OutlierByDistance *)

Module OutlierByDistanceFacts.
Import OutlierByDistance.

Local Open Scope R_scope.

Lemma epsilon_pos : 0 < epsilon.
Proof. unfold epsilon. apply Rinv_0_lt_compat. lra. Qed.

Lemma std_nonneg (l : list R) : 0 <= std l.
Proof. unfold std. apply sqrt_pos. Qed.

(** After the flooring every standard deviation is positive. *)
Lemma floor_zero_pos (x : Matrix) :
  Forall (fun s => 0 < s) (floor_zero (np_std_axis0 x)).
Proof.
  unfold floor_zero, np_std_axis0. rewrite Forall_map, Forall_map.
  apply Forall_forall. intros j _. simpl.
  destruct (Req_dec_T (std (column j x)) 0) as [Hz|Hnz]; [apply epsilon_pos|].
  pose proof (std_nonneg (column j x)). lra.
Qed.

(** Only the zero entries are changed. *)
Lemma floor_zero_lookup (l : list R) (j : nat) (s : R) :
  l !! j = Some s ->
  floor_zero l !! j = Some (if Req_dec_T s 0 then epsilon else s).
Proof. intros H. unfold floor_zero. by rewrite list_lookup_fmap, H. Qed.

Lemma fold_left_Rmax_spec (l : list R) :
  forall d : R,
    fold_left Rmax l d ∈ d :: l /\ (forall v, v ∈ d :: l -> v <= fold_left Rmax l d).
Proof.
  induction l as [|a l IH]; intros d; simpl.
  - split; [by left|]. intros v Hv. apply list_elem_of_singleton in Hv. subst. lra.
  - destruct (IH (Rmax d a)) as [Hin Hle]. split.
    + apply elem_of_cons in Hin as [Heq|Hin].
      * rewrite Heq. unfold Rmax. destruct (Rle_dec d a); [right; by left|by left].
      * right. by right.
    + intros v Hv. apply elem_of_cons in Hv as [->|Hv].
      * eapply Rle_trans; [apply (Rmax_l d a)|]. apply Hle. by left.
      * apply elem_of_cons in Hv as [->|Hv].
        -- eapply Rle_trans; [apply (Rmax_r d a)|]. apply Hle. by left.
        -- apply Hle. by right.
Qed.

Lemma np_max_spec (l : list R) (mx : R) :
  np_max l = ok mx -> mx ∈ l /\ (forall v, v ∈ l -> v <= mx).
Proof.
  destruct l as [|d rest]; simpl; [done|].
  intros H. injection H as <-. apply fold_left_Rmax_spec.
Qed.

(** A fitted detector measures every matrix of the right width. *)
Lemma compute_distance_rectangular (self : OutlierByDistance.t) (m s : list R) (x : Matrix) :
  x_mean self = Some m -> x_std self = Some s -> length s = length m ->
  rectangular (length m) x ->
  compute_distance self x = ok (map (row_distance m s) x).
Proof.
  intros Hm Hs Hlen Hrect. unfold compute_distance. rewrite Hm, Hs.
  assert (forallb (fun row => Nat.eqb (length row) (length m)
                              && Nat.eqb (length row) (length s)) x = true) as ->; [|done].
  apply forallb_forall. intros row Hin.
  unfold rectangular in Hrect. rewrite Forall_forall in Hrect.
  apply list_elem_of_In in Hin. specialize (Hrect row Hin).
  rewrite Hlen, Hrect. by rewrite Nat.eqb_refl.
Qed.

Lemma ncols_cons (r : list R) (x : Matrix) : ncols (r :: x) = length r.
Proof. reflexivity. Qed.

Lemma length_np_mean_axis0 (x : Matrix) : length (np_mean_axis0 x) = ncols x.
Proof. unfold np_mean_axis0. by rewrite length_map, length_seq. Qed.

Lemma length_floor_std (x : Matrix) : length (floor_zero (np_std_axis0 x)) = ncols x.
Proof. unfold floor_zero, np_std_axis0. by rewrite !length_map, length_seq. Qed.

(** The two masked assignments of [predict] label every row. *)
Lemma masked_labels (mx : R) (distance : list R) :
  zip_with (fun d p => if Rle_dec d mx then 1 else p) distance
    (zip_with (fun d p => if Rlt_dec mx d then -1 else p) distance
       (map (fun _ => 0) distance))
  = map (fun d => if Rlt_dec mx d then -1 else 1) distance.
Proof.
  induction distance as [|d rest IH]; simpl; [done|].
  rewrite IH. f_equal.
  destruct (Rle_dec d mx), (Rlt_dec mx d); try done; lra.
Qed.

Lemma predict_labels (self : OutlierByDistance.t) (x : Matrix)
    (distance : list R) (mx : R) :
  compute_distance self x = ok distance ->
  max_distance self = Some mx ->
  predict self x = ok (map (fun d => if Rlt_dec mx d then -1 else 1) distance).
Proof.
  intros Hd Hmx. unfold predict. rewrite Hd, Hmx. simpl. by rewrite masked_labels.
Qed.

Lemma score_sample_negates (self : OutlierByDistance.t) (x : Matrix) (distance : list R) :
  compute_distance self x = ok distance ->
  score_sample self x = ok (map Ropp distance).
Proof.
  intros Hd. unfold score_sample. rewrite Hd. simpl. f_equal.
  apply map_ext. intros d. ring.
Qed.

(** The two samples of the scenario, against mean [0, 0] and standard
    deviation [1, 1]. *)
Lemma distance_far : row_distance [0; 0] [1; 1] [10; 10] = sqrt 200.
Proof. unfold row_distance. f_equal. simpl. unfold Rsqr. field. Qed.

Lemma distance_near : row_distance [0; 0] [1; 1] [1 / 10; - (1 / 10)] = sqrt (2 / 100).
Proof. unfold row_distance. f_equal. simpl. unfold Rsqr. field. Qed.

Lemma sqrt_200_large : 14 < sqrt 200.
Proof.
  rewrite <- (sqrt_square 14) at 1 by lra.
  apply sqrt_lt_1_alt. lra.
Qed.

Lemma sqrt_small : 0 < sqrt (2 / 100) < 3 / 20.
Proof.
  split.
  - apply sqrt_lt_R0. lra.
  - rewrite <- (sqrt_square (3 / 20)) by lra.
    apply sqrt_lt_1_alt. lra.
Qed.

End OutlierByDistanceFacts.

Module OutlierScenario.
Import OutlierByDistance OutlierByDistanceFacts OutlierSamples.

Local Open Scope R_scope.

Lemma unit_training_mean : np_mean_axis0 unit_training = [0; 0].
Proof.
  unfold np_mean_axis0, unit_training, mean, sum. simpl.
  repeat f_equal; field.
Qed.

Lemma unit_training_std : floor_zero (np_std_axis0 unit_training) = [1; 1].
Proof.
  assert (Hstd : std [1; -1] = 1).
  { unfold std. rewrite <- sqrt_1 at 2. f_equal.
    unfold mean, sum, Rsqr. simpl. field. }
  unfold np_std_axis0, unit_training, floor_zero. simpl.
  change (column 0 [[1; 1]; [-1; -1]]) with [1; -1].
  change (column 1 [[1; 1]; [-1; -1]]) with [1; -1].
  rewrite Hstd. destruct (Req_dec_T 1 0); [lra|done].
Qed.

Lemma unit_training_distance (row : list R) :
  row ∈ unit_training -> row_distance [0; 0] [1; 1] row = sqrt 2.
Proof.
  unfold unit_training. intros Hin.
  apply elem_of_cons in Hin as [->|Hin];
    [|apply list_elem_of_singleton in Hin; subst];
    unfold row_distance; f_equal; simpl; unfold Rsqr; field.
Qed.

(** Fitting on the sample matrix. *)
Lemma fit_unit_training :
  fit __init__ unit_training
  = ok {| x_mean := Some [0; 0];
          x_std := Some [1; 1];
          max_distance := Some (sqrt 2);
          min_distance := Some (sqrt 2) |}.
Proof.
  unfold fit. rewrite unit_training_mean, unit_training_std.
  unfold compute_distance. simpl.
  rewrite !unit_training_distance by (unfold unit_training; set_solver).
  simpl. unfold Rmax, Rmin.
  destruct (Rle_dec (sqrt 2) (sqrt 2)); reflexivity.
Qed.

End OutlierScenario.



(** ** outlier_detector.py: OutlierDetectorAggregatorSearch *)

Module OutlierSearchFacts.
Import Search OutlierDetectorAggregatorSearch.

Section Driver.
Context {Aggregator Features Data Remover Scores ClassMapping : Type}.
Context `{!Aggregation Aggregator Features Data}.
Context (remover_fit : Remover -> Data -> list Z -> Remover).
Context (remover_score_sample : Remover -> Data -> Scores).
Context (roc_auc_score : list Z -> Scores -> Q).

Lemma track_best_replaces (inp : @inputs Features ClassMapping) (a : nat) (agg : Aggregator)
    (score : Q) (st : @state Aggregator Remover ClassMapping) :
  (best_score st < score)%Q ->
  track_best inp a agg score st
  = {| aggregator_list := aggregator_list st;
       remover := remover st;
       best_score := score;
       best_candidate := Some a;
       final_aggregator := Some a;
       final_remover := true;
       model_folder :=
         Some {| saved_opt := overridden (aggregator_opt agg) (opt inp);
                 saved_class_mapping := class_mapping inp;
                 saved_aggregator := agg;
                 saved_remover := remover st |} |}.
Proof.
  intros Hlt. unfold track_best.
  by rewrite (proj2 (NpFacts.float_gt_true score (best_score st)) Hlt).
Qed.

Lemma track_best_keeps (inp : @inputs Features ClassMapping) (a : nat) (agg : Aggregator)
    (score : Q) (st : @state Aggregator Remover ClassMapping) :
  (score <= best_score st)%Q -> track_best inp a agg score st = st.
Proof.
  intros Hle. unfold track_best.
  by rewrite (proj2 (NpFacts.float_gt_false score (best_score st)) Hle).
Qed.
End Driver.

(** On the sample run the vocabulary sizes 128 and 256 tie at 0.9: the
    earlier one stays the best. *)
Example outlier_tie_keeps_first :
  OutlierDetectorAggregatorSearch.best_candidate (fst SearchSamples.outlier_tie_run) = Some 1%nat
  /\ OutlierDetectorAggregatorSearch.best_score (fst SearchSamples.outlier_tie_run) = 9 # 10.
Proof. split; vm_compute; reflexivity. Qed.

End OutlierSearchFacts.

(** C6.  In the aggregator-tier outlier search, evaluating the candidate at
    position [a] from any state: when its AUROC is strictly greater than the
    recorded best it becomes the best, with its score, and is saved to the
    model folder; otherwise, and in particular when its AUROC ties the
    recorded best, the recorded best, its score and the model folder stay as
    they are.  So a candidate that is not the recorded one already is the
    recorded one afterwards if and only if its AUROC is strictly greater. *)
Theorem outlier_best_replaced_iff_strictly_greater
    {Aggregator Features Data Remover Scores ClassMapping : Type}
    `{!Search.Aggregation Aggregator Features Data}
    (remover_fit : Remover -> Data -> list Z -> Remover)
    (remover_score_sample : Remover -> Data -> Scores)
    (roc_auc_score : list Z -> Scores -> Q)
    (inp : @OutlierDetectorAggregatorSearch.inputs Features ClassMapping)
    (a : nat) (agg : Aggregator)
    (st : @OutlierDetectorAggregatorSearch.state Aggregator Remover ClassMapping) :
  let evaluated :=
    OutlierDetectorAggregatorSearch.evaluate_candidate
      remover_fit remover_score_sample roc_auc_score inp a agg st in
  let score := snd evaluated in
  let st' :=
    OutlierDetectorAggregatorSearch.fit_step
      remover_fit remover_score_sample roc_auc_score inp a agg st in
  ((OutlierDetectorAggregatorSearch.best_score st < score)%Q ->
     OutlierDetectorAggregatorSearch.best_score st' = score
     /\ OutlierDetectorAggregatorSearch.best_candidate st' = Some a
     /\ OutlierDetectorAggregatorSearch.final_aggregator st' = Some a
     /\ OutlierDetectorAggregatorSearch.model_folder st'
        = Some {| OutlierDetectorAggregatorSearch.saved_opt :=
                    Search.overridden (Search.aggregator_opt (fst (fst evaluated)))
                      (OutlierDetectorAggregatorSearch.opt inp);
                  OutlierDetectorAggregatorSearch.saved_class_mapping :=
                    OutlierDetectorAggregatorSearch.class_mapping inp;
                  OutlierDetectorAggregatorSearch.saved_aggregator := fst (fst evaluated);
                  OutlierDetectorAggregatorSearch.saved_remover :=
                    OutlierDetectorAggregatorSearch.remover (snd (fst evaluated)) |})
  /\ ((score <= OutlierDetectorAggregatorSearch.best_score st)%Q ->
        OutlierDetectorAggregatorSearch.best_score st'
        = OutlierDetectorAggregatorSearch.best_score st
        /\ OutlierDetectorAggregatorSearch.best_candidate st'
           = OutlierDetectorAggregatorSearch.best_candidate st
        /\ OutlierDetectorAggregatorSearch.final_aggregator st'
           = OutlierDetectorAggregatorSearch.final_aggregator st
        /\ OutlierDetectorAggregatorSearch.final_remover st'
           = OutlierDetectorAggregatorSearch.final_remover st
        /\ OutlierDetectorAggregatorSearch.model_folder st'
           = OutlierDetectorAggregatorSearch.model_folder st)
  /\ ((score == OutlierDetectorAggregatorSearch.best_score st)%Q ->
        OutlierDetectorAggregatorSearch.best_candidate st'
        = OutlierDetectorAggregatorSearch.best_candidate st
        /\ OutlierDetectorAggregatorSearch.model_folder st'
           = OutlierDetectorAggregatorSearch.model_folder st)
  /\ (OutlierDetectorAggregatorSearch.best_candidate st <> Some a ->
      (OutlierDetectorAggregatorSearch.best_candidate st' = Some a
       <-> (OutlierDetectorAggregatorSearch.best_score st < score)%Q)).
Proof.
  intros evaluated score st'.
  assert (Hstep : st' = OutlierDetectorAggregatorSearch.track_best inp a
                          (fst (fst evaluated)) score (snd (fst evaluated))).
  { unfold st', OutlierDetectorAggregatorSearch.fit_step, score. fold evaluated.
    by destruct evaluated as [[agg' st1] sc]. }
  assert (Hpre : OutlierDetectorAggregatorSearch.best_score (snd (fst evaluated))
                 = OutlierDetectorAggregatorSearch.best_score st
                 /\ OutlierDetectorAggregatorSearch.best_candidate (snd (fst evaluated))
                    = OutlierDetectorAggregatorSearch.best_candidate st
                 /\ OutlierDetectorAggregatorSearch.final_aggregator (snd (fst evaluated))
                    = OutlierDetectorAggregatorSearch.final_aggregator st
                 /\ OutlierDetectorAggregatorSearch.final_remover (snd (fst evaluated))
                    = OutlierDetectorAggregatorSearch.final_remover st
                 /\ OutlierDetectorAggregatorSearch.model_folder (snd (fst evaluated))
                    = OutlierDetectorAggregatorSearch.model_folder st).
  { unfold evaluated, OutlierDetectorAggregatorSearch.evaluate_candidate.
    by destruct (Search.fit_transform agg (OutlierDetectorAggregatorSearch.x inp)). }
  destruct Hpre as (Hbs & Hbc & Hfa & Hfr & Hmf).
  assert (Hgt : (OutlierDetectorAggregatorSearch.best_score st < score)%Q ->
                OutlierDetectorAggregatorSearch.best_score st' = score
                /\ OutlierDetectorAggregatorSearch.best_candidate st' = Some a
                /\ OutlierDetectorAggregatorSearch.final_aggregator st' = Some a
                /\ OutlierDetectorAggregatorSearch.model_folder st'
                   = Some {| OutlierDetectorAggregatorSearch.saved_opt :=
                               Search.overridden (Search.aggregator_opt (fst (fst evaluated)))
                                 (OutlierDetectorAggregatorSearch.opt inp);
                             OutlierDetectorAggregatorSearch.saved_class_mapping :=
                               OutlierDetectorAggregatorSearch.class_mapping inp;
                             OutlierDetectorAggregatorSearch.saved_aggregator :=
                               fst (fst evaluated);
                             OutlierDetectorAggregatorSearch.saved_remover :=
                               OutlierDetectorAggregatorSearch.remover (snd (fst evaluated)) |}).
  { intros Hlt. rewrite Hstep, OutlierSearchFacts.track_best_replaces by (by rewrite Hbs).
    by simpl. }
  assert (Hle : (score <= OutlierDetectorAggregatorSearch.best_score st)%Q ->
                st' = snd (fst evaluated)).
  { intros Hle. rewrite Hstep. apply OutlierSearchFacts.track_best_keeps. by rewrite Hbs. }
  split; [exact Hgt|]. split; [|split].
  - intros Hc. by rewrite (Hle Hc).
  - intros Heq. rewrite Hle; [done|]. rewrite Heq. apply Qle_refl.
  - intros Hne. split.
    + intros Hbest. apply Qnot_le_lt. intros Hle'. rewrite (Hle Hle'), Hbc in Hbest. done.
    + intros Hlt. by apply Hgt.
Qed.

(** ** optimizing_image_classifier.py *)

Module SupervisedSearchFacts.
Import Search OptimizingImageClassifier.

Section Driver.
Context {Aggregator Features Data Clf ClassMapping : Type}.
Context `{!Aggregation Aggregator Features Data}.
Context (classifier_opt : Clf -> gmap string pyval).
Context (classifier_fit : Clf -> Data -> list Z -> Clf).
Context (classifier_evaluate : Clf -> Data -> list Z -> Q).
Context (inp : @inputs Features ClassMapping).

Lemma track_best_ge (a c : nat) (agg : Aggregator) (cls : Clf) (f_1_score : Q)
    (st : @state Aggregator Clf ClassMapping) :
  (best_f1_score st <= f_1_score)%Q ->
  let res := track_best classifier_opt inp a c agg cls f_1_score st in
  best_f1_score (fst res) = f_1_score
  /\ best_candidate (fst res) = Some (a, c)
  /\ match settings_of (overridden (classifier_opt cls)
                          (overridden (aggregator_opt agg) (opt inp))) with
     | inl e => snd res = Some e /\ model_folder (fst res) = model_folder st
     | inr settings =>
         snd res = None
         /\ model_folder (fst res)
            = Some {| saved_class_mapping := class_mapping inp;
                      saved_settings := settings;
                      saved_feature_extractor := feature_extractor inp;
                      saved_aggregator := agg;
                      saved_classifier := cls |}
     end.
Proof.
  intros Hge res. unfold res, track_best.
  rewrite (proj2 (NpFacts.float_ge_true f_1_score (best_f1_score st)) Hge).
  by destruct (settings_of _).
Qed.

Lemma track_best_lt (a c : nat) (agg : Aggregator) (cls : Clf) (f_1_score : Q)
    (st : @state Aggregator Clf ClassMapping) :
  (f_1_score < best_f1_score st)%Q ->
  track_best classifier_opt inp a c agg cls f_1_score st = (st, None).
Proof.
  intros Hlt. unfold track_best.
  by rewrite (proj2 (NpFacts.float_ge_false f_1_score (best_f1_score st)) Hlt).
Qed.

(** One candidate keeps the invariant, when the run goes on. *)
Lemma evaluate_candidate_checkpoint (aggregators : list Aggregator) (a c : nat)
    (agg0 : Aggregator) (cls0 : Clf) (st st' : @state Aggregator Clf ClassMapping) :
  aggregators !! a = Some agg0 ->
  checkpoint_is_best classifier_opt classifier_fit classifier_evaluate inp aggregators st ->
  evaluate_candidate classifier_opt classifier_fit classifier_evaluate inp a
    (fitted_aggregator inp agg0) (snd (fit_transform agg0 (x_train inp)))
    (transform (fitted_aggregator inp agg0) (x_test inp)) c cls0 st = (st', None) ->
  checkpoint_is_best classifier_opt classifier_fit classifier_evaluate inp aggregators st'.
Proof.
  intros Ha [Hpos Hinv] Hev. unfold evaluate_candidate in Hev.
  set (cls := classifier_fit cls0 (snd (fit_transform agg0 (x_train inp))) (y_train inp)) in *.
  set (f1 := classifier_evaluate cls (transform (fitted_aggregator inp agg0) (x_test inp))
               (y_test inp)) in *.
  set (st1 := {| aggregator_list := aggregator_list st;
                 classifier_list := <[c:=cls]> (classifier_list st);
                 best_f1_score := best_f1_score st;
                 best_candidate := best_candidate st;
                 final_classifier := final_classifier st;
                 model_folder := model_folder st |}) in *.
  destruct (Qlt_le_dec f1 (best_f1_score st1)) as [Hlt|Hge].
  - rewrite track_best_lt in Hev by done. injection Hev as <-.
    split; [done|]. exact Hinv.
  - pose proof (track_best_ge a c (fitted_aggregator inp agg0) cls f1 st1 Hge) as Htb.
    rewrite Hev in Htb. simpl in Htb. destruct Htb as (Hbest & Hcand & Hsave).
    destruct (settings_of _) as [e|settings] eqn:Hset; [by destruct Hsave|].
    destruct Hsave as [_ Hfolder].
    split.
    + rewrite Hbest. eapply Qle_trans; [exact Hpos|exact Hge].
    + rewrite Hcand. exists agg0, cls0, settings.
      split; [done|]. split; [exact Hset|]. split; [exact Hfolder|].
      by rewrite Hbest.
Qed.

Lemma classifier_loop_checkpoint (aggregators : list Aggregator) (a : nat)
    (agg0 : Aggregator) (todo : list Clf) :
  forall (c : nat) (st st' : @state Aggregator Clf ClassMapping),
    aggregators !! a = Some agg0 ->
    checkpoint_is_best classifier_opt classifier_fit classifier_evaluate inp aggregators st ->
    classifier_loop classifier_opt classifier_fit classifier_evaluate inp a
      (fitted_aggregator inp agg0) (snd (fit_transform agg0 (x_train inp)))
      (transform (fitted_aggregator inp agg0) (x_test inp)) c todo st = (st', None) ->
    checkpoint_is_best classifier_opt classifier_fit classifier_evaluate inp aggregators st'.
Proof.
  induction todo as [|cls0 rest IH]; intros c st st' Ha Hinv Hloop; simpl in Hloop.
  - by injection Hloop as <-.
  - destruct (evaluate_candidate _ _ _ _ _ _ _ _ _ _ _) as [st1 [e|]] eqn:Hev; [done|].
    eapply IH; [done| |exact Hloop].
    by eapply evaluate_candidate_checkpoint.
Qed.

Lemma aggregator_step_checkpoint (aggregators : list Aggregator) (a : nat)
    (agg0 : Aggregator) (st st' : @state Aggregator Clf ClassMapping) :
  aggregators !! a = Some agg0 ->
  checkpoint_is_best classifier_opt classifier_fit classifier_evaluate inp aggregators st ->
  aggregator_step classifier_opt classifier_fit classifier_evaluate inp a agg0 st
  = (st', None) ->
  checkpoint_is_best classifier_opt classifier_fit classifier_evaluate inp aggregators st'.
Proof.
  intros Ha Hinv Hstep. unfold aggregator_step in Hstep.
  destruct (fit_transform agg0 (x_train inp)) as [agg x_tr] eqn:Hft.
  eapply (classifier_loop_checkpoint aggregators a agg0); [done| |].
  2:{ unfold fitted_aggregator. rewrite Hft. simpl. exact Hstep. }
  destruct Hinv as [Hpos Hinv]. split; [done|]. exact Hinv.
Qed.

Lemma aggregator_loop_checkpoint (aggregators : list Aggregator) (todo : list Aggregator) :
  forall (a : nat) (st st' : @state Aggregator Clf ClassMapping),
    (forall i agg0, todo !! i = Some agg0 -> aggregators !! (a + i)%nat = Some agg0) ->
    checkpoint_is_best classifier_opt classifier_fit classifier_evaluate inp aggregators st ->
    aggregator_loop classifier_opt classifier_fit classifier_evaluate inp a todo st
    = (st', None) ->
    checkpoint_is_best classifier_opt classifier_fit classifier_evaluate inp aggregators st'.
Proof.
  induction todo as [|agg0 rest IH]; intros a st st' Hpos Hinv Hloop; simpl in Hloop.
  - by injection Hloop as <-.
  - destruct (aggregator_step _ _ _ _ _ _ _) as [st1 [e|]] eqn:Hstep; [done|].
    eapply (IH (S a)); [| |exact Hloop].
    + intros i agg1 Hi. replace (S a + i)%nat with (a + S i)%nat by lia. by apply Hpos.
    + eapply aggregator_step_checkpoint; [|exact Hinv|exact Hstep].
      specialize (Hpos 0%nat agg0 eq_refl). by rewrite Nat.add_0_r in Hpos.
Qed.

(** A run that returns leaves the pipeline of the best candidate in the
    model folder. *)
Lemma fit_checkpoint (aggregators : list Aggregator) (classifiers : list Clf)
    (folder : option Checkpoint) (st : @state Aggregator Clf ClassMapping)
    (opt' : gmap string pyval) (best : Q) :
  fit classifier_opt classifier_fit classifier_evaluate inp aggregators classifiers folder
  = (st, ok (opt', best)) ->
  best = best_f1_score st
  /\ is_Some (best_candidate st)
  /\ checkpoint_is_best classifier_opt classifier_fit classifier_evaluate inp aggregators st.
Proof.
  unfold fit. intros Hfit.
  destruct (aggregator_loop _ _ _ _ _ _ _) as [st1 [e|]] eqn:Hloop; [by injection Hfit|].
  assert (Hinv : checkpoint_is_best classifier_opt classifier_fit classifier_evaluate inp aggregators st1).
  { eapply (aggregator_loop_checkpoint aggregators aggregators 0%nat); [done| |exact Hloop].
    split; [apply Qle_refl|done]. }
  destruct (best_candidate st1) as [[a c]|] eqn:Hbest; [|by injection Hfit].
  destruct (aggregator_list st1 !! a), (classifier_list st1 !! c); try by injection Hfit.
  injection Hfit as <- <- <-. rewrite Hbest. eauto.
Qed.
End Driver.

End SupervisedSearchFacts.



Module SupervisedSearchExamples.

(** Two pipelines tie at 0.8: the one evaluated last is recorded and saved. *)
Example tie_prefers_latest :
  OptimizingImageClassifier.best_candidate (fst SearchSamples.tie_run) = Some (1%nat, 0%nat)
  /\ OptimizingImageClassifier.best_f1_score (fst SearchSamples.tie_run) = 8 # 10
  /\ (SearchSamples.trained_on ∘ OptimizingImageClassifier.saved_classifier)
       <$> OptimizingImageClassifier.model_folder (fst SearchSamples.tie_run)
     = Some (Some 128%Z).
Proof. repeat split; vm_compute; reflexivity. Qed.

(** The classifier objects are shared by all aggregators: after the run the
    object of the recorded candidate has been fitted again under the second
    aggregator, while the model folder still holds it as it was when the
    candidate was saved. *)
Example checkpoint_is_a_snapshot :
  OptimizingImageClassifier.best_candidate (fst SearchSamples.refit_run) = Some (0%nat, 1%nat)
  /\ (SearchSamples.trained_on ∘ OptimizingImageClassifier.saved_classifier)
       <$> OptimizingImageClassifier.model_folder (fst SearchSamples.refit_run)
     = Some (Some 64%Z)
  /\ SearchSamples.trained_on
       <$> OptimizingImageClassifier.classifier_list (fst SearchSamples.refit_run) !! 1%nat
     = Some (Some 256%Z).
Proof. repeat split; vm_compute; reflexivity. Qed.

End SupervisedSearchExamples.

(** * Further properties *)

(** ** data_split.py *)

Module DataSplitMore.
Import DataSplit.

(** The number of leading tags that the fixed mode sends to the test set. *)
Lemma fixed_cutoff (ratio : Q) (i : nat) :
  Py.float_ge (inject_Z (Z.of_nat i) / 100) ratio = true
  <-> (Z.to_nat (Qceiling (100 * ratio)) <= i)%nat.
Proof.
  unfold Py.float_ge. rewrite Qle_bool_iff.
  assert (Hq : (ratio <= inject_Z (Z.of_nat i) / 100)%Q
               <-> (100 * ratio <= inject_Z (Z.of_nat i))%Q).
  { destruct ratio as [p q]. unfold Qle, Qdiv, Qmult, Qinv, inject_Z. simpl. lia. }
  rewrite Hq. split.
  - intros Hle. apply Qceiling_resp_le in Hle. rewrite Qceiling_Z in Hle. lia.
  - intros Hle. eapply Qle_trans; [apply Qle_ceiling|].
    rewrite <- Zle_Qle. lia.
Qed.

Section Split.
Context {Tag : Type}.

Lemma split_fixed_loop_cutoff (ratio : Q) (l : list Tag) :
  forall (i : nat) (train test : list Tag),
    let k := Z.to_nat (Qceiling (100 * ratio)) in
    split_fixed_loop i l ratio train test
    = (train ++ drop (k - i) l, test ++ take (k - i) l).
Proof.
  induction l as [|tag rest IH]; intros i train test k; simpl.
  - by rewrite drop_nil, take_nil, !app_nil_r.
  - destruct (Py.float_ge (inject_Z (Z.of_nat i) / 100) ratio) eqn:Hge.
    + apply fixed_cutoff in Hge. fold k in Hge. rewrite IH. fold k.
      replace (k - i)%nat with 0%nat by lia.
      replace (k - S i)%nat with 0%nat by lia.
      simpl. by rewrite drop_0, <- app_assoc.
    + assert (Hlt : (i < k)%nat).
      { apply Nat.nle_gt. intros Hle. apply fixed_cutoff in Hle. congruence. }
      rewrite IH. fold k.
      replace (k - i)%nat with (S (k - S i)) by lia.
      simpl. by rewrite <- app_assoc.
Qed.

(** The accumulators of the random split only grow at their ends. *)
Lemma split_random_loop_acc (draws : nat -> Z) (ratio : Q) (l : list Tag) :
  forall (i : nat) (train test : list Tag),
    split_random_loop draws i l ratio train test
    = (train ++ fst (split_random_loop draws i l ratio [] []),
       test ++ snd (split_random_loop draws i l ratio [] [])).
Proof.
  induction l as [|tag rest IH]; intros i train test; simpl.
  - by rewrite !app_nil_r.
  - destruct (Py.float_gt _ _).
    + rewrite (IH (S i) (train ++ [tag])), (IH (S i) [tag]). simpl.
      by rewrite <- app_assoc.
    + rewrite (IH (S i) train (test ++ [tag])), (IH (S i) [] [tag]). simpl.
      by rewrite <- app_assoc.
Qed.

Lemma split_random_loop_partition (draws : nat -> Z) (ratio : Q) (l : list Tag) :
  forall i : nat,
    let r := split_random_loop draws i l ratio [] [] in
    fst r ++ snd r ≡ₚ l /\ fst r `sublist_of` l /\ snd r `sublist_of` l.
Proof.
  induction l as [|tag rest IH]; intros i; simpl; [done|].
  destruct (IH (S i)) as (Hp & Hs1 & Hs2).
  destruct (Py.float_gt _ _); rewrite split_random_loop_acc; simpl.
  - split; [by rewrite Hp|]. split; [by apply sublist_skip|by apply sublist_cons].
  - split.
    + rewrite <- Permutation_middle. by rewrite Hp.
    + split; [by apply sublist_cons|by apply sublist_skip].
Qed.

(** Where the tag at position [i + j] goes. *)
Lemma split_random_loop_lookup (draws : nat -> Z) (ratio : Q) (l : list Tag) :
  forall (i j : nat) (tag : Tag),
    l !! j = Some tag ->
    let r := split_random_loop draws i l ratio [] [] in
    if Py.float_gt (inject_Z (draws (i + j)%nat) / 100) ratio
    then tag ∈ fst r
    else tag ∈ snd r.
Proof.
  induction l as [|tag0 rest IH]; intros i j tag Hj; [done|]. simpl.
  destruct j as [|j]; simpl in Hj.
  - injection Hj as ->. rewrite Nat.add_0_r.
    destruct (Py.float_gt _ _); rewrite split_random_loop_acc; simpl; by left.
  - specialize (IH (S i) j tag Hj). cbv zeta in IH.
    replace (i + S j)%nat with (S i + j)%nat by lia.
    destruct (Py.float_gt (inject_Z (draws (S i + j)%nat) / 100) ratio);
      destruct (Py.float_gt (inject_Z (draws i) / 100) ratio);
      rewrite split_random_loop_acc; cbn [fst snd app];
      first [exact IH | by apply list_elem_of_further].
Qed.
End Split.

End DataSplitMore.


(** X2.  The random split sends every tag to exactly one of the two sets
    and keeps the order of the tags in both; the tag at position [j] goes to
    the train set when its draw divided by 100 is greater than the ratio and
    to the test set otherwise.  At ratio 0.2 the draws 0 to 20 send a tag to
    the test set: 21 of the 100 values a draw can take. *)
Theorem split_random_partitions {Tag : Type} (draws : nat -> Z) (l : list Tag) (ratio : Q) :
  let train := fst (DataSplit.split_random draws l ratio) in
  let test := snd (DataSplit.split_random draws l ratio) in
  train ++ test ≡ₚ l
  /\ train `sublist_of` l
  /\ test `sublist_of` l
  /\ (length train + length test = length l)%nat
  /\ (forall (j : nat) (tag : Tag),
        l !! j = Some tag ->
        if Py.float_gt (inject_Z (draws j) / 100) ratio then tag ∈ train else tag ∈ test)
  /\ (forall d : Z,
        Py.float_gt (inject_Z d / 100) DataSplit.default_ratio = false <-> (d <= 20)%Z).
Proof.
  intros train test. unfold train, test, DataSplit.split_random.
  destruct (DataSplitMore.split_random_loop_partition draws ratio l 0) as (Hp & Hs1 & Hs2).
  split; [exact Hp|]. split; [exact Hs1|]. split; [exact Hs2|].
  split; [by rewrite <- length_app, Hp|]. split.
  - intros j tag Hj.
    exact (DataSplitMore.split_random_loop_lookup draws ratio l 0 j tag Hj).
  - intros d. rewrite NpFacts.float_gt_false.
    unfold DataSplit.default_ratio, Qle, Qdiv, Qmult, Qinv, inject_Z. simpl. lia.
Qed.

(** X3.  [split_tags] knows the two modes "random" and "fixed" only: every
    other mode raises the exception that names it, and a call that returns
    has split the tags into two order-preserving parts that together are the
    tags given. *)
Theorem split_tags_modes {Tag : Type} (draws : nat -> Z) (l : list Tag)
    (ratio : Q) (mode : string) :
  (mode <> "random" -> mode <> "fixed" ->
   DataSplit.split_tags draws l ratio mode
   = raise (Exception ("Unknown mode - " ++ mode ++ " -")))
  /\ (forall train test : list Tag,
        DataSplit.split_tags draws l ratio mode = ok (train, test) ->
        (mode = "random" \/ mode = "fixed")
        /\ train ++ test ≡ₚ l
        /\ train `sublist_of` l
        /\ test `sublist_of` l).
Proof.
  unfold DataSplit.split_tags. split.
  - intros Hr Hf.
    apply String.eqb_neq in Hr. apply String.eqb_neq in Hf. by rewrite Hr, Hf.
  - intros train test.
    destruct (String.eqb mode "random") eqn:Hr.
    + apply String.eqb_eq in Hr. intros Heq. injection Heq as Heq.
      pose proof (DataSplitMore.split_random_loop_partition draws ratio l 0) as Hsplit.
      cbv zeta in Hsplit. unfold DataSplit.split_random in Heq.
      rewrite Heq in Hsplit. simpl in Hsplit.
      destruct Hsplit as (Hp & Hs1 & Hs2). auto.
    + destruct (String.eqb mode "fixed") eqn:Hf; [|done].
      apply String.eqb_eq in Hf. intros Heq. injection Heq as Heq.
      unfold DataSplit.split_fixed in Heq.
      rewrite DataSplitMore.split_fixed_loop_cutoff in Heq. simpl in Heq.
      injection Heq as <- <-.
      split; [auto|]. split; [|split].
      * rewrite Permutation_app_comm. by rewrite take_drop.
      * apply sublist_drop.
      * apply sublist_take.
Qed.

(** ** feature_extractor.py *)

Module ValidationFacts.
Import FeatureExtractor.

Lemma validate_cases (sm : string) (v : pyval) (sm' : string) (v' : pyval) :
  validate_feature_extraction_settings sm v = ok (sm', v') ->
  v' = v
  /\ ((sm' = sm
       /\ (sm = "kaze" \/ sm = "akaze" \/ Py.contains "kaze" v = ok false)
       /\ (sm = "sift" -> Py.contains "sift" v = ok true))
      \/ (sm' = "kaze" /\ sm <> "kaze" /\ sm <> "akaze")).
Proof.
  unfold validate_feature_extraction_settings. intros Hv.
  destruct (String.eqb sm "kaze") eqn:Hk.
  { apply String.eqb_eq in Hk. subst sm. simpl in Hv. injection Hv as <- <-.
    split; [done|]. left. split; [done|]. split; [by left|]. done. }
  destruct (String.eqb sm "akaze") eqn:Ha.
  { apply String.eqb_eq in Ha. subst sm. simpl in Hv. injection Hv as <- <-.
    split; [done|]. left. split; [done|]. split; [right; by left|]. done. }
  apply String.eqb_neq in Hk. apply String.eqb_neq in Ha.
  simpl in Hv.
  destruct (Py.contains "kaze" v) as [e|[|]] eqn:Hc; simpl in Hv; [done| |].
  { injection Hv as <- <-. split; [done|]. by right. }
  destruct (String.eqb sm "sift") eqn:Hs.
  - destruct (Py.contains "sift" v) as [e|[|]] eqn:Hc'; simpl in Hv; [done| |].
    + injection Hv as <- <-. split; [done|]. left. split; [done|].
      split; [right; by right|]. done.
    + injection Hv as <- <-. split; [done|]. by right.
  - apply String.eqb_neq in Hs. simpl in Hv. injection Hv as <- <-.
    split; [done|]. left. split; [done|]. split; [right; by right|]. done.
Qed.

Lemma validate_compatible (sm : string) (v : pyval) :
  (sm = "kaze" \/ sm = "akaze" \/ Py.contains "kaze" v = ok false) ->
  (sm = "sift" -> Py.contains "sift" v = ok true) ->
  validate_feature_extraction_settings sm v = ok (sm, v).
Proof.
  intros Hkaze Hsift. unfold validate_feature_extraction_settings.
  destruct Hkaze as [->| [->|Hc]]; [done|done|].
  destruct (negb _); simpl; [rewrite Hc; simpl|];
    (destruct (String.eqb sm "sift") eqn:Hs; [|done];
     apply String.eqb_eq in Hs; by rewrite (Hsift Hs)).
Qed.
End ValidationFacts.

(** X4.  The settings validation never changes the features and never
    invents a sampling method other than "kaze": a call that returns gives
    back the features it was given, with either the sampling method it was
    given or "kaze"; the pair it returns passes the validation unchanged, so
    validating twice is validating once; and a returned method "sift" means
    that the features do mention "sift". *)
Theorem validate_settings_coerces_once (sm : string) (v : pyval)
    (sm' : string) (v' : pyval) :
  FeatureExtractor.validate_feature_extraction_settings sm v = ok (sm', v') ->
  v' = v
  /\ (sm' = sm \/ sm' = "kaze")
  /\ FeatureExtractor.validate_feature_extraction_settings sm' v' = ok (sm', v')
  /\ (sm' = "sift" -> Py.contains "sift" v = ok true).
Proof.
  intros Hv. destruct (ValidationFacts.validate_cases sm v sm' v' Hv) as [-> Hcase].
  split; [done|]. destruct Hcase as [(-> & Hk & Hs)|(-> & Hk & Ha)].
  - split; [by left|]. split; [by apply ValidationFacts.validate_compatible|done].
  - split; [by right|]. split; [by apply ValidationFacts.validate_compatible; auto|done].
Qed.

Lemma validate_settings_coerces_once_witness :
  FeatureExtractor.validate_feature_extraction_settings "sift" (PyStr "gray-hog")
  = ok ("kaze", PyStr "gray-hog")
  /\ FeatureExtractor.validate_feature_extraction_settings "kaze" (PyStr "gray-hog")
     = ok ("kaze", PyStr "gray-hog").
Proof.
  split; [reflexivity|].
  exact (proj1 (proj2 (proj2 (validate_settings_coerces_once
                                "sift" (PyStr "gray-hog") "kaze" (PyStr "gray-hog")
                                eq_refl)))).
Defined.

Module ResizeMore.
Import FeatureExtractor.

Section Resize.
Context {Pixels : Type} (interpolate : Pixels -> Z -> Z -> Pixels).

(** A result of [cv2_resize] has the size asked for, which is positive. *)
Lemma cv2_resize_shape (image image' : @Image Pixels) (w h : Z) :
  cv2_resize interpolate image w h = ok image' ->
  shape image' = (h, w) /\ (0 < h)%Z /\ (0 < w)%Z.
Proof.
  unfold cv2_resize. intros Hr.
  destruct (0 <? fst (shape image))%Z, (0 <? snd (shape image))%Z,
    (0 <? w)%Z eqn:Hw, (0 <? h)%Z eqn:Hh; simpl in Hr; try done.
  injection Hr as <-. simpl. split; [done|lia].
Qed.

Lemma cv2_resize_nonpositive (image : @Image Pixels) (w h : Z) :
  (w <= 0)%Z \/ (h <= 0)%Z -> cv2_resize interpolate image w h = raise CvError.
Proof.
  intros Hneg. unfold cv2_resize.
  destruct (0 <? fst (shape image))%Z, (0 <? snd (shape image))%Z; simpl; try done;
    destruct (0 <? w)%Z eqn:Hw; simpl; try done;
    destruct (0 <? h)%Z eqn:Hh; simpl; try done; lia.
Qed.

(** The branch taken when a dimension is below 1: both dimensions are used
    as factors. *)
Lemma resize_scales (image : @Image Pixels) (height width : dim) (h w : Z) :
  (lt_1 height = ok true \/ (lt_1 height = ok false /\ lt_1 width = ok true)) ->
  int_scaled (fst (shape image)) height = ok h ->
  int_scaled (snd (shape image)) width = ok w ->
  resize interpolate image height width = cv2_resize interpolate image w h.
Proof.
  intros Hsmall Hh Hw. unfold resize.
  assert (Hnone : is_None height && is_None width = false).
  { destruct height; [by destruct Hsmall as [?|[? _]]|done|done]. }
  rewrite Hnone. destruct (shape image) as [o_height o_width]. simpl in Hh, Hw.
  destruct Hsmall as [->|[-> ->]]; simpl; by rewrite Hh, Hw.
Qed.

(** The branch taken when no dimension is below 1. *)
Lemma resize_absolute_dims (image : @Image Pixels) (height width : dim) (h w : Z) :
  lt_1 height = ok false -> lt_1 width = ok false ->
  int_of_dim height = ok h -> int_of_dim width = ok w ->
  resize interpolate image height width = cv2_resize interpolate image w h.
Proof.
  intros Hh Hw Hih Hiw. unfold resize.
  assert (Hnh : is_None height = false) by (by destruct height).
  assert (Hnw : is_None width = false) by (by destruct width).
  rewrite Hnh. simpl. destruct (shape image) as [o_height o_width].
  rewrite Hh, Hw. simpl. rewrite ?Hnh, ?Hnw. simpl. by rewrite Hiw, Hih.
Qed.

(** Whatever [resize] returns is the image itself or has a positive size. *)
Lemma resize_result (image image' : @Image Pixels) (height width : dim) :
  resize interpolate image height width = ok image' ->
  (height = DNone /\ width = DNone /\ image' = image)
  \/ ((0 < fst (shape image'))%Z /\ (0 < snd (shape image'))%Z).
Proof.
  unfold resize. destruct (is_None height && is_None width) eqn:Hnone.
  - intros Hr. injection Hr as <-. left.
    destruct height, width; try done.
  - destruct (shape image) as [o_height o_width]. intros Hr. right.
    unfold bind in Hr.
    repeat match type of Hr with
           | match ?t with _ => _ end = _ => destruct t eqn:?; try done
           end;
      match goal with
      | Hc : cv2_resize _ _ _ _ = _ |- _ =>
          rewrite Hc in Hr; injection Hr as <-;
          apply cv2_resize_shape in Hc as (-> & ? & ?); simpl; lia
      | _ => idtac
      end.
    all: apply cv2_resize_shape in Hr as (-> & ? & ?); simpl; lia.
Qed.
End Resize.

End ResizeMore.





(** X7.  [resize] never returns an image with an empty size: a result is
    either the image itself, when both dimensions are unset, or an image of
    positive height and width; pixel counts of which one is zero or negative
    end in OpenCV's error. *)
Theorem resize_never_returns_empty {Pixels : Type}
    (interpolate : Pixels -> Z -> Z -> Pixels) (image : @FeatureExtractor.Image Pixels) :
  (forall (height width : FeatureExtractor.dim) (image' : @FeatureExtractor.Image Pixels),
      FeatureExtractor.resize interpolate image height width = ok image' ->
      (height = FeatureExtractor.DNone /\ width = FeatureExtractor.DNone /\ image' = image)
      \/ ((0 < fst (FeatureExtractor.shape image'))%Z
          /\ (0 < snd (FeatureExtractor.shape image'))%Z))
  /\ (forall h w : Z,
        (h <= 0)%Z \/ (w <= 0)%Z ->
        FeatureExtractor.resize interpolate image
          (FeatureExtractor.DInt h) (FeatureExtractor.DInt w)
        = raise CvError).
Proof.
  split.
  - intros height width image'. apply ResizeMore.resize_result.
  - intros h w Hneg.
    rewrite (ResizeMore.resize_scales interpolate image _ _
               (fst (FeatureExtractor.shape image) * h)%Z
               (snd (FeatureExtractor.shape image) * w)%Z); [| |done|done].
    + unfold FeatureExtractor.cv2_resize.
      destruct (0 <? fst (FeatureExtractor.shape image))%Z eqn:Hoh; [|done].
      destruct (0 <? snd (FeatureExtractor.shape image))%Z eqn:How; [|done].
      simpl.
      destruct (0 <? snd (FeatureExtractor.shape image) * w)%Z eqn:Hw; [|done].
      destruct (0 <? fst (FeatureExtractor.shape image) * h)%Z eqn:Hh; [|done].
      exfalso. nia.
    + simpl. destruct (h <? 1)%Z eqn:Hh; [by left|right].
      split; [done|]. f_equal. lia.
Qed.

Module ExtractionMore.
Import FeatureExtractor.

(** Joining matrices column-wise. *)
Lemma hstack_from_rows (n : nat) (xs : list Matrix) :
  forall acc : Matrix,
    length acc = n ->
    Forall (fun m => length m = n) xs ->
    exists m : Matrix,
      hstack_from acc xs = ok m
      /\ length m = n
      /\ (forall (j : nat) (r : list Q),
            acc !! j = Some r ->
            m !! j = Some (r ++ concat (omap (fun mi : Matrix => mi !! j) xs))).
Proof.
  unfold Matrix in *.
  induction xs as [|m0 rest IH]; intros acc Hacc Hall; simpl.
  - exists acc. split; [done|]. split; [done|].
    intros j r Hj. by rewrite app_nil_r.
  - apply Forall_cons in Hall as [Hm0 Hrest].
    unfold hstack2. rewrite Hacc, Hm0, Nat.eqb_refl. simpl.
    destruct (IH (zip_with app acc m0)) as (m & Hm & Hlen & Hrows); [|done|].
    { rewrite length_zip_with. lia. }
    exists m. split; [done|]. split; [done|].
    intros j r Hj.
    destruct (m0 !! j) as [r0|] eqn:Hj0.
    + rewrite (Hrows j (r ++ r0)).
      * simpl. by rewrite <- app_assoc.
      * rewrite lookup_zip_with, Hj. simpl. by rewrite Hj0.
    + apply lookup_lt_Some in Hj. apply lookup_ge_None in Hj0. lia.
Qed.

Lemma hstack_from_returns (xs : list Matrix) :
  forall acc m : Matrix,
    hstack_from acc xs = ok m ->
    length m = length acc /\ Forall (fun mi => length mi = length acc) xs.
Proof.
  unfold Matrix in *.
  induction xs as [|m0 rest IH]; intros acc m; simpl.
  - intros Hm. injection Hm as <-. by split.
  - unfold hstack2. destruct (Nat.eqb (length acc) (length m0)) eqn:Heq; [|done].
    apply Nat.eqb_eq in Heq. simpl. intros Hm.
    destruct (IH _ _ Hm) as [Hlen Hall].
    rewrite length_zip_with in Hlen, Hall.
    replace (length acc `min` length m0)%nat with (length acc) in Hlen, Hall by lia.
    split; [done|]. constructor; [done|exact Hall].
Qed.

Section Extraction.
Context {Pixels : Type} (interpolate : Pixels -> Z -> Z -> Pixels).
Context (compute : pyval -> @Image Pixels -> KeyPointSet -> result (option Matrix)).

(** The loop over the configured descriptors collects the matrices of the
    descriptors that yield one, in order. *)
Lemma extract_x_loop_collects (image : @Image Pixels) (kp_set : KeyPointSet)
    (features : list pyval) (rs : list (option Matrix)) :
  Forall2 (fun feature r => compute feature image kp_set = ok r) features rs ->
  forall x : list Matrix,
    extract_x_loop compute features image kp_set x = ok (x ++ omap (fun r : option Matrix => r) rs).
Proof.
  induction 1 as [|feature r features rs Hr _ IH]; intros x; simpl.
  - by rewrite app_nil_r.
  - rewrite Hr. simpl. destruct r as [m|]; rewrite IH; simpl; [|done].
    by rewrite <- app_assoc.
Qed.

(** The loop over the tags, with its accumulators. *)
Lemma extract_loop_spec (self : FeatureExtractor.t) (tags : list (@Tag Pixels)) :
  forall (x0 : list (option Matrix)) (y0 : list Z) (x : list (option Matrix)) (y : list Z),
    extract_loop interpolate compute self tags x0 y0 = ok (x, y)
    <-> exists xs : list (option Matrix),
          x = x0 ++ xs
          /\ y = y0 ++ map load_y tags
          /\ Forall2 (fun tag x_tag =>
                        (do tag_data <- load_data tag;
                         extract_x interpolate compute self tag_data) = ok x_tag)
               tags xs.
Proof.
  induction tags as [|tag rest IH]; intros x0 y0 x y; simpl.
  - split.
    + intros Heq. injection Heq as <- <-. exists []. by rewrite !app_nil_r.
    + intros (xs & -> & -> & Hall). apply Forall2_nil_inv_l in Hall. subst.
      by rewrite !app_nil_r.
  - destruct (load_data tag) as [e|tag_data] eqn:Hload; simpl.
    { split; [done|]. intros (xs & _ & _ & Hall).
      apply Forall2_cons_inv_l in Hall as (x_tag & xs' & Hx & _ & _).
      rewrite Hload in Hx. done. }
    destruct (extract_x interpolate compute self tag_data) as [e|x_tag] eqn:Hx; simpl.
    { split; [done|]. intros (xs & _ & _ & Hall).
      apply Forall2_cons_inv_l in Hall as (x_tag & xs' & Hx' & _ & _).
      rewrite Hload in Hx'. simpl in Hx'. rewrite Hx in Hx'. done. }
    rewrite IH. split.
    + intros (xs & -> & -> & Hall). exists (x_tag :: xs).
      rewrite <- !app_assoc. split; [done|]. split; [done|].
      constructor; [|exact Hall]. rewrite Hload. simpl. exact Hx.
    + intros (xs & -> & -> & Hall).
      apply Forall2_cons_inv_l in Hall as (x_tag' & xs' & Hx' & Hall & ->).
      rewrite Hload in Hx'. simpl in Hx'. rewrite Hx in Hx'. injection Hx' as <-. exists xs'. by rewrite <- !app_assoc.
Qed.
End Extraction.

End ExtractionMore.

(** X8.  An extractor built by the constructor hands the whole value that
    was passed as [features_to_use] to a single descriptor: [extract_x]
    resizes the image and calls the descriptor once, with that value, even
    when the value is a list of several feature names, and returns what this
    one call returns. *)
Theorem constructed_extractor_calls_one_descriptor {Pixels : Type}
    (interpolate : Pixels -> Z -> Z -> Pixels)
    (compute : pyval -> @FeatureExtractor.Image Pixels -> FeatureExtractor.KeyPointSet
               -> result (option FeatureExtractor.Matrix))
    (v : pyval) (norm : bool) (sm : string) (steps win : Z)
    (h w : FeatureExtractor.dim) (ro : string)
    (fe : FeatureExtractor.t) (image : @FeatureExtractor.Image Pixels) :
  FeatureExtractor.__init__ v norm sm steps win h w ro = ok fe ->
  FeatureExtractor.extract_x interpolate compute fe image
  = (do image' <- FeatureExtractor.resize interpolate image h w;
     compute v image'
       {| FeatureExtractor.kp_method := FeatureExtractor.sampling_method fe;
          FeatureExtractor.kp_steps := steps;
          FeatureExtractor.kp_window := win |}).
Proof.
  unfold FeatureExtractor.__init__. intros Hinit.
  destruct (FeatureExtractor.validate_feature_extraction_settings sm v) as [e|[sm' v']] eqn:Hv;
    [done|].
  apply FeatureExtractorFacts.validate_keeps_features in Hv. simpl in Hv. subst v'.
  simpl in Hinit. injection Hinit as <-.
  unfold FeatureExtractor.extract_x. simpl.
  destruct (FeatureExtractor.resize interpolate image h w) as [e|image']; [done|]. simpl.
  destruct (compute v image' _) as [e|[m|]]; done.
Qed.

Lemma constructed_extractor_calls_one_descriptor_witness :
  FeatureExtractor.extract_x (fun (_ : unit) _ _ => tt)
    (fun feature _ _ =>
       match feature with
       | PyList _ => ok (Some [[1%Q]])
       | _ => ok None
       end)
    {| FeatureExtractor.features_to_use := PyList [PyList [PyStr "gray-hog"; PyStr "hsv-lbp"]];
       FeatureExtractor.normalize := true;
       FeatureExtractor.sampling_method := "dense";
       FeatureExtractor.sampling_steps := 20;
       FeatureExtractor.sampling_window := 20;
       FeatureExtractor.resize_option := "standard";
       FeatureExtractor.img_height := FeatureExtractor.DNone;
       FeatureExtractor.img_width := FeatureExtractor.DNone |}
    FeatureExtractorSamples.blank_image
  = ok (Some [[1%Q]]).
Proof.
  rewrite (constructed_extractor_calls_one_descriptor (fun (_ : unit) _ _ => tt) _
             (PyList [PyStr "gray-hog"; PyStr "hsv-lbp"]) true "dense" 20 20
             FeatureExtractor.DNone FeatureExtractor.DNone "standard" _
             FeatureExtractorSamples.blank_image eq_refl).
  reflexivity.
Defined.

(** X9.  When the image can be resized and every configured descriptor
    answers, [extract_x] returns [None] exactly when every descriptor found
    nothing; and when exactly one descriptor found something, it returns that
    descriptor's matrix as it is. *)
Theorem extract_x_none_iff_no_descriptor {Pixels : Type}
    (interpolate : Pixels -> Z -> Z -> Pixels)
    (compute : pyval -> @FeatureExtractor.Image Pixels -> FeatureExtractor.KeyPointSet
               -> result (option FeatureExtractor.Matrix))
    (self : FeatureExtractor.t) (image image' : @FeatureExtractor.Image Pixels)
    (features : list pyval) (rs : list (option FeatureExtractor.Matrix)) :
  FeatureExtractor.resize interpolate image
    (FeatureExtractor.img_height self) (FeatureExtractor.img_width self) = ok image' ->
  Py.iter (FeatureExtractor.features_to_use self) = ok features ->
  Forall2 (fun feature r =>
             compute feature image'
               {| FeatureExtractor.kp_method := FeatureExtractor.sampling_method self;
                  FeatureExtractor.kp_steps := FeatureExtractor.sampling_steps self;
                  FeatureExtractor.kp_window := FeatureExtractor.sampling_window self |}
             = ok r) features rs ->
  (FeatureExtractor.extract_x interpolate compute self image = ok None
   <-> Forall (fun r => r = None) rs)
  /\ (forall m : FeatureExtractor.Matrix,
        omap (fun r : option FeatureExtractor.Matrix => r) rs = [m] ->
        FeatureExtractor.extract_x interpolate compute self image = ok (Some m)).
Proof.
  intros Hr Hi Hall. unfold FeatureExtractor.extract_x.
  rewrite Hr. simpl. rewrite Hi. simpl.
  rewrite (ExtractionMore.extract_x_loop_collects compute image' _ features rs Hall). simpl.
  split.
  - split.
    + intros Hnone.
      assert (Hnil : omap (fun r : option FeatureExtractor.Matrix => r) rs = []).
      { destruct (omap _ rs) as [|m [|m' ms]]; [done|done|].
        exfalso. unfold bind in Hnone.
        destruct (FeatureExtractor.np_concatenate_axis1 (m :: m' :: ms)); done. }
      clear -Hnil. induction rs as [|[m|] rs IH]; [done|done|].
      constructor; [done|]. by apply IH.
    + intros Hnone.
      assert (omap (fun r : option FeatureExtractor.Matrix => r) rs = []) as ->; [|done].
      clear -Hnone. induction Hnone as [|r rs -> _ IH]; [done|]. exact IH.
  - intros m ->. done.
Qed.

Lemma extract_x_none_iff_no_descriptor_witness :
  FeatureExtractor.extract_x (fun (_ : unit) _ _ => tt)
    FeatureExtractorSamples.no_descriptor FeatureExtractorSamples.hog_extractor
    FeatureExtractorSamples.blank_image = ok None.
Proof.
  apply (proj1 (extract_x_none_iff_no_descriptor (fun (_ : unit) _ _ => tt)
                  FeatureExtractorSamples.no_descriptor FeatureExtractorSamples.hog_extractor
                  FeatureExtractorSamples.blank_image FeatureExtractorSamples.blank_image
                  [PyStr "gray-hog"] [None] eq_refl eq_refl
                  ltac:(repeat constructor))).
  repeat constructor.
Defined.

(** X10.  Joining the matrices of several descriptors column-wise returns
    only when all of them have the same number of rows; the result then has
    that number of rows, and each of its rows is the row of the first matrix
    followed by the same row of every further matrix, in the order of the
    descriptors.  An empty list of matrices, or two numbers of rows, is a
    [ValueError]. *)
Theorem np_concatenate_axis1_rows (m0 : FeatureExtractor.Matrix)
    (rest : list FeatureExtractor.Matrix) :
  (Forall (fun m => length m = length m0) rest ->
   exists m : FeatureExtractor.Matrix,
     FeatureExtractor.np_concatenate_axis1 (m0 :: rest) = ok m
     /\ length m = length m0
     /\ (forall (j : nat) (r : list Q),
           m0 !! j = Some r ->
           m !! j = Some (r ++ concat (omap (fun mi : list (list Q) => mi !! j) rest))))
  /\ (forall m : FeatureExtractor.Matrix,
        FeatureExtractor.np_concatenate_axis1 (m0 :: rest) = ok m ->
        Forall (fun mi => length mi = length m0) rest)
  /\ FeatureExtractor.np_concatenate_axis1 [] = raise ValueError.
Proof.
  split; [|split; [|done]].
  - intros Hall. by apply ExtractionMore.hstack_from_rows.
  - intros m Hm. simpl in Hm.
    by destruct (ExtractionMore.hstack_from_returns rest m0 m Hm).
Qed.

(** X11.  [extract_trainings_data] returns exactly when every tag can be
    loaded and extracted; what it returns is, tag by tag and in the order of
    the tags, the representation of the tag's image (which may be [None]) and
    the tag's label, so both lists have the length of the batch. *)
Theorem extract_trainings_data_per_tag {Pixels : Type}
    (interpolate : Pixels -> Z -> Z -> Pixels)
    (compute : pyval -> @FeatureExtractor.Image Pixels -> FeatureExtractor.KeyPointSet
               -> result (option FeatureExtractor.Matrix))
    (self : FeatureExtractor.t) (tags : list (@FeatureExtractor.Tag Pixels))
    (x : list (option FeatureExtractor.Matrix)) (y : list Z) :
  (FeatureExtractor.extract_trainings_data interpolate compute self tags = ok (x, y)
   <-> (y = map FeatureExtractor.load_y tags
        /\ Forall2 (fun tag x_tag =>
                      (do tag_data <- FeatureExtractor.load_data tag;
                       FeatureExtractor.extract_x interpolate compute self tag_data)
                      = ok x_tag) tags x))
  /\ (FeatureExtractor.extract_trainings_data interpolate compute self tags = ok (x, y) ->
      length x = length tags /\ length y = length tags).
Proof.
  rewrite ExtractionFacts.extract_trainings_data_is_loop.
  rewrite (ExtractionMore.extract_loop_spec interpolate compute self tags [] [] x y).
  assert (Hiff : (exists xs : list (option FeatureExtractor.Matrix),
                     x = [] ++ xs /\ y = [] ++ map FeatureExtractor.load_y tags
                     /\ Forall2 (fun tag x_tag =>
                                   (do tag_data <- FeatureExtractor.load_data tag;
                                    FeatureExtractor.extract_x interpolate compute self tag_data)
                                   = ok x_tag) tags xs)
                 <-> (y = map FeatureExtractor.load_y tags
                      /\ Forall2 (fun tag x_tag =>
                                    (do tag_data <- FeatureExtractor.load_data tag;
                                     FeatureExtractor.extract_x interpolate compute self tag_data)
                                    = ok x_tag) tags x)).
  { split.
    - intros (xs & -> & -> & Hall). by split.
    - intros [-> Hall]. by exists x. }
  split; [exact Hiff|].
  intros Hex. apply Hiff in Hex as [-> Hall].
  split; [symmetry; by eapply Forall2_length|by rewrite length_map].
Qed.

(** ** classifier.py *)

Module ClassifierMore.
Import Classifier.

Section Predict.
Context {X : Type}.

(** What the [try] block returns is read off the probability array. *)
Lemma try_predict_proba_returns (self : Classifier.t X) (x : X) (r : prediction) :
  try_predict_proba self x = ok r ->
  exists (m : Estimator X) (f : X -> result (list (list Q))) (prob : list (list Q))
         (i : nat) (p : Q),
    classifier self = Some m /\ predict_proba m = Some f /\ f x = ok prob
    /\ r = LabelsConfidence [Z.of_nat i] p
    /\ NpFacts.first_max (concat prob) i p.
Proof.
  unfold try_predict_proba, get_predict_proba.
  destruct (classifier self) as [m|]; [|done].
  destruct (predict_proba m) as [f|] eqn:Hf; [|done]. simpl.
  destruct (f x) as [e|prob] eqn:Hx; [done|]. simpl.
  destruct (concat prob) as [|q rest] eqn:Hc.
  { unfold Np.argmax. by rewrite Hc. }
  destruct (NpFacts.argmax_max_first_max prob) as (i & p & Hi & Hp & Hmax).
  { by rewrite Hc. }
  rewrite Hi. simpl. rewrite Hp. simpl. intros Hr. injection Hr as <-.
  exists m, f, prob, i, p. rewrite Hc in Hmax. by rewrite Hc.
Qed.

Lemma save_without_model (self : Classifier.t X) (fs : gmap string (file X)) (path : string) :
  classifier self = None ->
  save self fs path !! Py.os_path_join path "classifier.pkl" = None.
Proof.
  intros Hnone. unfold save, save_opt, save_mapping. rewrite Hnone.
  rewrite !lookup_insert_ne
    by (intros Heq; by apply ClassifierFacts.os_path_join_inj in Heq).
  unfold check_n_make_dir. apply map_lookup_filter_None. right.
  intros f _. simpl. unfold Py.os_path_join.
  destruct (String.prefix (Py.join_prefix path)
              (Py.join_prefix path ++ "classifier.pkl")) eqn:Hp; [done|].
  exfalso. revert Hp. generalize (Py.join_prefix path). intros a.
  induction a as [|c a IH]; simpl; [done|].
  destruct (Ascii.ascii_dec c c); [done|congruence].
Qed.

(** Outside the folder [save] changes nothing; inside it, what is not one
    of the three files written is gone. *)
Lemma save_outside (self : Classifier.t X) (fs : gmap string (file X)) (path p : string) :
  String.prefix (Py.join_prefix path) p = false ->
  save self fs path !! p = fs !! p.
Proof.
  intros Hp.
  assert (Hne : forall name, p <> Py.os_path_join path name).
  { intros name ->. unfold Py.os_path_join in Hp. revert Hp.
    generalize (Py.join_prefix path). intros a.
    induction a as [|c a IH]; simpl; [by destruct name|].
    destruct (Ascii.ascii_dec c c); [done|congruence]. }
  assert (Hclean : check_n_make_dir fs path true !! p = fs !! p).
  { unfold check_n_make_dir. destruct (fs !! p) as [f|] eqn:Hf.
    - by apply map_lookup_filter_Some.
    - apply map_lookup_filter_None. by left. }
  unfold save, joblib_dump, save_opt, save_mapping.
  destruct (classifier self); rewrite !lookup_insert_ne; try done;
    intros Heq; symmetry in Heq; by apply Hne in Heq.
Qed.

Lemma save_inside (self : Classifier.t X) (fs : gmap string (file X)) (path p : string) :
  String.prefix (Py.join_prefix path) p = true ->
  p <> Py.os_path_join path "class_mapping.json" ->
  p <> Py.os_path_join path "pipeline_opt.json" ->
  p <> Py.os_path_join path "classifier.pkl" ->
  save self fs path !! p = None.
Proof.
  intros Hp H1 H2 H3.
  assert (Hclean : check_n_make_dir fs path true !! p = None).
  { unfold check_n_make_dir. apply map_lookup_filter_None. right.
    intros f _. simpl. by rewrite Hp. }
  unfold save, joblib_dump, save_opt, save_mapping.
  destruct (classifier self); rewrite !lookup_insert_ne; done.
Qed.
End Predict.

(** The inverse of a class mapping. *)
Lemma dict_set_fresh (k : Z) (v : string) (d : list (Z * string)) :
  k ∉ map fst d -> dict_set k v d = d ++ [(k, v)].
Proof.
  induction d as [|[k' v'] d IH]; simpl; [done|].
  intros Hnotin. apply not_elem_of_cons in Hnotin as [Hne Hnotin].
  assert ((k =? k')%Z = false) as -> by lia. by rewrite IH.
Qed.

Lemma dict_set_keys (k : Z) (v : string) (d : list (Z * string)) :
  NoDup (map fst d) -> NoDup (map fst (dict_set k v d)).
Proof.
  induction d as [|[k' v'] d IH]; simpl.
  - intros _. apply NoDup_singleton.
  - intros Hnd. apply NoDup_cons in Hnd as [Hnotin Hnd].
    destruct (k =? k')%Z eqn:Hk; simpl.
    + apply NoDup_cons. by split.
    + apply NoDup_cons. split; [|by apply IH].
      clear IH Hnd. induction d as [|[k'' v''] d IH]; simpl.
      * intros Hin. apply list_elem_of_singleton in Hin. lia.
      * simpl in Hnotin. apply not_elem_of_cons in Hnotin as [Hne Hnotin].
        destruct (k =? k'')%Z; simpl; intros Hin;
          apply elem_of_cons in Hin as [Hin|Hin]; try done; by apply IH in Hin.
Qed.

Lemma invert_from (d : list (string * Z)) :
  forall inv : list (Z * string),
    NoDup (map fst inv) ->
    NoDup (map fst (fold_left (fun inv kv => dict_set (snd kv) (fst kv) inv) d inv)).
Proof.
  induction d as [|[k v] d IH]; intros inv Hnd; simpl; [done|].
  apply IH. by apply dict_set_keys.
Qed.

Lemma invert_injective_from (d : list (string * Z)) :
  forall inv : list (Z * string),
    NoDup (map fst inv ++ map snd d) ->
    fold_left (fun inv kv => dict_set (snd kv) (fst kv) inv) d inv
    = inv ++ map (fun kv => (snd kv, fst kv)) d.
Proof.
  induction d as [|[k v] d IH]; intros inv Hnd; simpl.
  - by rewrite app_nil_r.
  - simpl in Hnd. rewrite dict_set_fresh.
    + rewrite IH; [by rewrite <- app_assoc|].
      rewrite map_app. simpl. rewrite <- app_assoc. simpl. exact Hnd.
    + apply NoDup_app in Hnd as (_ & Hdisj & _).
      intros Hin. apply (Hdisj v Hin). by left.
Qed.

End ClassifierMore.



(** X13.  A classifier whose model was never built cannot predict, with or
    without confidence: the call raises [AttributeError].  Saving it writes
    no model file, so loading what was saved fails on the missing
    [classifier.pkl], whatever the folder held before. *)
Theorem unbuilt_classifier_predict_and_roundtrip {X : Type}
    (self fresh : Classifier.t X) (fs : gmap string (Classifier.file X))
    (path : string) (x : X) (get_confidence : bool) :
  Classifier.classifier self = None ->
  Classifier.predict self x get_confidence = raise AttributeError
  /\ Classifier.load fresh (Classifier.save self fs path) path
     = raise (FileNotFoundError (Py.os_path_join path "classifier.pkl")).
Proof.
  intros Hnone. split.
  - unfold Classifier.predict, Classifier.try_predict_proba, Classifier.full_confidence,
      Classifier.get_predict_proba, Classifier.get_predict.
    rewrite Hnone. by destruct get_confidence.
  - unfold Classifier.load, Classifier.load_mapping, Classifier.load_opt,
      Classifier.joblib_load.
    rewrite PersistenceFacts.save_class_mapping, PersistenceFacts.save_pipeline_opt,
      (ClassifierMore.save_without_model self fs path Hnone).
    reflexivity.
Qed.

Lemma unbuilt_classifier_predict_and_roundtrip_witness :
  Classifier.predict (Classifier.__init__ (PyDict [("type", PyStr "rf")]) None)
    ClassifierSamples.one_sample false = raise AttributeError
  /\ Classifier.load (Classifier.__init__ PyNone None)
       (Classifier.save (Classifier.__init__ (PyDict [("type", PyStr "rf")]) None)
          (∅ : gmap string (Classifier.file ClassifierSamples.Batch)) "models/best")
       "models/best"
     = raise (FileNotFoundError (Py.os_path_join "models/best" "classifier.pkl")).
Proof.
  apply (unbuilt_classifier_predict_and_roundtrip
           (Classifier.__init__ (PyDict [("type", PyStr "rf")]) None)).
  reflexivity.
Defined.

(** X14.  [save] is confined to its folder and leaves no stale file in it:
    a path outside the folder holds after the call what it held before, and
    a path inside the folder other than the three files that [save] writes
    holds nothing. *)
Theorem save_confined_to_folder {X : Type}
    (self : Classifier.t X) (fs : gmap string (Classifier.file X)) (path p : string) :
  (String.prefix (Py.join_prefix path) p = false ->
   Classifier.save self fs path !! p = fs !! p)
  /\ (String.prefix (Py.join_prefix path) p = true ->
      p <> Py.os_path_join path "class_mapping.json" ->
      p <> Py.os_path_join path "pipeline_opt.json" ->
      p <> Py.os_path_join path "classifier.pkl" ->
      Classifier.save self fs path !! p = None).
Proof.
  split.
  - apply ClassifierMore.save_outside.
  - apply ClassifierMore.save_inside.
Qed.

(** X15.  [load] rebuilds the inverse of the class mapping it has read: the
    ids of the inverse are pairwise distinct, and when the ids of the class
    mapping are pairwise distinct the inverse lists, in the order of the
    mapping, each id with its class name. *)
Theorem load_inverts_class_mapping {X : Type}
    (fresh loaded : Classifier.t X) (fs : gmap string (Classifier.file X))
    (path : string) (d : list (string * Z)) :
  Classifier.load fresh fs path = ok loaded ->
  Classifier.class_mapping loaded = Some d ->
  Classifier.class_mapping_inv loaded = Some (Classifier.invert d)
  /\ NoDup (map fst (Classifier.invert d))
  /\ (NoDup (map snd d) ->
      Classifier.invert d = map (fun kv => (snd kv, fst kv)) d).
Proof.
  unfold Classifier.load. intros Hload Hd.
  destruct (Classifier.load_mapping fs _) as [e|cm]; [done|]. simpl in Hload.
  destruct (Classifier.load_opt fs _) as [e|o]; [done|]. simpl in Hload.
  destruct (Classifier.joblib_load fs _) as [e|m]; [done|]. simpl in Hload.
  injection Hload as <-. simpl in *. subst cm.
  split; [done|]. split.
  - apply ClassifierMore.invert_from. apply NoDup_nil_2.
  - intros Hnd. unfold Classifier.invert.
    by rewrite ClassifierMore.invert_injective_from.
Qed.

Lemma load_inverts_class_mapping_witness :
  Classifier.invert [("cat", 0%Z); ("dog", 1%Z)] = [(0%Z, "cat"); (1%Z, "dog")].
Proof.
  assert (Hnd : NoDup (map snd [("cat", 0%Z); ("dog", 1%Z)])).
  { simpl. apply NoDup_cons. split; [|apply NoDup_singleton].
    intros Hin. apply list_elem_of_singleton in Hin. discriminate Hin. }
  exact (proj2 (proj2 (load_inverts_class_mapping
                         (Classifier.__init__ PyNone None) _ _ "models/best"
                         [("cat", 0%Z); ("dog", 1%Z)]
                         (PersistenceFacts.load_after_save
                            (ClassifierSamples.fitted ClassifierSamples.threshold_estimator)
                            (Classifier.__init__ PyNone None)
                            ClassifierSamples.threshold_estimator
                            ∅ "models/best" eq_refl) eq_refl))
           Hnd).
Defined.

Module ClassifierModelFacts.
Import ClassifierModel.

(** The base estimator of a dictionary of options. *)
Lemma init_classifier_dict (entries : list (string * pyval)) :
  _init_classifier (PyDict entries)
  = (do b_est <-
       match find (fun kv => String.eqb "base_estimator" (fst kv)) entries with
       | Some kv => do e <- _init_classifier (snd kv); ok (Some e)
       | None => ok None
       end;
     dispatch entries b_est).
Proof.
  cbn [_init_classifier].
  match goal with
  | |- bind (?base entries) _ = _ =>
      assert (Hbase : forall l,
                 base l
                 = match find (fun kv => String.eqb "base_estimator" (fst kv)) l with
                   | Some kv => do e <- _init_classifier (snd kv); ok (Some e)
                   | None => ok None
                   end)
  end.
  { induction l as [|[k v] rest IH]; [reflexivity|].
    cbn -[String.eqb _init_classifier].
    destruct (String.eqb "base_estimator" k); [reflexivity|exact IH]. }
  by rewrite Hbase.
Qed.

Lemma one_of_str (t : string) (names : list string) :
  one_of (PyStr t) names = true <-> t ∈ names.
Proof.
  unfold one_of. induction names as [|name names IH]; simpl.
  - split; [done|]. intros Hin. by apply elem_of_nil in Hin.
  - rewrite orb_true_iff, IH, elem_of_cons, String.eqb_eq.
    split; (intros [Heq|Hin]; [left; by symmetry|by right]).
Qed.

(** A type that none of the tests accepts. *)
Lemma dispatch_unknown (entries : list (string * pyval)) (b_est : option estimator)
    (type : pyval) :
  Search.getitem (PyDict entries) "type" = ok type ->
  one_of type known_types = false ->
  dispatch entries b_est = raise ValueError.
Proof.
  intros Htype Hunknown. unfold dispatch. rewrite Htype.
  unfold one_of, known_types in Hunknown. simpl in Hunknown.
  repeat (apply orb_false_elim in Hunknown as [? Hunknown]).
  unfold one_of. simpl. by repeat match goal with H : Py.str_eq _ _ = false |- _ =>
                                       rewrite H; clear H end.
Qed.

(** A recognised type other than the nearest-neighbour ones. *)
Lemma dispatch_known (entries : list (string * pyval)) (b_est : option estimator)
    (t : string) :
  Search.getitem (PyDict entries) "type" = ok (PyStr t) ->
  t ∈ known_types -> t <> "neighbours" -> t <> "knn" ->
  exists e, dispatch entries b_est = ok e.
Proof.
  intros Htype Hin Hn Hk. unfold dispatch. rewrite Htype.
  unfold known_types in Hin.
  repeat (apply elem_of_cons in Hin as [->|Hin]; [try done; eexists; reflexivity|]).
  by apply elem_of_nil in Hin.
Qed.

Lemma dispatch_neighbours (entries : list (string * pyval)) (b_est : option estimator)
    (t : string) :
  Search.getitem (PyDict entries) "type" = ok (PyStr t) ->
  t = "neighbours" \/ t = "knn" ->
  dispatch entries b_est
  = (do k <- Search.getitem (PyDict entries) "n_neighbours"; ok (KNeighborsClassifier k)).
Proof.
  intros Htype Hin. unfold dispatch. rewrite Htype. by destruct Hin as [-> | ->].
Qed.

Lemma dispatch_no_type (entries : list (string * pyval)) (b_est : option estimator) (e : exn) :
  Search.getitem (PyDict entries) "type" = raise e ->
  dispatch entries b_est = raise e.
Proof. intros Htype. unfold dispatch. by rewrite Htype. Qed.

Lemma getitem_no_key (entries : list (string * pyval)) (k : string) :
  find (fun kv => String.eqb k (fst kv)) entries = None ->
  Search.getitem (PyDict entries) k = raise (KeyError k).
Proof. intros Hnone. unfold Search.getitem. by rewrite Hnone. Qed.
End ClassifierModelFacts.

(** X16.  For options without a base estimator, [_init_classifier] builds a
    model exactly for the type names it lists: a type that is one of them,
    other than the two nearest-neighbour names, always yields an estimator;
    the two nearest-neighbour names need the key "n_neighbours" as well; any
    other type value, a list of names included, is a [ValueError]; and
    options without the key "type" are a [KeyError]. *)
Theorem init_classifier_recognised_types (entries : list (string * pyval)) :
  find (fun kv => String.eqb "base_estimator" (fst kv)) entries = None ->
  (forall t : string,
      Search.getitem (PyDict entries) "type" = ok (PyStr t) ->
      t <> "neighbours" -> t <> "knn" ->
      ((exists e, ClassifierModel._init_classifier (PyDict entries) = ok e)
       <-> t ∈ ClassifierModel.known_types))
  /\ (forall t : string,
        Search.getitem (PyDict entries) "type" = ok (PyStr t) ->
        t = "neighbours" \/ t = "knn" ->
        ClassifierModel._init_classifier (PyDict entries)
        = (do k <- Search.getitem (PyDict entries) "n_neighbours";
           ok (ClassifierModel.KNeighborsClassifier k)))
  /\ (forall type : pyval,
        Search.getitem (PyDict entries) "type" = ok type ->
        ClassifierModel.one_of type ClassifierModel.known_types = false ->
        ClassifierModel._init_classifier (PyDict entries) = raise ValueError)
  /\ (find (fun kv => String.eqb "type" (fst kv)) entries = None ->
      ClassifierModel._init_classifier (PyDict entries) = raise (KeyError "type")).
Proof.
  intros Hbase.
  assert (Hinit : ClassifierModel._init_classifier (PyDict entries)
                  = ClassifierModel.dispatch entries None).
  { by rewrite ClassifierModelFacts.init_classifier_dict, Hbase. }
  rewrite Hinit. split; [|split; [|split]].
  - intros t Htype Hn Hk. split.
    + intros [e He].
      destruct (ClassifierModel.one_of (PyStr t) ClassifierModel.known_types) eqn:Hone.
      * by apply ClassifierModelFacts.one_of_str.
      * rewrite (ClassifierModelFacts.dispatch_unknown entries None _ Htype Hone) in He.
        done.
    + intros Hin. by apply (ClassifierModelFacts.dispatch_known entries None t).
  - intros t Htype Hin. by apply (ClassifierModelFacts.dispatch_neighbours entries None t).
  - intros type Htype Hone. by apply (ClassifierModelFacts.dispatch_unknown entries None type).
  - intros Hnone. apply ClassifierModelFacts.dispatch_no_type.
    by apply ClassifierModelFacts.getitem_no_key.
Qed.

Lemma init_classifier_recognised_types_witness :
  ClassifierModel._init_classifier
    (PyDict [("type", PyList [PyStr "mlp_x"; PyStr "mlp_xx"])])
  = raise ValueError
  /\ ClassifierModel._init_classifier (PyDict [("type", PyStr "rf")])
     = ok (ClassifierModel.RandomForestClassifier (PyInt 200)).
Proof.
  split.
  - apply (proj1 (proj2 (proj2 (init_classifier_recognised_types
                                  [("type", PyList [PyStr "mlp_x"; PyStr "mlp_xx"])]
                                  eq_refl)))
             (PyList [PyStr "mlp_x"; PyStr "mlp_xx"]));
      reflexivity.
  - reflexivity.
Defined.

(** X17.  The base estimator is built before the type is looked at: options
    whose "base_estimator" entry cannot be built fail with that entry's
    exception whatever their own type is, also for the types that make no use
    of a base estimator; and options that are not a dictionary are a
    [TypeError]. *)
Theorem init_classifier_builds_base_first (entries : list (string * pyval))
    (sub : pyval) (e : exn) :
  Search.getitem (PyDict entries) "base_estimator" = ok sub ->
  ClassifierModel._init_classifier sub = raise e ->
  ClassifierModel._init_classifier (PyDict entries) = raise e
  /\ ClassifierModel._init_classifier (PyStr "rf") = raise TypeError
  /\ ClassifierModel._init_classifier PyNone = raise TypeError.
Proof.
  intros Hsub Hfail. split; [|by split].
  rewrite ClassifierModelFacts.init_classifier_dict.
  unfold Search.getitem in Hsub.
  destruct (find _ entries) as [kv|]; [|done].
  injection Hsub as <-. by rewrite Hfail.
Qed.

Lemma init_classifier_builds_base_first_witness :
  ClassifierModel._init_classifier
    (PyDict [("type", PyStr "rf"); ("base_estimator", PyDict [("type", PyStr "oak")])])
  = raise ValueError.
Proof.
  apply (init_classifier_builds_base_first
           [("type", PyStr "rf"); ("base_estimator", PyDict [("type", PyStr "oak")])]
           (PyDict [("type", PyStr "oak")]) ValueError); reflexivity.
Defined.

(** X18.  [fit] does not build the model: on a classifier that comes
    straight from the constructor it never returns, whatever the options are;
    and with a parameter grid in the options it raises [AttributeError] even
    when the model is built, because the search method is looked up on the
    model.  [fit_single], which builds the model first, returns exactly when
    the options name a model that can be built and the model's own fit
    returns, and then holds that fitted model. *)
Theorem fit_needs_a_built_model {X : Type}
    (build : ClassifierModel.estimator -> Classifier.Estimator X)
    (estimator_fit : Classifier.Estimator X -> X -> list Z -> result (Classifier.Estimator X))
    (x_train : X) (y_train : list Z) :
  (forall (opt : pyval) (class_mapping : option (list (string * Z))) (r : Classifier.t X),
      ClassifierModel.fit estimator_fit (Classifier.__init__ opt class_mapping) x_train y_train
      <> ok r)
  /\ (forall self : Classifier.t X,
        Py.contains "param_grid" (Classifier.opt self) = ok true ->
        ClassifierModel.fit estimator_fit self x_train y_train = raise AttributeError)
  /\ (forall self fitted : Classifier.t X,
        ClassifierModel.fit_single build estimator_fit self x_train y_train = ok fitted
        <-> exists (e : ClassifierModel.estimator) (m : Classifier.Estimator X),
              ClassifierModel._init_classifier (Classifier.opt self) = ok e
              /\ estimator_fit (build e) x_train y_train = ok m
              /\ fitted = {| Classifier.opt := Classifier.opt self;
                             Classifier.class_mapping := Classifier.class_mapping self;
                             Classifier.class_mapping_inv := Classifier.class_mapping_inv self;
                             Classifier.classifier := Some m;
                             Classifier.best_params := Classifier.best_params self;
                             Classifier.best_score := Classifier.best_score self |}).
Proof.
  split; [|split].
  - intros opt cm r. unfold ClassifierModel.fit, ClassifierModel.classifier_fit.
    simpl. destruct (Py.contains "param_grid" opt) as [e|[|]]; done.
  - intros self Hgrid. unfold ClassifierModel.fit. by rewrite Hgrid.
  - intros self fitted.
    unfold ClassifierModel.fit_single, ClassifierModel.new, ClassifierModel.classifier_fit.
    destruct (ClassifierModel._init_classifier (Classifier.opt self)) as [e0|e] eqn:Hinit; simpl.
    { split; [done|]. by intros (e & m & He & _). }
    destruct (estimator_fit (build e) x_train y_train) as [e0|m] eqn:Hfit; simpl.
    { split; [done|]. intros (e' & m & He & Hm & _). unfold ok in *. congruence. }
    split.
    + intros Heq. injection Heq as <-. by exists e, m.
    + intros (e' & m' & He & Hm & ->). unfold ok in *. congruence.
Qed.

(** ** outlier_detector.py: OutlierByDistance *)

Module OutlierByDistanceMore.
Import OutlierByDistance.

Local Open Scope R_scope.

Lemma fold_left_Rmin_spec (l : list R) :
  forall d : R,
    fold_left Rmin l d ∈ d :: l /\ (forall v, v ∈ d :: l -> fold_left Rmin l d <= v).
Proof.
  induction l as [|a l IH]; intros d; simpl.
  - split; [by left|]. intros v Hv. apply list_elem_of_singleton in Hv. subst. lra.
  - destruct (IH (Rmin d a)) as [Hin Hle]. split.
    + apply elem_of_cons in Hin as [Heq|Hin].
      * rewrite Heq. unfold Rmin. destruct (Rle_dec d a); [by left|right; by left].
      * right. by right.
    + intros v Hv. apply elem_of_cons in Hv as [->|Hv].
      * eapply Rle_trans; [|apply (Rmin_l d a)]. apply Hle. by left.
      * apply elem_of_cons in Hv as [->|Hv].
        -- eapply Rle_trans; [|apply (Rmin_r d a)]. apply Hle. by left.
        -- apply Hle. by right.
Qed.

Lemma np_min_spec (l : list R) (mn : R) :
  np_min l = ok mn -> mn ∈ l /\ (forall v, v ∈ l -> mn <= v).
Proof.
  destruct l as [|d rest]; simpl; [done|].
  intros Hmn. injection Hmn as <-. apply fold_left_Rmin_spec.
Qed.

Lemma row_distance_nonneg (m s row : list R) : 0 <= row_distance m s row.
Proof. unfold row_distance. apply sqrt_pos. Qed.

(** What [fit] returns on a matrix with at least one row. *)
Lemma fit_returns (self : OutlierByDistance.t) (r : list R) (x : Matrix) :
  rectangular (length r) x ->
  let m := np_mean_axis0 (r :: x) in
  let s := floor_zero (np_std_axis0 (r :: x)) in
  let dist := map (row_distance m s) (r :: x) in
  exists mx mn : R,
    np_max dist = ok mx /\ np_min dist = ok mn
    /\ fit self (r :: x)
       = ok {| x_mean := Some m; x_std := Some s;
               max_distance := Some mx; min_distance := Some mn |}.
Proof.
  intros Hrect m s dist.
  assert (Hlm : length m = length r)
    by (unfold m; by rewrite OutlierByDistanceFacts.length_np_mean_axis0).
  assert (Hls : length s = length m)
    by (unfold s; by rewrite OutlierByDistanceFacts.length_floor_std, Hlm).
  assert (Hrect' : rectangular (length m) (r :: x)).
  { rewrite Hlm. by constructor. }
  set (fitting := {| x_mean := Some m; x_std := Some s;
                     max_distance := max_distance self;
                     min_distance := min_distance self |}).
  pose proof (OutlierByDistanceFacts.compute_distance_rectangular
                fitting m s (r :: x) eq_refl eq_refl Hls Hrect') as Hdist.
  fold dist in Hdist.
  destruct (np_max dist) as [e|mx] eqn:Hmx; [done|].
  destruct (np_min dist) as [e|mn] eqn:Hmn; [done|].
  exists mx, mn. split; [done|]. split; [done|].
  unfold fit. fold m. fold s. fold fitting.
  rewrite Hdist. unfold ok, bind. by rewrite Hmx, Hmn.
Qed.

Lemma compute_distance_returns (self : OutlierByDistance.t) (x : Matrix) (d : list R) :
  compute_distance self x = ok d ->
  exists m s : list R,
    x_mean self = Some m /\ x_std self = Some s /\ d = map (row_distance m s) x.
Proof.
  unfold compute_distance.
  destruct (x_mean self) as [m|]; [|done].
  destruct (x_std self) as [s|]; [|done].
  destruct (forallb _ x); [|done].
  intros Hd. injection Hd as <-. by exists m, s.
Qed.
End OutlierByDistanceMore.

(** X19.  Right after [fit], the detector accepts all of its training data:
    [predict] gives +1 to every row of the training matrix, the smallest
    recorded distance is at most the largest and not negative, and the score
    of every training row lies between the negated largest and the negated
    smallest distance. *)
Theorem fit_accepts_training_data
    (self : OutlierByDistance.t) (r : list R) (x : OutlierByDistance.Matrix) :
  OutlierByDistance.rectangular (length r) x ->
  exists (st : OutlierByDistance.t) (mx mn : R) (scores : list R),
    OutlierByDistance.fit self (r :: x) = ok st
    /\ OutlierByDistance.max_distance st = Some mx
    /\ OutlierByDistance.min_distance st = Some mn
    /\ (0 <= mn <= mx)%R
    /\ OutlierByDistance.predict st (r :: x) = ok (map (fun _ => 1%R) (r :: x))
    /\ OutlierByDistance.score_sample st (r :: x) = ok scores
    /\ (forall v : R, v ∈ scores -> (- mx <= v <= - mn)%R).
Proof.
  intros Hrect.
  destruct (OutlierByDistanceMore.fit_returns self r x Hrect) as (mx & mn & Hmx & Hmn & Hfit).
  set (m := OutlierByDistance.np_mean_axis0 (r :: x)) in *.
  set (s := OutlierByDistance.floor_zero (OutlierByDistance.np_std_axis0 (r :: x))) in *.
  set (dist := map (OutlierByDistance.row_distance m s) (r :: x)) in *.
  destruct (OutlierByDistanceFacts.np_max_spec dist mx Hmx) as [Hin_mx Hle_mx].
  destruct (OutlierByDistanceMore.np_min_spec dist mn Hmn) as [Hin_mn Hle_mn].
  set (st := {| OutlierByDistance.x_mean := Some m; OutlierByDistance.x_std := Some s;
                OutlierByDistance.max_distance := Some mx;
                OutlierByDistance.min_distance := Some mn |}) in *.
  assert (Hlm : length m = length r)
    by (unfold m; by rewrite OutlierByDistanceFacts.length_np_mean_axis0).
  assert (Hls : length s = length m)
    by (unfold s; by rewrite OutlierByDistanceFacts.length_floor_std, Hlm).
  assert (Hdist : OutlierByDistance.compute_distance st (r :: x) = ok dist).
  { apply OutlierByDistanceFacts.compute_distance_rectangular; [done|done|done|].
    rewrite Hlm. by constructor. }
  exists st, mx, mn, (map Ropp dist).
  split; [exact Hfit|]. split; [done|]. split; [done|]. split.
  { split.
    - apply list_elem_of_fmap in Hin_mn as (row & -> & _).
      apply OutlierByDistanceMore.row_distance_nonneg.
    - by apply Hle_mn. }
  split.
  { rewrite (OutlierByDistanceFacts.predict_labels st (r :: x) dist mx Hdist eq_refl).
    f_equal. unfold dist. rewrite map_map. apply map_ext_in. intros row Hrow.
    destruct (Rlt_dec mx (OutlierByDistance.row_distance m s row)) as [Hlt|_]; [|done].
    exfalso. apply (Rlt_not_le _ _ Hlt). apply Hle_mx. unfold dist.
    apply list_elem_of_fmap. exists row. split; [done|]. by apply list_elem_of_In. }
  split; [by apply OutlierByDistanceFacts.score_sample_negates|].
  intros v Hv. apply list_elem_of_fmap in Hv as (d & -> & Hd).
  specialize (Hle_mx d Hd). specialize (Hle_mn d Hd). lra.
Qed.

Lemma fit_accepts_training_data_witness :
  exists (st : OutlierByDistance.t) (mx mn : R) (scores : list R),
    OutlierByDistance.fit OutlierByDistance.__init__ OutlierSamples.unit_training = ok st
    /\ OutlierByDistance.max_distance st = Some mx
    /\ OutlierByDistance.min_distance st = Some mn
    /\ (0 <= mn <= mx)%R
    /\ OutlierByDistance.predict st OutlierSamples.unit_training
       = ok (map (fun _ => 1%R) OutlierSamples.unit_training)
    /\ OutlierByDistance.score_sample st OutlierSamples.unit_training = ok scores
    /\ (forall v : R, v ∈ scores -> (- mx <= v <= - mn)%R).
Proof.
  apply (fit_accepts_training_data OutlierByDistance.__init__ [1%R; 1%R] [[(-1)%R; (-1)%R]]).
  repeat constructor.
Defined.

(** X20.  Whatever the detector and the data, a score is never positive and
    a label is either -1 or +1, one per row of the data; and a detector that
    was not fitted has neither: [score_sample] and [predict] raise
    [TypeError], and fitting on a matrix without rows is a [ValueError]. *)
Theorem scores_and_labels_range (self : OutlierByDistance.t) (x : OutlierByDistance.Matrix) :
  (forall scores : list R,
      OutlierByDistance.score_sample self x = ok scores ->
      length scores = length x /\ (forall v : R, v ∈ scores -> (v <= 0)%R))
  /\ (forall labels : list R,
        OutlierByDistance.predict self x = ok labels ->
        length labels = length x
        /\ (forall v : R, v ∈ labels -> v = (-1)%R \/ v = 1%R))
  /\ OutlierByDistance.score_sample OutlierByDistance.__init__ x = raise TypeError
  /\ OutlierByDistance.predict OutlierByDistance.__init__ x = raise TypeError
  /\ OutlierByDistance.fit self [] = raise ValueError.
Proof.
  split; [|split; [|by repeat split]].
  - intros scores Hs. unfold OutlierByDistance.score_sample in Hs.
    destruct (OutlierByDistance.compute_distance self x) as [e|d] eqn:Hd; [done|].
    simpl in Hs. injection Hs as <-.
    destruct (OutlierByDistanceMore.compute_distance_returns self x d Hd) as (m & s & _ & _ & ->).
    split; [by rewrite !length_map|].
    intros v Hv. apply list_elem_of_fmap in Hv as (d & -> & Hd').
    apply list_elem_of_fmap in Hd' as (row & -> & _).
    pose proof (OutlierByDistanceMore.row_distance_nonneg m s row). lra.
  - intros labels Hl.
    destruct (OutlierByDistance.compute_distance self x) as [e|d] eqn:Hd.
    { unfold OutlierByDistance.predict in Hl. by rewrite Hd in Hl. }
    destruct (OutlierByDistance.max_distance self) as [mx|] eqn:Hmx.
    2:{ unfold OutlierByDistance.predict in Hl. rewrite Hd, Hmx in Hl. done. }
    rewrite (OutlierByDistanceFacts.predict_labels self x d mx Hd Hmx) in Hl.
    injection Hl as <-.
    destruct (OutlierByDistanceMore.compute_distance_returns self x d Hd) as (m & s & _ & _ & ->).
    split; [by rewrite !length_map|].
    intros v Hv. apply list_elem_of_fmap in Hv as (d & -> & _).
    destruct (Rlt_dec mx d); auto.
Qed.

Module OutlierPersistenceFacts.
Import OutlierByDistance OutlierPersistence.

Local Open Scope R_scope.

Lemma int_of_real_nonneg (r : R) : 0 <= r -> int_of_real r = Int_part r.
Proof. intros Hr. unfold int_of_real. by destruct (Rle_dec 0 r). Qed.

Lemma int_of_real_below (r : R) : 0 <= r -> IZR (int_of_real r) <= r.
Proof.
  intros Hr. rewrite int_of_real_nonneg by done.
  by destruct (base_Int_part r).
Qed.

(** What [load] finds after [save] of a detector that holds all four
    attributes. *)
Lemma distance_load_after_save (m s : list R) (mx mn : R) (fresh : OutlierByDistance.t)
    (fs : gmap string file) (path : string) :
  let st := {| x_mean := Some m; x_std := Some s;
               max_distance := Some mx; min_distance := Some mn |} in
  snd (save st fs path) = None
  /\ load fresh (fst (save st fs path)) path
     = ok {| x_mean := Some m; x_std := Some s;
             max_distance := Some (IZR (int_of_real mx));
             min_distance := Some (IZR (int_of_real mn)) |}.
Proof.
  intros st. unfold save, load, np_load, np_save. simpl. split; [done|].
  rewrite lookup_insert_eq. simpl.
  rewrite lookup_insert_ne
    by (intros Heq; by apply ClassifierFacts.os_path_join_inj in Heq).
  rewrite lookup_insert_ne
    by (intros Heq; by apply ClassifierFacts.os_path_join_inj in Heq).
  rewrite lookup_insert_eq. simpl.
  rewrite lookup_insert_ne
    by (intros Heq; by apply ClassifierFacts.os_path_join_inj in Heq).
  rewrite lookup_insert_eq. by simpl.
Qed.

Lemma predict_single (st : OutlierByDistance.t) (m s row : list R) (mx : R) :
  x_mean st = Some m -> x_std st = Some s -> max_distance st = Some mx ->
  length row = length m -> length s = length m ->
  predict st [row] = ok [if Rlt_dec mx (row_distance m s row) then -1 else 1].
Proof.
  intros Hm Hs Hmx Hrow Hls.
  rewrite (OutlierByDistanceFacts.predict_labels st [row] [row_distance m s row] mx); [done| |done].
  rewrite (OutlierByDistanceFacts.compute_distance_rectangular st m s [row] Hm Hs Hls); [done|].
  by repeat constructor.
Qed.
End OutlierPersistenceFacts.




(** ** The option grids *)

Module GridFacts.
Import Grid GridSpec.

Lemma wrapped_idemp (v : pyval) : wrapped (wrapped v) = wrapped v.
Proof. by destruct v. Qed.

(** The options after the normalisation, key by key. *)
Lemma wrap_searchable_lookup (keys : list string) :
  forall (opt : gmap string pyval) (k : string),
    wrap_searchable keys opt !! k
    = if decide (k ∈ keys) then wrapped <$> opt !! k else opt !! k.
Proof.
  unfold wrap_searchable.
  induction keys as [|k0 keys IH]; intros opt k; simpl.
  - destruct (decide (k ∈ [])) as [Hin|_]; [by apply elem_of_nil in Hin|done].
  - rewrite IH.
    set (opt1 := match opt !! k0 with
                 | Some v =>
                     if negb (Py.is_ (Py.TypeObject (Py.type v)) (Py.TypeObject Py.list_))
                     then <[k0:=PyList [v]]> opt
                     else opt
                 | None => opt
                 end).
    assert (Hstep : forall k', opt1 !! k'
                               = if decide (k' = k0) then wrapped <$> opt !! k0 else opt !! k').
    { intros k'. unfold opt1. destruct (decide (k' = k0)) as [->|Hne].
      - destruct (opt !! k0) as [v|] eqn:Hv; [|by rewrite Hv].
        destruct v; simpl; rewrite ?lookup_insert_eq, ?Hv; done.
      - destruct (opt !! k0) as [v|] eqn:Hv; [|done].
        destruct (negb _); [by rewrite lookup_insert_ne|done]. }
    rewrite Hstep.
    destruct (decide (k ∈ k0 :: keys)) as [Hin|Hnotin].
    + destruct (decide (k = k0)) as [->|Hne].
      * destruct (decide (k0 ∈ keys)); [|done].
        destruct (opt !! k0) as [v|]; [|done]. simpl. by rewrite wrapped_idemp.
      * apply elem_of_cons in Hin as [?|Hin]; [done|].
        destruct (decide (k ∈ keys)); done.
    + destruct (decide (k = k0)) as [->|Hne].
      * exfalso. apply Hnotin, list_elem_of_here.
      * destruct (decide (k ∈ keys)) as [Hin|_]; [|done].
        exfalso. by apply Hnotin, list_elem_of_further.
Qed.
End GridFacts.

(** X23.  The normalisation at the start of every [new()] turns each
    searched option that is present and is not a list into the list that
    holds it, and changes nothing else: a list is kept as it is, an absent
    option stays absent, the other options are untouched, and normalising a
    second time changes nothing. *)
Theorem wrap_searchable_normalises (keys : list string) (opt : gmap string pyval) :
  let w := Grid.wrap_searchable keys opt in
  dom w = dom opt
  /\ (forall k : string, k ∉ keys -> w !! k = opt !! k)
  /\ (forall k : string, k ∈ keys -> w !! k = GridSpec.wrapped <$> opt !! k)
  /\ (forall (k : string) (v : pyval),
        k ∈ keys -> w !! k = Some v -> exists l, v = PyList l)
  /\ Grid.wrap_searchable keys w = w.
Proof.
  intros w.
  assert (Hlookup := GridFacts.wrap_searchable_lookup keys).
  split; [|split; [|split; [|split]]].
  - apply set_eq. intros k. rewrite !elem_of_dom. unfold w. rewrite Hlookup.
    destruct (decide (k ∈ keys)); [|done]. by rewrite fmap_is_Some.
  - intros k Hk. unfold w. rewrite Hlookup. by rewrite decide_False.
  - intros k Hk. unfold w. rewrite Hlookup. by rewrite decide_True.
  - intros k v Hk. unfold w. rewrite Hlookup, decide_True by done.
    destruct (opt !! k) as [v0|]; [|done]. simpl. intros Hv. injection Hv as <-.
    destruct v0; simpl; eauto.
  - apply map_eq. intros k. rewrite Hlookup. unfold w. rewrite Hlookup.
    destruct (decide (k ∈ keys)); [|done].
    destruct (opt !! k) as [v|]; [|done]. simpl. by rewrite GridFacts.wrapped_idemp.
Qed.

(** ** The aggregator-tier outlier search, over a whole run *)

Module OutlierRunFacts.
Import Search OutlierDetectorAggregatorSearch OutlierSearchRun.

Section Driver.
Context {Aggregator Features Data Remover Scores ClassMapping : Type}.
Context `{!Aggregation Aggregator Features Data}.
Context (remover_fit : Remover -> Data -> list Z -> Remover).
Context (remover_score_sample : Remover -> Data -> Scores).
Context (roc_auc_score : list Z -> Scores -> Q).

Local Abbreviation evaluate := (evaluate_candidate remover_fit remover_score_sample roc_auc_score).
Local Abbreviation step := (fit_step remover_fit remover_score_sample roc_auc_score).
Local Abbreviation loop := (fit_loop remover_fit remover_score_sample roc_auc_score).
Local Abbreviation scores_of := (run_scores remover_fit remover_score_sample roc_auc_score).
Local Abbreviation invariant := (run_invariant remover_score_sample roc_auc_score).

Lemma initial_invariant (inp : @inputs Features ClassMapping)
    (aggregators : list Aggregator) (rem : Remover)
    (folder : option (@Checkpoint Aggregator Remover ClassMapping)) :
  invariant inp folder [] (initial aggregators rem folder).
Proof.
  unfold run_invariant. simpl. split; [apply Qle_refl|]. split; [|done].
  intros s Hs. by apply elem_of_nil in Hs.
Qed.

(** One pass of the loop keeps the invariant. *)
Lemma step_invariant (inp : @inputs Features ClassMapping)
    (folder : option (@Checkpoint Aggregator Remover ClassMapping))
    (a : nat) (agg : Aggregator) (pre : list Q)
    (st : @state Aggregator Remover ClassMapping) :
  length pre = a ->
  (a < length (aggregator_list st))%nat ->
  invariant inp folder pre st ->
  invariant inp folder (pre ++ [snd (evaluate inp a agg st)]) (step inp a agg st)
  /\ length (aggregator_list (step inp a agg st)) = length (aggregator_list st).
Proof.
  intros Hlen Ha (Hnonneg & Hle & Hbest).
  unfold fit_step, evaluate_candidate, track_best.
  destruct (fit_transform agg (x inp)) as [agg' x_transformed] eqn:Hft. simpl.
  set (rem := remover_fit (remover st) x_transformed (y inp)).
  set (score := roc_auc_score _ _).
  destruct (Py.float_gt score (best_score st)) eqn:Hgt; simpl.
  - apply NpFacts.float_gt_true in Hgt.
    split; [|by rewrite length_insert].
    unfold run_invariant. simpl.
    split; [apply Qlt_le_weak; by eapply Qle_lt_trans|].
    split.
    { intros s [Hin|Hin]%elem_of_app.
      - apply Qlt_le_weak. eapply Qle_lt_trans; [by apply Hle|done].
      - apply list_elem_of_singleton in Hin. subst. apply Qle_refl. }
    split; [rewrite lookup_app_r by lia; by rewrite Hlen, Nat.sub_diag|].
    split; [by eapply Qle_lt_trans|].
    split.
    { intros i s Hi Hs. rewrite lookup_app_l in Hs by lia.
      eapply Qle_lt_trans; [|exact Hgt]. apply Hle.
      by apply (list_elem_of_lookup_2 _ i). }
    split; [done|]. split; [done|].
    eexists. split; [done|]. unfold checkpoint_score. simpl.
    split; [done|]. split; [by apply list_lookup_insert_eq|done].
  - apply NpFacts.float_gt_false in Hgt.
    split; [|by rewrite length_insert].
    unfold run_invariant. simpl.
    split; [done|]. split.
    { intros s [Hin|Hin]%elem_of_app; [by apply Hle|].
      apply list_elem_of_singleton in Hin. by subst. }
    destruct (best_candidate st) as [a0|]; [|done].
    destruct Hbest as (Hat & Hpos & Hlt & Hfa & Hfr & c & Hmf & Hsc & Hagg & Hopt & Hcm).
    assert (Ha0 : (a0 < length pre)%nat) by (by apply lookup_lt_Some in Hat).
    split; [by rewrite lookup_app_l|]. split; [done|]. split.
    { intros i s Hi Hs. apply (Hlt i s Hi). rewrite lookup_app_l in Hs; [done|lia]. }
    split; [done|]. split; [done|].
    exists c. split; [done|]. split; [done|].
    split; [|done]. rewrite list_lookup_insert_ne; [done|lia].
Qed.

Lemma step_score (inp : @inputs Features ClassMapping) (a : nat) (agg : Aggregator)
    (st : @state Aggregator Remover ClassMapping) :
  step inp a agg st
  = track_best inp a (fst (fst (evaluate inp a agg st))) (snd (evaluate inp a agg st))
      (snd (fst (evaluate inp a agg st))).
Proof. unfold fit_step. by destruct (evaluate inp a agg st) as [[agg' st1] score]. Qed.

Lemma run_scores_cons (inp : @inputs Features ClassMapping) (a : nat) (agg : Aggregator)
    (rest : list Aggregator) (st : @state Aggregator Remover ClassMapping) :
  scores_of inp a (agg :: rest) st
  = snd (evaluate inp a agg st) :: scores_of inp (S a) rest (step inp a agg st).
Proof.
  rewrite step_score. simpl.
  by destruct (evaluate inp a agg st) as [[agg' st1] score].
Qed.

(** The loop keeps the invariant. *)
Lemma run_loop_invariant (inp : @inputs Features ClassMapping)
    (folder : option (@Checkpoint Aggregator Remover ClassMapping))
    (todo : list Aggregator) :
  forall (a : nat) (pre : list Q) (st : @state Aggregator Remover ClassMapping),
    length pre = a ->
    (a + length todo <= length (aggregator_list st))%nat ->
    invariant inp folder pre st ->
    invariant inp folder (pre ++ scores_of inp a todo st) (loop inp a todo st).
Proof.
  induction todo as [|agg rest IH]; intros a pre st Hlen Hfit Hinv.
  - simpl. by rewrite app_nil_r.
  - rewrite run_scores_cons. cbn [fit_loop]. simpl in Hfit.
    destruct (step_invariant inp folder a agg pre st Hlen ltac:(lia) Hinv) as [Hinv' Hlen'].
    rewrite (cons_middle _ pre), app_assoc.
    apply IH; [rewrite length_app; simpl; lia|rewrite Hlen'; lia|done].
Qed.

(** The invariant at the end of [fit]. *)
Lemma fit_invariant (inp : @inputs Features ClassMapping)
    (aggregators : list Aggregator) (rem : Remover)
    (folder : option (@Checkpoint Aggregator Remover ClassMapping)) :
  invariant inp folder
    (scores_of inp 0 aggregators (initial aggregators rem folder))
    (fst (fit remover_fit remover_score_sample roc_auc_score inp aggregators rem folder)).
Proof.
  assert (Hinv := run_loop_invariant inp folder aggregators 0 []
                    (initial aggregators rem folder) eq_refl ltac:(simpl; lia)
                    (initial_invariant inp aggregators rem folder)).
  simpl in Hinv. unfold fit.
  destruct (best_candidate (loop inp 0 aggregators (initial aggregators rem folder)));
    [|done].
  by destruct (aggregator_list _ !! _).
Qed.

Lemma fit_state (inp : @inputs Features ClassMapping)
    (aggregators : list Aggregator) (rem : Remover)
    (folder : option (@Checkpoint Aggregator Remover ClassMapping)) :
  fst (fit remover_fit remover_score_sample roc_auc_score inp aggregators rem folder)
  = loop inp 0 aggregators (initial aggregators rem folder).
Proof.
  unfold fit.
  destruct (best_candidate (loop inp 0 aggregators (initial aggregators rem folder)));
    [|done].
  by destruct (aggregator_list _ !! _).
Qed.

Lemma fit_result (inp : @inputs Features ClassMapping)
    (aggregators : list Aggregator) (rem : Remover)
    (folder : option (@Checkpoint Aggregator Remover ClassMapping)) :
  let st := loop inp 0 aggregators (initial aggregators rem folder) in
  snd (fit remover_fit remover_score_sample roc_auc_score inp aggregators rem folder)
  = match best_candidate st with
    | None => raise AttributeError
    | Some a =>
        match aggregator_list st !! a with
        | Some agg =>
            do reported <- report_keys (map fst (map_to_list (aggregator_opt agg))) (opt inp);
            ok (overridden (aggregator_opt agg) (opt inp), best_score st)
        | None => raise AttributeError
        end
    end.
Proof.
  intros st. unfold fit. fold st.
  destruct (best_candidate st); [|done].
  by destruct (aggregator_list st !! _).
Qed.

Lemma loop_app (inp : @inputs Features ClassMapping) (l1 l2 : list Aggregator) :
  forall (a : nat) (st : @state Aggregator Remover ClassMapping),
    loop inp a (l1 ++ l2) st = loop inp (a + length l1) l2 (loop inp a l1 st).
Proof.
  induction l1 as [|agg l1 IH]; intros a st; simpl.
  - by rewrite Nat.add_0_r.
  - rewrite IH. f_equal. lia.
Qed.

Lemma track_best_remover (inp : @inputs Features ClassMapping) (a : nat) (agg : Aggregator)
    (score : Q) (st : @state Aggregator Remover ClassMapping) :
  remover (track_best inp a agg score st) = remover st.
Proof. unfold track_best. by destruct (Py.float_gt _ _). Qed.

Lemma run_scores_length (inp : @inputs Features ClassMapping) (todo : list Aggregator) :
  forall (a : nat) (st : @state Aggregator Remover ClassMapping),
    length (scores_of inp a todo st) = length todo.
Proof.
  induction todo as [|agg rest IH]; intros a st; [done|].
  rewrite run_scores_cons. simpl. by rewrite IH.
Qed.
End Driver.

End OutlierRunFacts.

(** X24.  Over a whole run of the aggregator-tier outlier search, with
    [scores] the AUROC of each candidate in the order of the loop: the
    recorded best score is at least every candidate's AUROC; a recorded
    candidate is the first one that reaches the highest AUROC, and that AUROC
    is positive; and no candidate is recorded exactly when no AUROC is
    positive. *)
Theorem outlier_fit_records_first_maximum
    {Aggregator Features Data Remover Scores ClassMapping : Type}
    `{!Search.Aggregation Aggregator Features Data}
    (remover_fit : Remover -> Data -> list Z -> Remover)
    (remover_score_sample : Remover -> Data -> Scores)
    (roc_auc_score : list Z -> Scores -> Q)
    (inp : @OutlierDetectorAggregatorSearch.inputs Features ClassMapping)
    (aggregators : list Aggregator) (rem : Remover)
    (folder : option (@OutlierDetectorAggregatorSearch.Checkpoint
                        Aggregator Remover ClassMapping)) :
  let st :=
    fst (OutlierDetectorAggregatorSearch.fit remover_fit remover_score_sample roc_auc_score
           inp aggregators rem folder) in
  let scores :=
    OutlierSearchRun.run_scores remover_fit remover_score_sample roc_auc_score inp 0
      aggregators (OutlierDetectorAggregatorSearch.initial aggregators rem folder) in
  length scores = length aggregators
  /\ (forall s : Q, s ∈ scores -> (s <= OutlierDetectorAggregatorSearch.best_score st)%Q)
  /\ (forall a : nat,
        OutlierDetectorAggregatorSearch.best_candidate st = Some a ->
        scores !! a = Some (OutlierDetectorAggregatorSearch.best_score st)
        /\ (0 < OutlierDetectorAggregatorSearch.best_score st)%Q
        /\ forall (i : nat) (s : Q), (i < a)%nat -> scores !! i = Some s ->
             (s < OutlierDetectorAggregatorSearch.best_score st)%Q)
  /\ (OutlierDetectorAggregatorSearch.best_candidate st = None
      <-> forall s : Q, s ∈ scores -> (s <= 0)%Q).
Proof.
  intros st scores.
  destruct (OutlierRunFacts.fit_invariant remover_fit remover_score_sample roc_auc_score
              inp aggregators rem folder) as (Hnonneg & Hle & Hbest).
  fold st scores in Hnonneg, Hle, Hbest.
  split; [apply OutlierRunFacts.run_scores_length|].
  split; [done|]. split.
  - intros a Ha. rewrite Ha in Hbest.
    destruct Hbest as (Hat & Hpos & Hlt & _). done.
  - destruct (OutlierDetectorAggregatorSearch.best_candidate st) as [a|].
    + destruct Hbest as (Hat & Hpos & _). split; [done|].
      intros Hall. exfalso. apply (Qlt_not_le _ _ Hpos), Hall.
      by apply (list_elem_of_lookup_2 _ a).
    + destruct Hbest as (Hzero & _). split; [|done].
      intros _ s Hs. rewrite <- Hzero. by apply Hle.
Qed.

Lemma outlier_fit_records_first_maximum_witness :
  let st := fst SearchSamples.outlier_tie_run in
  let scores :=
    OutlierSearchRun.run_scores SearchSamples.sample_remover_fit
      SearchSamples.sample_score_sample SearchSamples.sample_auroc
      SearchSamples.outlier_inputs 0
      [SearchSamples.bag_of_words 64; SearchSamples.bag_of_words 128;
       SearchSamples.bag_of_words 256]
      (OutlierDetectorAggregatorSearch.initial
         [SearchSamples.bag_of_words 64; SearchSamples.bag_of_words 128;
          SearchSamples.bag_of_words 256] None None) in
  scores !! 1%nat = Some (OutlierDetectorAggregatorSearch.best_score st)
  /\ (0 < OutlierDetectorAggregatorSearch.best_score st)%Q
  /\ forall (i : nat) (s : Q), (i < 1)%nat -> scores !! i = Some s ->
       (s < OutlierDetectorAggregatorSearch.best_score st)%Q.
Proof.
  apply (proj1 (proj2 (proj2 (outlier_fit_records_first_maximum
                                SearchSamples.sample_remover_fit
                                SearchSamples.sample_score_sample
                                SearchSamples.sample_auroc SearchSamples.outlier_inputs
                                [SearchSamples.bag_of_words 64;
                                 SearchSamples.bag_of_words 128;
                                 SearchSamples.bag_of_words 256] None None))) 1%nat).
  vm_compute. reflexivity.
Defined.

(** X25.  What [fit] of the aggregator-tier outlier search returns is what
    it has saved: when it returns, the AUROC returned is positive and is the
    AUROC, on the test data, of the aggregator and the remover in the model
    folder, and the options it leaves in [self.opt] are the options saved
    there, beside the class mapping.  When no candidate has a positive AUROC
    the call raises [AttributeError] and the model folder holds what it held
    before. *)
Theorem outlier_fit_returns_saved_detector
    {Aggregator Features Data Remover Scores ClassMapping : Type}
    `{!Search.Aggregation Aggregator Features Data}
    (remover_fit : Remover -> Data -> list Z -> Remover)
    (remover_score_sample : Remover -> Data -> Scores)
    (roc_auc_score : list Z -> Scores -> Q)
    (inp : @OutlierDetectorAggregatorSearch.inputs Features ClassMapping)
    (aggregators : list Aggregator) (rem : Remover)
    (folder : option (@OutlierDetectorAggregatorSearch.Checkpoint
                        Aggregator Remover ClassMapping)) :
  let run :=
    OutlierDetectorAggregatorSearch.fit remover_fit remover_score_sample roc_auc_score
      inp aggregators rem folder in
  let scores :=
    OutlierSearchRun.run_scores remover_fit remover_score_sample roc_auc_score inp 0
      aggregators (OutlierDetectorAggregatorSearch.initial aggregators rem folder) in
  (forall (final_opt : gmap string pyval) (score : Q),
      snd run = ok (final_opt, score) ->
      (0 < score)%Q
      /\ exists c : @OutlierDetectorAggregatorSearch.Checkpoint Aggregator Remover ClassMapping,
           OutlierDetectorAggregatorSearch.model_folder (fst run) = Some c
           /\ OutlierSearchRun.checkpoint_score remover_score_sample roc_auc_score inp c
              = score
           /\ OutlierDetectorAggregatorSearch.saved_opt c = final_opt
           /\ OutlierDetectorAggregatorSearch.saved_class_mapping c
              = OutlierDetectorAggregatorSearch.class_mapping inp)
  /\ ((forall s : Q, s ∈ scores -> (s <= 0)%Q) ->
      snd run = raise AttributeError
      /\ OutlierDetectorAggregatorSearch.model_folder (fst run) = folder).
Proof.
  intros run scores.
  destruct (OutlierRunFacts.fit_invariant remover_fit remover_score_sample roc_auc_score
              inp aggregators rem folder) as (Hnonneg & Hle & Hbest).
  fold run scores in Hnonneg, Hle, Hbest.
  assert (Hrun := OutlierRunFacts.fit_result remover_fit remover_score_sample roc_auc_score
                    inp aggregators rem folder).
  rewrite <- (OutlierRunFacts.fit_state remover_fit remover_score_sample roc_auc_score)
    in Hrun.
  fold run in Hrun. cbv zeta in Hrun.
  split.
  - intros final_opt score Hok. rewrite Hrun in Hok.
    destruct (OutlierDetectorAggregatorSearch.best_candidate (fst run)) as [a|]; [|done].
    destruct Hbest as (_ & Hpos & _ & _ & _ & c & Hmf & Hsc & Hagg & Hopt & Hcm).
    rewrite Hagg in Hok.
    destruct (OutlierDetectorAggregatorSearch.report_keys _ _) as [e|[]]; [done|].
    simpl in Hok. unfold ok in Hok. injection Hok as <- <-.
    split; [done|]. by exists c.
  - intros Hall. rewrite Hrun.
    destruct (OutlierDetectorAggregatorSearch.best_candidate (fst run)) as [a|].
    + destruct Hbest as (Hat & Hpos & _). exfalso.
      apply (Qlt_not_le _ _ Hpos), Hall. by apply (list_elem_of_lookup_2 _ a).
    + by destruct Hbest as (_ & Hmf & _).
Qed.

Lemma outlier_fit_returns_saved_detector_witness :
  (0 < 9 # 10)%Q
  /\ exists c,
       OutlierDetectorAggregatorSearch.model_folder (fst SearchSamples.outlier_tie_run) = Some c
       /\ OutlierSearchRun.checkpoint_score SearchSamples.sample_score_sample
            SearchSamples.sample_auroc SearchSamples.outlier_inputs c
          = 9 # 10
       /\ OutlierDetectorAggregatorSearch.saved_opt c
          = Search.overridden (SearchSamples.bow_opt (SearchSamples.bag_of_words 128))
              SearchSamples.sample_opt
       /\ OutlierDetectorAggregatorSearch.saved_class_mapping c
          = OutlierDetectorAggregatorSearch.class_mapping SearchSamples.outlier_inputs.
Proof.
  apply (proj1 (outlier_fit_returns_saved_detector
                  SearchSamples.sample_remover_fit SearchSamples.sample_score_sample
                  SearchSamples.sample_auroc SearchSamples.outlier_inputs
                  [SearchSamples.bag_of_words 64; SearchSamples.bag_of_words 128;
                   SearchSamples.bag_of_words 256] None None)).
  vm_compute. reflexivity.
Defined.

(** X26.  [self.final_remover] is the one remover object of the search, and
    that object is fitted again for every candidate: after [fit] it holds
    the fit for the last aggregator of the list, whichever candidate was the
    best, while the remover in the model folder is the one saved with the
    best candidate.  On the sample run, whose best candidate is the second
    of three, the two differ. *)
Theorem outlier_fit_leaves_last_remover
    {Aggregator Features Data Remover Scores ClassMapping : Type}
    `{!Search.Aggregation Aggregator Features Data}
    (remover_fit : Remover -> Data -> list Z -> Remover)
    (remover_score_sample : Remover -> Data -> Scores)
    (roc_auc_score : list Z -> Scores -> Q)
    (inp : @OutlierDetectorAggregatorSearch.inputs Features ClassMapping)
    (earlier : list Aggregator) (last : Aggregator) (rem : Remover)
    (folder : option (@OutlierDetectorAggregatorSearch.Checkpoint
                        Aggregator Remover ClassMapping)) :
  let st :=
    fst (OutlierDetectorAggregatorSearch.fit remover_fit remover_score_sample roc_auc_score
           inp (earlier ++ [last]) rem folder) in
  let before :=
    OutlierDetectorAggregatorSearch.fit_loop remover_fit remover_score_sample roc_auc_score
      inp 0 earlier (OutlierDetectorAggregatorSearch.initial (earlier ++ [last]) rem folder) in
  OutlierDetectorAggregatorSearch.remover st
  = remover_fit (OutlierDetectorAggregatorSearch.remover before)
      (snd (Search.fit_transform last (OutlierDetectorAggregatorSearch.x inp)))
      (OutlierDetectorAggregatorSearch.y inp)
  /\ (OutlierDetectorAggregatorSearch.best_candidate (fst SearchSamples.outlier_tie_run)
      = Some 1%nat
      /\ OutlierDetectorAggregatorSearch.remover (fst SearchSamples.outlier_tie_run)
         = Some 256%Z
      /\ OutlierDetectorAggregatorSearch.saved_remover
           <$> OutlierDetectorAggregatorSearch.model_folder (fst SearchSamples.outlier_tie_run)
         = Some (Some 128%Z)).
Proof.
  intros st before. split; [|by vm_compute].
  unfold st. rewrite OutlierRunFacts.fit_state, OutlierRunFacts.loop_app. fold before.
  cbn [OutlierDetectorAggregatorSearch.fit_loop].
  rewrite OutlierRunFacts.step_score, OutlierRunFacts.track_best_remover.
  unfold OutlierDetectorAggregatorSearch.evaluate_candidate.
  by destruct (Search.fit_transform last (OutlierDetectorAggregatorSearch.x inp)).
Qed.

(** ** The feature-tier outlier search *)

Module OutlierTierFacts.
Import Search OutlierDetectorSearch OutlierTierRun.

Section Driver.
Context {Aggregator Features Data Remover Scores ClassMapping : Type}.
Context `{!Aggregation Aggregator Features Data}.
Context (remover_fit : Remover -> Data -> list Z -> Remover).
Context (remover_score_sample : Remover -> Data -> Scores).
Context (roc_auc_score : list Z -> Scores -> Q).

Local Abbreviation run_child := (child_fit remover_fit remover_score_sample roc_auc_score).
Local Abbreviation loop := (fit_loop remover_fit remover_score_sample roc_auc_score).
Local Abbreviation invariant := (tier_invariant remover_score_sample roc_auc_score).

Lemma report_keys_raises (keys : list string) (opt : gmap string pyval) (e : exn) :
  OutlierDetectorAggregatorSearch.report_keys keys opt = raise e ->
  exists k : string, e = KeyError k.
Proof.
  induction keys as [|k keys IH]; simpl; [done|].
  unfold lookup_key. destruct (opt !! k) as [v|]; simpl.
  - exact IH.
  - unfold raise. intros Hraise. injection Hraise as <-. by exists k.
Qed.

(** A child that returns has saved a detector with the AUROC returned,
    which is positive. *)
Lemma child_fit_returns (c : @child Aggregator Features Remover ClassMapping)
    (folder folder' : option (@OutlierDetectorAggregatorSearch.Checkpoint
                                Aggregator Remover ClassMapping))
    (score : Q) :
  run_child c folder = (folder', ok score) ->
  (0 < score)%Q
  /\ exists checkpoint,
       folder' = Some checkpoint
       /\ OutlierSearchRun.checkpoint_score remover_score_sample roc_auc_score
            (child_inputs c) checkpoint
          = score.
Proof.
  unfold child_fit.
  assert (Hinv := OutlierRunFacts.fit_invariant remover_fit remover_score_sample
                    roc_auc_score (child_inputs c) (child_aggregators c)
                    (child_remover c) folder).
  assert (Hres := OutlierRunFacts.fit_result remover_fit remover_score_sample
                    roc_auc_score (child_inputs c) (child_aggregators c)
                    (child_remover c) folder).
  rewrite <- (OutlierRunFacts.fit_state remover_fit remover_score_sample roc_auc_score)
    in Hres.
  cbv zeta in Hres.
  destruct (OutlierDetectorAggregatorSearch.fit _ _ _ _ _ _ _) as [st r].
  simpl in Hinv, Hres. subst r.
  destruct Hinv as (_ & _ & Hbest).
  destruct (OutlierDetectorAggregatorSearch.best_candidate st) as [a|]; [|done].
  destruct Hbest as (_ & Hpos & _ & _ & _ & ck & Hmf & Hsc & Hagg & _).
  rewrite Hagg.
  destruct (OutlierDetectorAggregatorSearch.report_keys _ _) as [e|[]]; [done|].
  simpl. unfold ok. intros Heq. injection Heq as <- <-.
  split; [done|]. by exists ck.
Qed.

(** A child raises when it has found no candidate of positive AUROC, or in
    its report. *)
Lemma child_fit_raises (c : @child Aggregator Features Remover ClassMapping)
    (folder : option (@OutlierDetectorAggregatorSearch.Checkpoint
                        Aggregator Remover ClassMapping))
    (e : exn) :
  snd (run_child c folder) = raise e ->
  e = AttributeError \/ exists k : string, e = KeyError k.
Proof.
  unfold child_fit.
  assert (Hres := OutlierRunFacts.fit_result remover_fit remover_score_sample
                    roc_auc_score (child_inputs c) (child_aggregators c)
                    (child_remover c) folder).
  rewrite <- (OutlierRunFacts.fit_state remover_fit remover_score_sample roc_auc_score)
    in Hres.
  cbv zeta in Hres.
  destruct (OutlierDetectorAggregatorSearch.fit _ _ _ _ _ _ _) as [st r].
  simpl in Hres. subst r. simpl.
  destruct (OutlierDetectorAggregatorSearch.best_candidate st) as [a|];
    [|unfold raise; intros Heq; injection Heq as <-; by left].
  destruct (OutlierDetectorAggregatorSearch.aggregator_list st !! a) as [agg|];
    [|unfold raise; intros Heq; injection Heq as <-; by left].
  destruct (OutlierDetectorAggregatorSearch.report_keys _ _) as [e'|[]] eqn:Hrep; [|done].
  simpl. unfold raise. intros Heq. injection Heq as <-. right.
  by apply (report_keys_raises _ _ _ Hrep).
Qed.

(** The loop: when it ends without an exception the invariant holds at the
    end, and a child has been recorded when there was one to run; an
    exception is a child's. *)
Lemma tier_loop_invariant (children : list (@child Aggregator Features Remover ClassMapping))
    (todo : list (@child Aggregator Features Remover ClassMapping)) :
  forall (done_ : list (@child Aggregator Features Remover ClassMapping)) (i : nat)
         (st : @state Aggregator Remover ClassMapping),
    children = done_ ++ todo ->
    length done_ = i ->
    invariant children i st ->
    (snd (loop i todo st) = None ->
     invariant children (length children) (fst (loop i todo st)))
    /\ (forall e : exn, snd (loop i todo st) = Some e ->
          e = AttributeError \/ exists k : string, e = KeyError k).
Proof.
  induction todo as [|c rest IH]; intros done_ i st Hchildren Hlen Hinv.
  - simpl. split; [|done]. intros _.
    assert (Hall : length children = i) by (by rewrite Hchildren, app_nil_r).
    rewrite Hall. exact Hinv.
  - cbn [fit_loop].
    destruct (run_child c (versions st !! i)) as [folder' r] eqn:Hchild.
    destruct r as [e|score].
    + simpl. split; [done|]. intros e' He'. injection He' as <-.
      apply (child_fit_raises c (versions st !! i)). by rewrite Hchild.
    + destruct (child_fit_returns c _ _ _ Hchild) as (Hpos & ck & -> & Hsc).
      assert (Hc : children !! i = Some c).
      { rewrite Hchildren, lookup_app_r by lia. by rewrite Hlen, Nat.sub_diag. }
      apply (IH (done_ ++ [c]) (S i)).
      * by rewrite <- app_assoc.
      * rewrite length_app. simpl. lia.
      * unfold tier_invariant in *. simpl.
        destruct (Py.float_gt score (best_score st)) eqn:Hgt; simpl.
        -- split; [lia|]. split; [done|]. exists c, ck.
           split; [done|]. split; [by rewrite lookup_insert_eq|done].
        -- apply NpFacts.float_gt_false in Hgt.
           destruct (best_candidate st) as [j|].
           ++ destruct Hinv as (Hj & Hbest & c' & ck' & Hc' & Hv & Hsc').
              split; [lia|]. split; [done|]. exists c', ck'.
              split; [done|]. split; [|done].
              rewrite lookup_insert_ne; [done|lia].
           ++ destruct Hinv as (_ & Hzero). exfalso.
              rewrite Hzero in Hgt. by apply (Qlt_not_le _ _ Hpos).
Qed.
End Driver.

End OutlierTierFacts.



(** ** The feature map *)

Module FeatureMapFacts.
Import FeatureMap.

Lemma for_each_length {A B : Type} (body : A -> result B) (items : list A) :
  forall bs : list B, for_each body items = ok bs -> length bs = length items.
Proof.
  induction items as [|item rest IH]; simpl; intros bs Hok.
  - unfold ok in Hok. by injection Hok as <-.
  - destruct (body item) as [e|b]; [done|]. simpl in Hok.
    destruct (for_each body rest) as [e|bs']; [done|]. simpl in Hok.
    unfold ok in Hok. injection Hok as <-. simpl. by rewrite (IH bs').
Qed.

Lemma for_each_Forall {A B : Type} (P : B -> Prop) (body : A -> result B)
    (items : list A) :
  (forall (item : A) (b : B), body item = ok b -> P b) ->
  forall bs : list B, for_each body items = ok bs -> Forall P bs.
Proof.
  intros Hbody. induction items as [|item rest IH]; simpl; intros bs Hok.
  - unfold ok in Hok. injection Hok as <-. apply Forall_nil_2.
  - destruct (body item) as [e|b] eqn:Hb; [done|]. simpl in Hok.
    destruct (for_each body rest) as [e|bs']; [done|]. simpl in Hok.
    unfold ok in Hok. injection Hok as <-.
    apply Forall_cons. split; [by apply (Hbody item)|by apply IH].
Qed.

(** Stacking matrices of one row each gives one row per matrix. *)
Lemma concat_single_rows (descriptors : list Matrix) :
  Forall (fun d : Matrix => length d = 1%nat) descriptors ->
  length (concat descriptors) = length descriptors.
Proof.
  induction 1 as [|d ds Hd _ IH]; [done|].
  simpl. rewrite length_app, IH, Hd. done.
Qed.

Lemma np_concatenate_axis0_ok (descriptors : list Matrix) (m : Matrix) :
  np_concatenate_axis0 descriptors = ok m ->
  descriptors <> []
  /\ m = concat descriptors
  /\ forall r1 r2 : list Q, r1 ∈ m -> r2 ∈ m -> length r1 = length r2.
Proof.
  unfold np_concatenate_axis0.
  destruct descriptors as [|d ds]; [done|].
  destruct (concat (d :: ds)) as [|row rows]; unfold ok; intros Hok.
  - injection Hok as <-. split; [done|]. split; [done|].
    intros r1 r2 Hr1. by apply elem_of_nil in Hr1.
  - destruct (forallb _ rows) eqn:Hall; [|done].
    injection Hok as <-. split; [done|]. split; [done|].
    assert (Hrow : forall r : list Q, r ∈ row :: rows -> length r = length row).
    { intros r [->|Hr]%elem_of_cons; [done|].
      rewrite forallb_forall in Hall. apply Nat.eqb_eq, Hall.
      by apply list_elem_of_In. }
    intros r1 r2 Hr1 Hr2. by rewrite (Hrow r1), (Hrow r2).
Qed.
End FeatureMapFacts.

(** X28.  [to_descriptors_with_histogram] answers [None] only for an empty
    list of key points, and a matrix it returns has exactly one row per key
    point, all rows of one length.  [to_descriptor_with_pooling] has no such
    case: without key points it raises [ValueError], and whatever it returns
    comes from at least one key point. *)
Theorem feature_map_descriptor_rows {Map Roi : Type}
    (set_to_resolution : Map -> Z -> result Map)
    (cut_roi : Map -> Z * Z -> Z -> result Roi)
    (histogram : Roi -> Z -> result (list Q))
    (global_pooling : Roi -> string -> result FeatureMap.Matrix)
    (feature_map : Map) (key_points : list (Z * Z * Z)) (resolution : Z)
    (pooling_mode : string) :
  let with_histogram :=
    FeatureMap.to_descriptors_with_histogram set_to_resolution cut_roi histogram
      feature_map key_points resolution in
  let with_pooling :=
    FeatureMap.to_descriptor_with_pooling cut_roi global_pooling
      feature_map key_points pooling_mode in
  (with_histogram = ok None -> key_points = [])
  /\ (forall m : FeatureMap.Matrix,
        with_histogram = ok (Some m) ->
        key_points <> []
        /\ length m = length key_points
        /\ forall r1 r2 : list Q, r1 ∈ m -> r2 ∈ m -> length r1 = length r2)
  /\ (key_points = [] -> with_pooling = raise ValueError)
  /\ (forall m : FeatureMap.Matrix, with_pooling = ok m -> key_points <> []).
Proof.
  intros with_histogram with_pooling.
  unfold with_histogram, with_pooling, FeatureMap.to_descriptors_with_histogram,
    FeatureMap.to_descriptor_with_pooling.
  assert (Hhist :
    forall mat,
      match FeatureMap.for_each
              (fun '(x, y, s) =>
                 do roi <- cut_roi mat (x, y) s;
                 do desc <- histogram roi resolution;
                 ok [desc]) key_points with
      | inl _ => True
      | inr ds => length ds = length key_points
                  /\ Forall (fun d : FeatureMap.Matrix => length d = 1%nat) ds
      end).
  { intros mat.
    destruct (FeatureMap.for_each _ key_points) as [e|ds] eqn:Hds; [done|]. split.
    - by apply (FeatureMapFacts.for_each_length _ _ _ Hds).
    - refine (FeatureMapFacts.for_each_Forall _ _ _ _ _ Hds).
      intros [[x y] s] b Hb. simpl in Hb.
      destruct (cut_roi mat (x, y) s) as [e|roi]; [done|]. simpl in Hb.
      destruct (histogram roi resolution) as [e|desc]; [done|]. simpl in Hb.
      unfold ok in Hb. by injection Hb as <-. }
  split; [|split; [|split]].
  - destruct (set_to_resolution feature_map resolution) as [e|mat]; [done|]. simpl.
    specialize (Hhist mat).
    destruct (FeatureMap.for_each _ key_points) as [e|ds]; [done|]. simpl.
    destruct Hhist as [Hlen _].
    destruct ds as [|d [|d' ds]].
    + intros _. by apply length_zero_iff_nil.
    + done.
    + destruct (FeatureMap.np_concatenate_axis0 _); done.
  - intros m.
    destruct (set_to_resolution feature_map resolution) as [e|mat]; [done|]. simpl.
    specialize (Hhist mat).
    destruct (FeatureMap.for_each _ key_points) as [e|ds]; [done|]. simpl.
    destruct Hhist as [Hlen Hrows].
    destruct ds as [|d [|d' ds]].
    + done.
    + unfold ok. intros Hok. injection Hok as <-.
      apply Forall_cons in Hrows as [Hd _].
      split; [by destruct key_points|]. split; [by rewrite Hd|].
      destruct d as [|r [|]]; try done.
      intros r1 r2 ->%list_elem_of_singleton ->%list_elem_of_singleton. done.
    + destruct (FeatureMap.np_concatenate_axis0 (d :: d' :: ds)) as [e|m'] eqn:Hcat;
        [done|].
      simpl. unfold ok. intros Hok. injection Hok as <-.
      destruct (FeatureMapFacts.np_concatenate_axis0_ok _ _ Hcat) as (_ & -> & Hsame).
      split; [by destruct key_points|]. split; [|done].
      by rewrite FeatureMapFacts.concat_single_rows.
  - by intros ->.
  - intros m.
    destruct (FeatureMap.for_each _ key_points) as [e|ds] eqn:Hds; [done|]. simpl.
    intros Hcat. apply FeatureMapFacts.np_concatenate_axis0_ok in Hcat as (Hne & _).
    intros ->. simpl in Hds. unfold ok in Hds. by injection Hds as <-.
Qed.

(** ** The grid of a search tier *)

Module TierFacts.
Import Grid GridSpec.

Lemma parameter_grid_length (items : list (string * list pyval)) :
  length (parameter_grid items)
  = foldr (fun item n => (length (snd item) * n)%nat) 1%nat items.
Proof.
  induction items as [|[k candidates] rest IH]; [done|].
  cbn [parameter_grid foldr snd]. rewrite <- IH.
  generalize (parameter_grid rest). intros points.
  induction candidates as [|v vs IHv]; [done|].
  change (length ((((fun point => <[k:=v]> point) <$> points)
                   ++ (vs ≫= fun v => (fun point => <[k:=v]> point) <$> points)))
          = (S (length vs) * length points)%nat).
  rewrite length_app, length_fmap, IHv. simpl. done.
Qed.

(** A grid point holds one candidate of every item and nothing else. *)
Lemma parameter_grid_point (items : list (string * list pyval)) :
  NoDup (items.*1) ->
  forall point : gmap string pyval,
    point ∈ parameter_grid items ->
    (forall (k : string) (candidates : list pyval),
        (k, candidates) ∈ items -> exists v, v ∈ candidates /\ point !! k = Some v)
    /\ (forall k : string, k ∉ items.*1 -> point !! k = None).
Proof.
  induction items as [|[k candidates] rest IH]; intros Hnd point Hpoint.
  - apply list_elem_of_singleton in Hpoint as ->. split.
    + intros k candidates Hin. by apply elem_of_nil in Hin.
    + intros k _. apply lookup_empty.
  - cbn [parameter_grid] in Hpoint.
    apply list_elem_of_bind in Hpoint as (v & Hpoint & Hv).
    apply list_elem_of_fmap in Hpoint as (point' & -> & Hpoint').
    simpl in Hnd. apply NoDup_cons in Hnd as [Hk Hnd].
    destruct (IH Hnd point' Hpoint') as [Hitems Hother]. split.
    + intros k' candidates' [Heq|Hin]%elem_of_cons.
      * injection Heq as -> ->. exists v. by rewrite lookup_insert_eq.
      * destruct (Hitems k' candidates' Hin) as (v' & Hv' & Hlookup).
        exists v'. split; [done|]. rewrite lookup_insert_ne; [done|].
        intros <-. apply Hk. apply list_elem_of_fmap. by exists (k, candidates').
    + intros k' Hk'. simpl in Hk'. rewrite lookup_insert_ne.
      * apply Hother. intros Hin. apply Hk'. by apply list_elem_of_further.
      * intros <-. apply Hk', list_elem_of_here.
Qed.

Lemma searched_elem (keys : list string) (opt : gmap string pyval)
    (k : string) (candidates : list pyval) :
  (k, candidates) ∈ searched keys opt
  <-> k ∈ keys /\ opt !! k = Some (PyList candidates).
Proof.
  unfold searched. rewrite list_elem_of_omap. split.
  - intros (k' & Hk' & Hsome).
    destruct (opt !! k') as [[]|] eqn:Hlookup; try done.
    injection Hsome as -> ->. done.
  - intros [Hk Hlookup]. exists k. split; [done|]. by rewrite Hlookup.
Qed.

Lemma searched_NoDup (keys : list string) (opt : gmap string pyval) :
  NoDup keys -> NoDup ((searched keys opt).*1).
Proof.
  induction keys as [|k keys IH]; intros Hnd; [apply NoDup_nil_2|].
  apply NoDup_cons in Hnd as [Hk Hnd].
  assert (Hrest : NoDup ((searched keys opt).*1)) by auto.
  unfold searched in *. simpl.
  destruct (opt !! k) as [[]|]; simpl; try done.
  apply NoDup_cons. split; [|done].
  intros ((k' & l') & Hfst & Hin)%list_elem_of_fmap. simpl in Hfst. subst k'.
  apply Hk. by apply (searched_elem keys opt k l').
Qed.

(** The number of grid points when the options are normalised. *)
Lemma searched_cons (k : string) (keys : list string) (opt : gmap string pyval) :
  searched (k :: keys) opt
  = match opt !! k with
    | Some (PyList candidates) => (k, candidates) :: searched keys opt
    | _ => searched keys opt
    end.
Proof. unfold searched. simpl. by destruct (opt !! k) as [[]|]. Qed.

Lemma searched_combinations (opt opt' : gmap string pyval) (keys : list string) :
  (forall k : string, k ∈ keys -> opt' !! k = wrapped <$> opt !! k) ->
  foldr (fun item n => (length (snd item) * n)%nat) 1%nat (searched keys opt')
  = combinations opt keys.
Proof.
  induction keys as [|k keys IH]; intros Hwrapped; [done|].
  assert (IH' := IH (fun k' Hk' => Hwrapped k' (list_elem_of_further _ _ _ Hk'))).
  rewrite searched_cons, (Hwrapped k) by apply list_elem_of_here.
  unfold combinations in *. cbn [foldr]. rewrite <- IH'. unfold candidates.
  destruct (opt !! k) as [v|]; [|simpl; lia].
  destruct v; simpl; lia.
Qed.
End TierFacts.

(** X29.  The configurations that [new()] of a search builds from the
    options it searches over, the keys being pairwise distinct: every
    configuration has the keys of the options given; a searched option holds
    in it one candidate of the list given, or the value given when that is no
    list; every other option holds what was given.  When no searched option
    is an empty list there are as many configurations as there are
    combinations of candidates. *)
Theorem tier_configurations (keys : list string) (opt : gmap string pyval) :
  NoDup keys ->
  (forall configuration : gmap string pyval,
      configuration ∈ Grid.tier keys opt ->
      dom configuration = dom opt
      /\ (forall k : string, k ∈ keys ->
            GridSpec.chosen (opt !! k) (configuration !! k))
      /\ (forall k : string, k ∉ keys -> configuration !! k = opt !! k))
  /\ ((forall k : string, k ∈ keys -> opt !! k <> Some (PyList [])) ->
      length (Grid.tier keys opt) = GridSpec.combinations opt keys).
Proof.
  intros Hnd. unfold Grid.tier. cbv zeta.
  assert (Hwrap := GridFacts.wrap_searchable_lookup keys opt).
  set (opt' := Grid.wrap_searchable keys opt) in *.
  split.
  - intros configuration Hin.
    apply list_elem_of_fmap in Hin as (point & -> & Hpoint).
    destruct (TierFacts.parameter_grid_point _ (TierFacts.searched_NoDup keys opt' Hnd)
                point Hpoint) as [Hitems Hother].
    assert (Hlookup : forall k : string,
               Grid.completed opt' point !! k
               = if decide (k ∈ keys)
                 then match opt !! k with
                      | Some v => point !! k
                      | None => None
                      end
                 else opt !! k).
    { intros k. unfold Grid.completed. rewrite lookup_union.
      destruct (decide (k ∈ keys)) as [Hk|Hk].
      - specialize (Hwrap k). rewrite decide_True in Hwrap by done.
        destruct (opt !! k) as [v|] eqn:Hv; simpl in Hwrap.
        + assert (Hsearched : exists l, opt' !! k = Some (PyList l)).
          { rewrite Hwrap. destruct v; simpl; eauto. }
          destruct Hsearched as [l Hl].
          destruct (Hitems k l) as (c & _ & ->); [by apply TierFacts.searched_elem|].
          rewrite Hl. done.
        + rewrite Hwrap, Hother; [done|].
          intros ((k' & l) & Heq & Hkl)%list_elem_of_fmap. simpl in Heq. subst k'.
          apply TierFacts.searched_elem in Hkl as [_ Hkl].
          rewrite Hwrap in Hkl. done.
      - specialize (Hwrap k). rewrite decide_False in Hwrap by done.
        rewrite Hwrap, Hother; [by destruct (opt !! k)|].
        intros ((k' & l) & Heq & Hkl)%list_elem_of_fmap. simpl in Heq. subst k'.
        by apply TierFacts.searched_elem in Hkl as [Hkl _]. }
    split; [|split].
    + apply set_eq. intros k. rewrite !elem_of_dom, Hlookup.
      destruct (decide (k ∈ keys)) as [Hk|Hk]; [|done].
      destruct (opt !! k) as [v|] eqn:Hv; [|by split; intros []].
      specialize (Hwrap k). rewrite decide_True, Hv in Hwrap by done. simpl in Hwrap.
      assert (Hsearched : exists l, opt' !! k = Some (PyList l)).
      { rewrite Hwrap. destruct v; simpl; eauto. }
      destruct Hsearched as [l Hl].
      destruct (Hitems k l) as (c & _ & ->); [by apply TierFacts.searched_elem|].
      split; eauto.
    + intros k Hk. rewrite Hlookup, decide_True by done.
      specialize (Hwrap k). rewrite decide_True in Hwrap by done.
      unfold GridSpec.chosen.
      destruct (opt !! k) as [v|] eqn:Hv; [|done]. simpl in Hwrap.
      destruct v as [|n|q|s|l|d].
      5: { destruct (Hitems k l) as (c & Hc & ->); [by apply TierFacts.searched_elem|].
           by exists c. }
      all: edestruct (Hitems k) as (c & Hc & ->);
        [apply TierFacts.searched_elem; split; [done|exact Hwrap]|];
        by apply list_elem_of_singleton in Hc as ->.
    + intros k Hk. by rewrite Hlookup, decide_False.
  - intros Hnonempty.
    rewrite length_fmap, TierFacts.parameter_grid_length.
    apply TierFacts.searched_combinations.
    intros k Hk. specialize (Hwrap k). by rewrite decide_True in Hwrap.
Qed.

Lemma tier_configurations_witness :
  length (Grid.tier Grid.feature_opt SearchSamples.sample_opt)
  = GridSpec.combinations SearchSamples.sample_opt Grid.feature_opt.
Proof.
  assert (Hnd : NoDup Grid.feature_opt).
  { apply (bool_decide_unpack _). vm_compute. reflexivity. }
  apply (proj2 (tier_configurations Grid.feature_opt SearchSamples.sample_opt Hnd)).
  intros k Hk.
  repeat (apply elem_of_cons in Hk as [->|Hk]; [by vm_compute|]).
  by apply elem_of_nil in Hk.
Defined.
